(** * zulip-claude-bot: the event-driven orchestration core

    A shallow embedding of the bot's TypeScript sources and the properties
    the specification states about them.

    - JavaScript strings are sequences of UTF-16 code units ([list N]);
      [length] is the number of code units, as [String.prototype.length].
    - JavaScript numbers that hold lengths, indices and ids are [Z].
    - The remote collaborators (the Zulip gateway, the answering engine,
      HTTP) are an oracle stored in the world; every request is appended
      to a trace, so that requests can be counted. *)

From Stdlib Require Import ZArith NArith Lia List String Ascii Bool DecimalString.
From stdpp Require Import gmap list.
Import ListNotations.

Local Open Scope Z_scope.

(** ** JavaScript strings *)

Abbreviation jsstring := (list N).

(** A string literal of the source (ASCII only). *)
Definition lit (s : string) : jsstring :=
  List.map N_of_ascii (list_ascii_of_string s).

Definition jslen (s : jsstring) : Z := Z.of_nat (length s).

Fixpoint jseqb (a b : jsstring) : bool :=
  match a, b with
  | [], [] => true
  | x :: a', y :: b' => N.eqb x y && jseqb a' b'
  | _, _ => false
  end.

(** ECMAScript WhiteSpace and LineTerminator code points: what [trimStart],
    [trimEnd] and the regular expression class [\s] recognise. *)
Definition is_ws (c : N) : bool :=
  let c := Z.of_N c in
  (c =? 9) || (c =? 10) || (c =? 11) || (c =? 12) || (c =? 13) || (c =? 32)
  || (c =? 160) || (c =? 5760) || ((8192 <=? c) && (c <=? 8202))
  || (c =? 8232) || (c =? 8233) || (c =? 8239) || (c =? 8287)
  || (c =? 12288) || (c =? 65279).

Fixpoint trimStart (s : jsstring) : jsstring :=
  match s with
  | c :: s' => if is_ws c then trimStart s' else s
  | [] => []
  end.

Definition trimEnd (s : jsstring) : jsstring := rev (trimStart (rev s)).

Definition trim (s : jsstring) : jsstring := trimEnd (trimStart s).

(** [pat] occurs in [s] at index 0. *)
Fixpoint startsWith (s pat : jsstring) {struct pat} : bool :=
  match pat, s with
  | [], _ => true
  | p :: pat', c :: s' => N.eqb p c && startsWith s' pat'
  | _ :: _, [] => false
  end.

(** [String.prototype.lastIndexOf(pat, pos)]: the largest index [k] with
    [0 <= k <= min (max pos 0) (length s - length pat)] at which [pat]
    occurs, or [-1].  One left-to-right pass that remembers the last
    admissible occurrence. *)
Fixpoint lastIndexOf_scan (s pat : jsstring) (i start best : Z) : Z :=
  let best' := if (i <=? start) && startsWith s pat then i else best in
  match s with
  | [] => best'
  | _ :: s' => lastIndexOf_scan s' pat (i + 1) start best'
  end.

Definition lastIndexOf (s pat : jsstring) (pos : Z) : Z :=
  lastIndexOf_scan s pat 0 (Z.max pos 0) (-1).

(** [String.prototype.includes]. *)
Fixpoint includes (s pat : jsstring) : bool :=
  startsWith s pat ||
  match s with
  | [] => false
  | _ :: s' => includes s' pat
  end.

(** [String.prototype.slice(b, e)]; a negative index counts from the end. *)
Definition slice_index (len i : Z) : Z :=
  if i <? 0 then Z.max (len + i) 0 else Z.min i len.

Definition slice (s : jsstring) (b e : Z) : jsstring :=
  let from := slice_index (jslen s) b in
  let to := slice_index (jslen s) e in
  firstn (Z.to_nat (to - from)) (skipn (Z.to_nat from) s).

Definition sliceFrom (s : jsstring) (b : Z) : jsstring := slice s b (jslen s).

(** [text.split(/\s+/).filter(Boolean).length]: the number of maximal runs
    of non-whitespace code units. *)
Fixpoint countWords_aux (inWord : bool) (s : jsstring) : Z :=
  match s with
  | [] => 0
  | c :: s' =>
      if is_ws c then countWords_aux false s'
      else (if inWord then 0 else 1) + countWords_aux true s'
  end.

Definition countWords (text : jsstring) : Z := countWords_aux false text.

(** [Array.prototype.join]. *)
Fixpoint join (sep : jsstring) (parts : list jsstring) : jsstring :=
  match parts with
  | [] => []
  | [p] => p
  | p :: rest => p ++ sep ++ join sep rest
  end.

(** ** Message splitting (zulip.ts) *)

Definition MAX_MESSAGE_LENGTH : Z := 9500.

Definition NL : jsstring := [10%N].
Definition NLNL : jsstring := [10%N; 10%N].

(** The index chosen by one turn of the [while] loop of [splitMessage]. *)
Definition splitIdx (remaining : jsstring) (maxLen : Z) : Z :=
  let splitIdx := lastIndexOf remaining NLNL maxLen in
  let splitIdx :=
    if splitIdx <=? 0 then lastIndexOf remaining NL maxLen else splitIdx in
  if splitIdx <=? 0 then maxLen else splitIdx.

(** The [while (remaining.length > maxLen)] loop.  [None]: still running
    when the fuel is used up. *)
Fixpoint splitLoop (fuel : nat) (chunks : list jsstring)
    (remaining : jsstring) (maxLen : Z) : option (list jsstring * jsstring) :=
  if jslen remaining >? maxLen then
    match fuel with
    | O => None
    | S fuel' =>
        let i := splitIdx remaining maxLen in
        splitLoop fuel'
          (chunks ++ [trimEnd (slice remaining 0 i)])
          (trimStart (sliceFrom remaining i)) maxLen
    end
  else Some (chunks, remaining).

(** [splitMessage(content, maxLen)], with the fuel the loop can need when
    it terminates at all. *)
Definition splitMessage (content : jsstring) (maxLen : Z)
  : option (list jsstring) :=
  if jslen content <=? maxLen then Some [content]
  else
    match splitLoop (S (length content)) [] content maxLen with
    | None => None
    | Some (chunks, remaining) =>
        Some (if jslen remaining >? 0 then chunks ++ [remaining] else chunks)
    end.

(** ** Data of the gateway (zulip.ts) *)

Inductive MessageType := stream | private.

(** [ZulipMessage]; [id], [type] and [content] carry the prefix [m_]. *)
Record ZulipMessage := {
  m_id : Z;
  sender_email : jsstring;
  sender_full_name : jsstring;
  m_type : MessageType;
  display_recipient : jsstring;
  subject : jsstring;
  m_content : jsstring }.

Record ZulipMessageEvent := {
  me_id : Z;
  message : ZulipMessage;
  flags : list jsstring }.

Inductive ReactionOp := add | remove.

Record ZulipReactionEvent := {
  re_id : Z;
  op : ReactionOp;
  user_id : Z;
  message_id : Z;
  emoji_name : jsstring;
  emoji_code : jsstring;
  reaction_type : jsstring }.

Inductive Event :=
| EvMessage (e : ZulipMessageEvent)
| EvReaction (e : ZulipReactionEvent)
| EvOther (type : jsstring) (id : Z).

Definition event_id (e : Event) : Z :=
  match e with
  | EvMessage e => me_id e
  | EvReaction e => re_id e
  | EvOther _ id => id
  end.

Record ZulipStream := {
  stream_id : Z;
  stream_name : jsstring;
  folder_id : option Z }.

(** Messages of the answering engine's SDK stream (claude.ts). *)
Inductive SdkMessage :=
| SdkTextDelta (text : jsstring)
| SdkResultSuccess (result : jsstring)
| SdkResultFailure (subtype errors : jsstring)
| SdkOther.

(** ** Configuration and service context *)

Record Config := {
  zulipRealm : jsstring;
  contextMessages : Z;
  tasksChannel : jsstring;
  taskEmoji : jsstring }.

(** [ServiceContext]; its [client] is the gateway held by the world. *)
Record ServiceContext := {
  config : Config;
  botEmail : jsstring;
  botUserId : Z }.

(** ** Persistent rows (db.ts) *)

Inductive Status := open | done.

(** [TaskRow]; [id], [content] and [created_at] carry the prefix [t_]. *)
Record TaskRow := {
  t_id : Z;
  t_content : jsstring;
  creator_name : jsstring;
  creator_user_id : option Z;
  status : Status;
  source_channel : jsstring;
  source_topic : jsstring;
  source_msg_id : Z;
  task_channel : option jsstring;
  task_topic : option jsstring;
  task_msg_id : option Z;
  own_topic : Z;
  t_created_at : jsstring;
  completed_at : option jsstring;
  completed_by : option jsstring }.

(** [AssigneeRow]; [id] and [user_id] carry the prefix [a_]. *)
Record AssigneeRow := {
  a_id : Z;
  task_id : Z;
  user_name : jsstring;
  a_user_id : option Z;
  assigned_at : jsstring }.

(** [DashboardRow]; [id], [name] and [created_at] carry the prefix [d_]. *)
Record DashboardRow := {
  d_id : Z;
  d_name : jsstring;
  channel : jsstring;
  topic : jsstring;
  msg_id : Z;
  interval_ms : Z;
  params : jsstring;
  bootstrapped : Z;
  d_created_at : jsstring }.

Record FeedItemRow := {
  f_id : Z;
  dashboard_id : Z;
  item_guid : jsstring;
  seen_at : jsstring }.

(** The four tables, each in rowid order, and the AUTOINCREMENT counters
    (the largest rowid ever handed out). *)
Record Db := {
  tasks : list TaskRow;
  task_assignees : list AssigneeRow;
  dashboards : list DashboardRow;
  feed_items : list FeedItemRow;
  seq_tasks : Z;
  seq_task_assignees : Z;
  seq_dashboards : Z;
  seq_feed_items : Z }.

(** ** Requests to the collaborators, and their answers *)

Inductive Call :=
| MessagesSend (to subject content : jsstring)
| MessagesRetrieve (channel topic anchor : jsstring) (num_before num_after : Z)
| CallEndpoint (endpoint method : jsstring) (params : list (jsstring * jsstring))
| ReactionsAdd (message_id : Z) (emoji_name : jsstring)
| ReactionsRemove (message_id : Z) (emoji_name : jsstring)
| QueuesRegister (event_types : list jsstring)
| EventsRetrieve (queue_id : jsstring) (last_event_id : Z)
| Query (prompt systemPrompt : jsstring)
| HttpFetch (url : jsstring)
| Sleep (ms : Z).

(** The untyped JSON answers of the collaborators: one record with every
    field the bot reads; a field the answer lacks is [None].  [res_code]
    is the [code] of an answer whose [result] is ["error"] (dashboards.ts
    names ["BAD_REQUEST"]); no line of the bot reads it. *)
Record Response := {
  res_id : Z;
  res_result : jsstring;
  res_code : jsstring;
  res_messages : list ZulipMessage;
  res_message : option ZulipMessage;
  res_user : option (jsstring * Z);
  res_queue_id : jsstring;
  res_last_event_id : Z;
  res_events : option (list Event);
  res_streams : option (list ZulipStream);
  res_subscribers : option (list Z);
  res_members : option (list (Z * jsstring));
  res_subscribed : option (list (jsstring * list jsstring));
  res_ok : bool;
  res_status : Z;
  res_text : jsstring;
  res_sdk : list SdkMessage }.

(** A thrown value: an [Error] object with its message, or anything else
    with its [String(...)] rendering. *)
Inductive Thrown :=
| ErrorObject (message : jsstring)
| NonError (text : jsstring).

Inductive Reply :=
| Rejected (e : Thrown)
| Resolved (r : Response).

(** ** The world *)

(** Calls started without [await].  The caller goes on at once; what a
    started call requests and writes, from its first line on, is the run of
    its own body ([handleMessage], a service's [onReaction],
    [Dashboards.runTick]) and is not interleaved with the requests of the
    caller: the world keeps the calls that were started, in order. *)
Inductive Spawned :=
| SpawnHandleMessage (e : ZulipMessageEvent)
| SpawnOnReaction (service : jsstring) (e : ZulipReactionEvent)
| SpawnTick (row : DashboardRow).

(** A live [setInterval] handle: the handle, the row its callback closes
    over, and the period. *)
Record Interval := {
  handle : Z;
  i_row : DashboardRow;
  i_ms : Z }.

Record World := {
  db : Db;
  (** every request issued so far, oldest first *)
  log : list Call;
  (** [Date.now()], in milliseconds *)
  clock : Z;
  (** how the collaborators answer a request, given the requests so far *)
  gateway : list Call -> Call -> Reply;
  (** dashboards.ts: [timers], row id to interval handle *)
  timers : gmap Z Z;
  (** the runtime's live intervals, and the next fresh handle *)
  intervals : list Interval;
  next_handle : Z;
  spawned : list Spawned;
  (** tasks.ts: [tasksChannelCache] *)
  tasksChannelCache : gmap jsstring jsstring;
  (** the runtime's timer phase, for the spinner of a streaming reply:
      given the requests issued so far, the last of them still pending,
      the readings of [Date.now()] at which the spinner's interval fires
      before the answer (for a query: its first text) arrives *)
  spinnerFires : list Call -> list Z }.

Definition set_db (d : Db) (w : World) : World :=
  {| db := d; log := log w; clock := clock w; gateway := gateway w;
     timers := timers w; intervals := intervals w;
     next_handle := next_handle w; spawned := spawned w;
     tasksChannelCache := tasksChannelCache w;
     spinnerFires := spinnerFires w |}.

Definition set_log (l : list Call) (w : World) : World :=
  {| db := db w; log := l; clock := clock w; gateway := gateway w;
     timers := timers w; intervals := intervals w;
     next_handle := next_handle w; spawned := spawned w;
     tasksChannelCache := tasksChannelCache w;
     spinnerFires := spinnerFires w |}.

Definition set_clock (t : Z) (w : World) : World :=
  {| db := db w; log := log w; clock := t; gateway := gateway w;
     timers := timers w; intervals := intervals w;
     next_handle := next_handle w; spawned := spawned w;
     tasksChannelCache := tasksChannelCache w;
     spinnerFires := spinnerFires w |}.

Definition set_timers (t : gmap Z Z) (ivs : list Interval) (n : Z)
    (w : World) : World :=
  {| db := db w; log := log w; clock := clock w; gateway := gateway w;
     timers := t; intervals := ivs; next_handle := n; spawned := spawned w;
     tasksChannelCache := tasksChannelCache w;
     spinnerFires := spinnerFires w |}.

Definition set_spawned (s : list Spawned) (w : World) : World :=
  {| db := db w; log := log w; clock := clock w; gateway := gateway w;
     timers := timers w; intervals := intervals w;
     next_handle := next_handle w; spawned := s;
     tasksChannelCache := tasksChannelCache w;
     spinnerFires := spinnerFires w |}.

Definition set_cache (c : gmap jsstring jsstring) (w : World) : World :=
  {| db := db w; log := log w; clock := clock w; gateway := gateway w;
     timers := timers w; intervals := intervals w;
     next_handle := next_handle w; spawned := spawned w;
     tasksChannelCache := c; spinnerFires := spinnerFires w |}.

(** ** Computations: state, exceptions, and a loop that never ends *)

Inductive Outcome (A : Type) :=
| Returned (a : A)
| Threw (e : Thrown)
| Hangs.
Arguments Returned {A} a.
Arguments Threw {A} e.
Arguments Hangs {A}.

(** A computation over a state [S]: the world alone, or the world together
    with the mutable locals of a closure. *)
Definition M (S A : Type) : Type := S -> Outcome A * S.

Definition ret {S A} (a : A) : M S A := fun s => (Returned a, s).

Definition bind {S A B} (m : M S A) (k : A -> M S B) : M S B :=
  fun s =>
    match m s with
    | (Returned a, s') => k a s'
    | (Threw e, s') => (Threw e, s')
    | (Hangs, s') => (Hangs, s')
    end.

Definition throw {S A} (e : Thrown) : M S A := fun s => (Threw e, s).

Definition hang {S A} : M S A := fun s => (Hangs, s).

(** [try { m } catch (err) { h err }] *)
Definition try_catch {S A} (m : M S A) (h : Thrown -> M S A) : M S A :=
  fun s =>
    match m s with
    | (Threw e, s') => h e s'
    | r => r
    end.

Definition get {S} : M S S := fun s => (Returned s, s).
Definition modify {S} (f : S -> S) : M S unit := fun s => (Returned tt, f s).

Declare Scope m_scope.
Delimit Scope m_scope with M.
Notation "x <- m ;; k" := (bind m (fun x => k))
  (at level 100, m at next level, right associativity) : m_scope.
Notation "m ;; k" := (bind m (fun _ => k))
  (at level 100, right associativity) : m_scope.
Local Open Scope m_scope.

(** [for (const x of xs) body(x)] *)
Fixpoint for_each {S A} (xs : list A) (body : A -> M S unit) : M S unit :=
  match xs with
  | [] => ret tt
  | x :: xs' => body x ;; for_each xs' body
  end.

(** The world inside a closure with mutable locals [L]. *)
Definition liftW {L A} (m : M World A) : M (L * World) A :=
  fun s =>
    match m (snd s) with
    | (o, w') => (o, (fst s, w'))
    end.

(** Run a closure's code from the initial locals [l]; the locals are
    dropped when it is over. *)
Definition scope {L A} (l : L) (m : M (L * World) A) : M World A :=
  fun w =>
    match m (l, w) with
    | (o, s') => (o, snd s')
    end.

(** [await] a request: it is appended to the trace, and the collaborator
    answers. *)
Definition call (c : Call) : M World Response :=
  fun w =>
    let w' := set_log (log w ++ [c]) w in
    match gateway w (log w) c with
    | Rejected e => (Threw e, w')
    | Resolved r => (Returned r, w')
    end.

(** A request whose outcome the code does not look at:
    [request(...).catch(() => {})], awaited or not. *)
Definition call_ignore (c : Call) : M World unit :=
  fun w => (Returned tt, set_log (log w ++ [c]) w).

(** Start an [async] call without awaiting it: the call is recorded as
    started. *)
Definition spawn (t : Spawned) : M World unit :=
  modify (fun w => set_spawned (spawned w ++ [t]) w).

(** [sleep(ms)]. *)
Definition sleep (ms : Z) : M World unit :=
  fun w => (Returned tt, set_clock (clock w + ms) (set_log (log w ++ [Sleep ms]) w)).

(** [`${n}`] for an integer. *)
Definition numberToString (n : Z) : jsstring :=
  lit (NilZero.string_of_int (Z.to_int n)).

Definition messagePath (id : Z) : jsstring :=
  lit "/messages/" ++ numberToString id.

(** [client.callEndpoint(`/messages/${id}`, "PATCH", { content })] *)
Definition patchMessage (id : Z) (content : jsstring) : Call :=
  CallEndpoint (messagePath id) (lit "PATCH") [(lit "content", content)].

(** [client.callEndpoint(`/messages/${id}`, "DELETE")] *)
Definition deleteMessage (id : Z) : Call :=
  CallEndpoint (messagePath id) (lit "DELETE") [].

(** [client.callEndpoint(`/messages/${id}`, "GET")] *)
Definition getMessage (id : Z) : Call :=
  CallEndpoint (messagePath id) (lit "GET") [].

(** [client.callEndpoint(`/users/${id}`, "GET")] *)
Definition getUser (id : Z) : Call :=
  CallEndpoint (lit "/users/" ++ numberToString id) (lit "GET") [].

(** ** The streaming composer (zulip.ts, [startStreamingMessage]) *)

(** The variables the three closures share. [spinnerTimer] tells whether
    the elapsed-seconds interval is still armed. *)
Record Composer := {
  c_channel : jsstring;
  c_topic : jsstring;
  messageId : Z;
  startTime : Z;
  finalized : bool;
  textStarted : bool;
  spinnerTimer : bool;
  lastFlushedWordCount : Z;
  latestContent : option jsstring }.

Definition WORD_FLUSH_THRESHOLD : Z := 40.

Definition THINKING : jsstring := lit ":loading: Thinking...".

(** [finalized = true; clearInterval(spinnerTimer)] *)
Definition terminate (c : Composer) : Composer :=
  {| c_channel := c_channel c; c_topic := c_topic c;
     messageId := messageId c; startTime := startTime c;
     finalized := true; textStarted := textStarted c;
     spinnerTimer := false;
     lastFlushedWordCount := lastFlushedWordCount c;
     latestContent := latestContent c |}.

(** [textStarted = true; clearInterval(spinnerTimer)] *)
Definition startText (c : Composer) : Composer :=
  {| c_channel := c_channel c; c_topic := c_topic c;
     messageId := messageId c; startTime := startTime c;
     finalized := finalized c; textStarted := true;
     spinnerTimer := false;
     lastFlushedWordCount := lastFlushedWordCount c;
     latestContent := latestContent c |}.

Definition setLatest (l : option jsstring) (c : Composer) : Composer :=
  {| c_channel := c_channel c; c_topic := c_topic c;
     messageId := messageId c; startTime := startTime c;
     finalized := finalized c; textStarted := textStarted c;
     spinnerTimer := spinnerTimer c;
     lastFlushedWordCount := lastFlushedWordCount c;
     latestContent := l |}.

Definition setFlushed (n : Z) (c : Composer) : Composer :=
  {| c_channel := c_channel c; c_topic := c_topic c;
     messageId := messageId c; startTime := startTime c;
     finalized := finalized c; textStarted := textStarted c;
     spinnerTimer := spinnerTimer c;
     lastFlushedWordCount := n;
     latestContent := latestContent c |}.

Abbreviation CM := (M (Composer * World)).

Definition getC : CM Composer := fun s => (Returned (fst s), s).
Definition modifyC (f : Composer -> Composer) : CM unit :=
  fun s => (Returned tt, (f (fst s), snd s)).
Definition now : M World Z := fun w => (Returned (clock w), w).

(** The part of [startStreamingMessage] before the closures: the
    placeholder is posted and the spinner interval armed. *)
Definition startStreamingMessage (channel topic : jsstring)
  : M World Composer :=
  startTime <- now ;;
  res <- call (MessagesSend channel topic THINKING) ;;
  ret {| c_channel := channel; c_topic := topic;
         messageId := res_id res; startTime := startTime;
         finalized := false; textStarted := false; spinnerTimer := true;
         lastFlushedWordCount := 0; latestContent := None |}.

(** [Math.round(ms / 1000)] *)
Definition roundSeconds (ms : Z) : Z := (ms + 500) / 1000.

(** The callback of the spinner interval. *)
Definition spinnerTick : CM unit :=
  c <- getC ;;
  if finalized c || textStarted c then ret tt
  else
    t <- liftW now ;;
    let elapsed := roundSeconds (t - startTime c) in
    liftW (call_ignore (patchMessage (messageId c)
      (lit ":loading: Thinking... (" ++ numberToString elapsed ++ lit "s)"))).

(** One run of the interval's callback, when [Date.now()] reads [t]. *)
Definition spinnerFire (t : Z) : CM unit :=
  liftW (modify (set_clock t)) ;; spinnerTick.

(** [await] of a request by the code that holds the composer: the request
    is issued, the spinner's interval fires while it is pending, and the
    collaborator answers. *)
Definition awaitCall (c : Call) : CM Response :=
  w <- liftW get ;;
  liftW (modify (fun w => set_log (log w ++ [c]) w)) ;;
  for_each (spinnerFires w (log w ++ [c])) spinnerFire ;;
  match gateway w (log w) c with
  | Rejected e => throw e
  | Resolved r => ret r
  end.

Definition flush : CM unit :=
  c <- getC ;;
  if finalized c then ret tt
  else
    match latestContent c with
    | None => ret tt
    | Some content =>
        modifyC (setFlushed (countWords content)) ;;
        modifyC (setLatest None) ;;
        liftW (call_ignore (patchMessage (messageId c) content))
    end.

Definition update (content : jsstring) : CM unit :=
  c <- getC ;;
  if finalized c then ret tt
  else
    (if negb (textStarted c) then modifyC startText else ret tt) ;;
    modifyC (setLatest (Some content)) ;;
    c <- getC ;;
    if countWords content - lastFlushedWordCount c >=? WORD_FLUSH_THRESHOLD
    then flush else ret tt.

(** [for (let i = 1; i < chunks.length; i++) await client.messages.send(...)] *)
Definition sendChunks (channel topic : jsstring) (chunks : list jsstring)
  : M World unit :=
  for_each chunks (fun chunk => _ <- call (MessagesSend channel topic chunk) ;; ret tt).

Definition finalize (content : jsstring) : CM unit :=
  modifyC terminate ;;
  c <- getC ;;
  if jslen content <=? MAX_MESSAGE_LENGTH then
    liftW (call_ignore (patchMessage (messageId c) content))
  else
    match splitMessage content MAX_MESSAGE_LENGTH with
    | None => hang
    | Some [] =>
        (* chunks[0] is undefined *)
        liftW (call_ignore (CallEndpoint (messagePath (messageId c)) (lit "PATCH") []))
    | Some (first :: rest) =>
        liftW (call_ignore (patchMessage (messageId c) first)) ;;
        liftW (sendChunks (c_channel c) (c_topic c) rest)
    end.

Definition cancel : CM unit :=
  modifyC terminate ;;
  c <- getC ;;
  liftW (call_ignore (deleteMessage (messageId c))).

(** [sendMessage(client, channel, topic, content)] *)
Definition sendMessage (channel topic content : jsstring) : M World unit :=
  match splitMessage content MAX_MESSAGE_LENGTH with
  | None => hang
  | Some chunks => sendChunks channel topic chunks
  end.

(** [fetchTopicMessages(client, channel, topic, count)], given how its
    caller awaits a request. *)
Definition fetchTopicMessages {S} (await : Call -> M S Response)
    (channel topic : jsstring) (count : Z) : M S (list ZulipMessage) :=
  response <- await (MessagesRetrieve channel topic (lit "newest") count 0) ;;
  ret (res_messages response).

(** ** Out of the core

    Stateless transforms the specification leaves out of the core, and
    functions of the JavaScript platform: they are parameters of the
    development. *)

Record FeedItem := {
  guid : jsstring;
  title : jsstring;
  link : jsstring;
  description : jsstring;
  pubDate : jsstring;
  image : jsstring }.

Class Externals := {
  (** html-to-text.ts *)
  htmlToText : jsstring -> jsstring;
  (** [String.prototype.toLowerCase] *)
  toLowerCase : jsstring -> jsstring;
  encodeURIComponent : jsstring -> jsstring;
  (** SQLite's [datetime('now')] at a given clock *)
  datetime_now : Z -> jsstring;
  (** [new Date(t).toISOString()] *)
  toISOString : Z -> jsstring;
  (** rss.ts [parseFeed]: the feed's title and items, or a thrown error *)
  parseFeed : jsstring -> Thrown + (jsstring * list FeedItem);
  (** rss.ts [fetchOgImage]: the [og:image] of a page's text *)
  ogImageOf : jsstring -> jsstring;
  (** rss.ts [renderItem] at a given clock (relative dates, URL cleaning) *)
  renderItem : Z -> FeedItem -> jsstring;
  (** [new Date(t).toLocaleTimeString("en-US", ...)] *)
  toLocaleTimeString : Z -> jsstring;
  (** [new URL(p)] succeeds *)
  isUrl : jsstring -> bool;
  (** [JSON.stringify([{ name, description }])] and
      [JSON.stringify(emails)] *)
  stringifySubscription : jsstring -> jsstring -> jsstring;
  stringifyStrings : list jsstring -> jsstring }.

(** ** The store (db.ts)

    Each function of db.ts is a function of the tables; a statement that
    SQLite refuses throws.  [stamp] is [datetime('now')]. *)

Definition set_tasks (ts : list TaskRow) (seq : Z) (d : Db) : Db :=
  {| tasks := ts; task_assignees := task_assignees d;
     dashboards := dashboards d; feed_items := feed_items d;
     seq_tasks := seq; seq_task_assignees := seq_task_assignees d;
     seq_dashboards := seq_dashboards d; seq_feed_items := seq_feed_items d |}.

Definition set_task_assignees (rows : list AssigneeRow) (seq : Z) (d : Db) : Db :=
  {| tasks := tasks d; task_assignees := rows;
     dashboards := dashboards d; feed_items := feed_items d;
     seq_tasks := seq_tasks d; seq_task_assignees := seq;
     seq_dashboards := seq_dashboards d; seq_feed_items := seq_feed_items d |}.

Definition set_dashboards (rows : list DashboardRow) (items : list FeedItemRow)
    (seq : Z) (d : Db) : Db :=
  {| tasks := tasks d; task_assignees := task_assignees d;
     dashboards := rows; feed_items := items;
     seq_tasks := seq_tasks d; seq_task_assignees := seq_task_assignees d;
     seq_dashboards := seq; seq_feed_items := seq_feed_items d |}.

Definition set_feed_items (items : list FeedItemRow) (seq : Z) (d : Db) : Db :=
  {| tasks := tasks d; task_assignees := task_assignees d;
     dashboards := dashboards d; feed_items := items;
     seq_tasks := seq_tasks d; seq_task_assignees := seq_task_assignees d;
     seq_dashboards := seq_dashboards d; seq_feed_items := seq |}.

Definition constraintError (what : string) : Thrown :=
  ErrorObject (lit what).

Record CreateTaskParams := {
  p_content : jsstring;
  creatorName : jsstring;
  creatorUserId : option Z;
  sourceChannel : jsstring;
  sourceTopic : jsstring;
  sourceMsgId : Z;
  ownTopic : bool }.

Definition getTaskById (id : Z) (d : Db) : option TaskRow :=
  List.find (fun t => t_id t =? id) (tasks d).

Definition getTaskBySourceMsgId (msgId : Z) (d : Db) : option TaskRow :=
  List.find (fun t => source_msg_id t =? msgId) (tasks d).

Definition getTaskByTaskMsgId (msgId : Z) (d : Db) : option TaskRow :=
  List.find
    (fun t => match task_msg_id t with
              | Some m => m =? msgId
              | None => false
              end)
    (tasks d).

(** [INSERT INTO tasks]: [source_msg_id] is UNIQUE. *)
Definition createTask (p : CreateTaskParams) (stamp : jsstring) (d : Db)
  : Outcome Z * Db :=
  match getTaskBySourceMsgId (sourceMsgId p) d with
  | Some _ =>
      (Threw (constraintError "UNIQUE constraint failed: tasks.source_msg_id"), d)
  | None =>
      let id := seq_tasks d + 1 in
      (Returned id,
       set_tasks
         (tasks d ++
          [{| t_id := id; t_content := p_content p;
              creator_name := creatorName p;
              creator_user_id := creatorUserId p; status := open;
              source_channel := sourceChannel p;
              source_topic := sourceTopic p;
              source_msg_id := sourceMsgId p;
              task_channel := None; task_topic := None; task_msg_id := None;
              own_topic := if ownTopic p then 1 else 0;
              t_created_at := stamp;
              completed_at := None; completed_by := None |}])
         id d)
  end.

Definition withMsgRef (channel topic : jsstring) (msgId : Z) (t : TaskRow)
  : TaskRow :=
  {| t_id := t_id t; t_content := t_content t;
     creator_name := creator_name t; creator_user_id := creator_user_id t;
     status := status t; source_channel := source_channel t;
     source_topic := source_topic t; source_msg_id := source_msg_id t;
     task_channel := Some channel; task_topic := Some topic;
     task_msg_id := Some msgId;
     own_topic := own_topic t; t_created_at := t_created_at t;
     completed_at := completed_at t; completed_by := completed_by t |}.

Definition withCompletion (st : Status) (at_ by_ : option jsstring)
    (t : TaskRow) : TaskRow :=
  {| t_id := t_id t; t_content := t_content t;
     creator_name := creator_name t; creator_user_id := creator_user_id t;
     status := st; source_channel := source_channel t;
     source_topic := source_topic t; source_msg_id := source_msg_id t;
     task_channel := task_channel t; task_topic := task_topic t;
     task_msg_id := task_msg_id t;
     own_topic := own_topic t; t_created_at := t_created_at t;
     completed_at := at_; completed_by := by_ |}.

(** [UPDATE tasks SET ... WHERE id = ?] *)
Definition updateTasks (taskId : Z) (f : TaskRow -> TaskRow) (d : Db) : Db :=
  set_tasks
    (List.map (fun t => if t_id t =? taskId then f t else t) (tasks d))
    (seq_tasks d) d.

Definition updateTaskMsgRef (taskId : Z) (channel topic : jsstring)
    (msgId : Z) (d : Db) : Db :=
  updateTasks taskId (withMsgRef channel topic msgId) d.

Definition completeTask (taskId : Z) (completedBy : jsstring)
    (stamp : jsstring) (d : Db) : Db :=
  updateTasks taskId (withCompletion done (Some stamp) (Some completedBy)) d.

Definition reopenTask (taskId : Z) (d : Db) : Db :=
  updateTasks taskId (withCompletion open None None) d.

Definition sameAssignee (taskId : Z) (userId : option Z) (a : AssigneeRow)
  : bool :=
  (task_id a =? taskId) &&
  match a_user_id a, userId with
  | Some x, Some y => x =? y
  | _, _ => false
  end.

(** One [INSERT OR IGNORE INTO task_assignees]: UNIQUE(task_id, user_id),
    where NULL ids never collide.  SQLite draws the rowid before it
    checks the constraint: an insert that is ignored stores no row, but
    the AUTOINCREMENT counter has moved on. *)
Definition insertAssignee (taskId : Z) (stamp : jsstring)
    (d : Db) (u : jsstring * option Z) : Db :=
  let id := seq_task_assignees d + 1 in
  if existsb (sameAssignee taskId (snd u)) (task_assignees d) then
    set_task_assignees (task_assignees d) id d
  else
    set_task_assignees
      (task_assignees d ++
       [{| a_id := id; task_id := taskId; user_name := fst u;
           a_user_id := snd u; assigned_at := stamp |}])
      id d.

(** The transaction of [addAssignees]; [task_id] references [tasks], so
    the first insert for a missing task throws and the transaction is
    rolled back: nothing is kept, the counter included. *)
Definition addAssignees (taskId : Z) (users : list (jsstring * option Z))
    (stamp : jsstring) (d : Db) : Outcome unit * Db :=
  match users, getTaskById taskId d with
  | _ :: _, None => (Threw (constraintError "FOREIGN KEY constraint failed"), d)
  | _, _ => (Returned tt, fold_left (insertAssignee taskId stamp) users d)
  end.

Definition removeAssignees (taskId : Z) (userIds : list Z) (d : Db) : Db :=
  match userIds with
  | [] => d
  | _ :: _ =>
      set_task_assignees
        (List.filter
           (fun a => negb ((task_id a =? taskId) &&
                           match a_user_id a with
                           | Some x => existsb (Z.eqb x) userIds
                           | None => false
                           end))
           (task_assignees d))
        (seq_task_assignees d) d
  end.

Definition getAssignees (taskId : Z) (d : Db) : list AssigneeRow :=
  List.filter (fun a => task_id a =? taskId) (task_assignees d).

Record CreateDashboardParams := {
  p_name : jsstring;
  p_channel : jsstring;
  p_topic : jsstring;
  msgId : Z;
  intervalMs : Z;
  p_params : jsstring }.

Definition getDashboardsByChannelTopic (ch tp : jsstring) (d : Db)
  : list DashboardRow :=
  List.filter (fun r => jseqb (channel r) ch && jseqb (topic r) tp)
    (dashboards d).

Definition getDashboardByNameAndLocation (nm ch tp : jsstring) (d : Db)
  : option DashboardRow :=
  List.find
    (fun r => jseqb (d_name r) nm && jseqb (channel r) ch && jseqb (topic r) tp)
    (dashboards d).

Definition getDashboardByMsgId (msgId : Z) (d : Db) : option DashboardRow :=
  List.find (fun r => msg_id r =? msgId) (dashboards d).

(** [INSERT INTO dashboards]: UNIQUE(name, channel, topic). *)
Definition createDashboard (p : CreateDashboardParams) (stamp : jsstring)
    (d : Db) : Outcome Z * Db :=
  match getDashboardByNameAndLocation (p_name p) (p_channel p) (p_topic p) d with
  | Some _ =>
      (Threw (constraintError
                "UNIQUE constraint failed: dashboards.name, dashboards.channel, dashboards.topic"),
       d)
  | None =>
      let id := seq_dashboards d + 1 in
      (Returned id,
       set_dashboards
         (dashboards d ++
          [{| d_id := id; d_name := p_name p; channel := p_channel p;
              topic := p_topic p; msg_id := msgId p;
              interval_ms := intervalMs p; params := p_params p;
              bootstrapped := 0; d_created_at := stamp |}])
         (feed_items d) id d)
  end.

Definition hasDashboard (id : Z) (d : Db) : bool :=
  existsb (fun r => d_id r =? id) (dashboards d).

Definition feedItemSeen (dashboardId : Z) (g : jsstring) (d : Db) : bool :=
  existsb (fun f => (dashboard_id f =? dashboardId) && jseqb (item_guid f) g)
    (feed_items d).

(** [INSERT OR IGNORE INTO feed_items], answering [changes > 0]:
    UNIQUE(dashboard_id, item_guid), and [dashboard_id] references
    [dashboards].  An insert that is ignored stores no row but uses up a
    rowid of the AUTOINCREMENT counter; a statement that fails is undone
    altogether. *)
Definition markFeedItemSeen (dashboardId : Z) (g : jsstring)
    (stamp : jsstring) (d : Db) : Outcome bool * Db :=
  let id := seq_feed_items d + 1 in
  if feedItemSeen dashboardId g d then
    (Returned false, set_feed_items (feed_items d) id d)
  else if negb (hasDashboard dashboardId d) then
    (Threw (constraintError "FOREIGN KEY constraint failed"), d)
  else
    (Returned true,
     set_feed_items
       (feed_items d ++
        [{| f_id := id; dashboard_id := dashboardId; item_guid := g;
            seen_at := stamp |}])
       id d).

Definition withBootstrapped (b : Z) (r : DashboardRow) : DashboardRow :=
  {| d_id := d_id r; d_name := d_name r; channel := channel r;
     topic := topic r; msg_id := msg_id r; interval_ms := interval_ms r;
     params := params r; bootstrapped := b; d_created_at := d_created_at r |}.

Definition setDashboardBootstrapped (id : Z) (d : Db) : Db :=
  set_dashboards
    (List.map (fun r => if d_id r =? id then withBootstrapped 1 r else r)
       (dashboards d))
    (feed_items d) (seq_dashboards d) d.

(** Binary collation of TEXT: code unit by code unit. *)
Fixpoint text_leb (a b : jsstring) : bool :=
  match a, b with
  | [], _ => true
  | _ :: _, [] => false
  | x :: a', y :: b' => N.ltb x y || (N.eqb x y && text_leb a' b')
  end.

(** [ORDER BY created_at]: rows with equal stamps stay in rowid order. *)
Fixpoint insertByCreated (r : DashboardRow) (sorted : list DashboardRow)
  : list DashboardRow :=
  match sorted with
  | [] => [r]
  | r' :: rest =>
      if text_leb (d_created_at r') (d_created_at r)
      then r' :: insertByCreated r rest
      else r :: sorted
  end.

Definition getActiveDashboards (d : Db) : list DashboardRow :=
  fold_left (fun sorted r => insertByCreated r sorted) (dashboards d) [].

(** [DELETE FROM dashboards WHERE id = ?], with the cascade to
    [feed_items]. *)
Definition deleteDashboard (id : Z) (d : Db) : Db :=
  set_dashboards
    (List.filter (fun r => negb (d_id r =? id)) (dashboards d))
    (List.filter (fun f => negb (dashboard_id f =? id)) (feed_items d))
    (seq_dashboards d) d.

(** The store inside the world. *)
Definition dbRead {A} (f : Db -> A) : M World A :=
  fun w => (Returned (f (db w)), w).

Definition dbWrite (f : Db -> Db) : M World unit :=
  fun w => (Returned tt, set_db (f (db w)) w).

Definition dbRun {A} (f : Db -> Outcome A * Db) : M World A :=
  fun w => (fst (f (db w)), set_db (snd (f (db w))) w).

(** ** The answering engine (claude.ts) *)

Definition systemPrompt (conversationContext : jsstring) : jsstring :=
  join NL
    [ lit "You are a helpful coding assistant bot in a Zulip chat.";
      lit "You have access to tools for reading files, searching code, running commands, and web search.";
      lit "You also have access to Zulip API tools (prefixed with mcp__zulip__) to look up channels, users, topics, messages, and presence.";
      lit "Answer questions clearly and concisely. Use Zulip-compatible markdown formatting.";
      lit "When referencing code, include file paths and line numbers when possible.";
      [];
      lit "Here is the recent conversation context from this Zulip topic:";
      lit "---";
      conversationContext;
      lit "---" ].

(** The [for await] loop over the messages of the query. *)
Fixpoint consumeQuery {S} (messages : list SdkMessage) (accumulated : jsstring)
    (onText : jsstring -> M S unit) : M S jsstring :=
  match messages with
  | [] => throw (ErrorObject (lit "Claude query ended without a result message"))
  | SdkTextDelta text :: rest =>
      match text with
      | [] => consumeQuery rest accumulated onText
      | _ :: _ =>
          onText (accumulated ++ text) ;;
          consumeQuery rest (accumulated ++ text) onText
      end
  | SdkResultSuccess result :: _ => ret result
  | SdkResultFailure subtype errors :: _ =>
      throw (ErrorObject
        (lit "Claude query failed (" ++ subtype ++ lit "): " ++ errors))
  | SdkOther :: rest => consumeQuery rest accumulated onText
  end.

(** [askClaude], given how its caller awaits the query.  Messages other
    than text deltas do nothing, so what happens while the stream is
    awaited before its first text is what happens while the query is
    pending. *)
Definition askClaudeVia {L} (await : Call -> M (L * World) Response)
    (question conversationContext : jsstring)
    (onText : jsstring -> M (L * World) unit) : M (L * World) jsstring :=
  run <- await (Query question (systemPrompt conversationContext)) ;;
  consumeQuery (res_sdk run) [] onText.

(** [askClaude] for a caller without timers of its own. *)
Definition askClaude {L} (question conversationContext : jsstring)
    (onText : jsstring -> M (L * World) unit) : M (L * World) jsstring :=
  askClaudeVia (fun c => liftW (call c)) question conversationContext onText.

(** ** Services (services/types.ts) *)

Record Service := {
  name : jsstring;
  description_ : jsstring;
  defaultEnabled : bool;
  init : option (ServiceContext -> M World unit);
  onMessage : option (ZulipMessage -> ServiceContext -> M World bool);
  onReaction : option (ZulipReactionEvent -> ServiceContext -> M World unit) }.

(** ** Mention handling (bot.ts) *)

Section Bot.
Context `{Externals}.


(** The loop over the services: [true] when one of them handled the
    message. *)
Fixpoint dispatch (services : list Service) (msg : ZulipMessage)
    (ctx : ServiceContext) : M World bool :=
  match services with
  | [] => ret false
  | svc :: rest =>
      match onMessage svc with
      | None => dispatch rest msg ctx
      | Some handler =>
          handled <- try_catch (handler msg ctx) (fun err => ret false) ;;
          if handled then ret true else dispatch rest msg ctx
      end
  end.

Definition errorMessage (err : Thrown) : jsstring :=
  match err with
  | ErrorObject m => m
  | NonError _ => lit "An unknown error occurred"
  end.

(** The code after the loop: no service claimed the message, it goes to
    Claude.  The two requests awaited while the spinner is alive, the
    reading of the topic and the query, are awaited with [awaitCall];
    [cancel] and [finalize] stop the spinner before they request
    anything. *)
Definition answerWithClaude (msg : ZulipMessage) (ctx : ServiceContext)
  : M World unit :=
  let channel := display_recipient msg in
  let topic := subject msg in
  streaming <- startStreamingMessage channel topic ;;
  scope streaming
    (try_catch
       (let question := htmlToText (m_content msg) in
        match trim question with
        | [] =>
            cancel ;;
            liftW (sendMessage channel topic
              (lit "It looks like you mentioned me but didn't include a question. How can I help?"))
        | _ :: _ =>
            recentMessages <-
              fetchTopicMessages awaitCall channel topic
                (contextMessages (config ctx)) ;;
            let context :=
              join NL
                (List.map
                   (fun m => sender_full_name m ++ lit ": "
                             ++ htmlToText (m_content m))
                   (List.filter (fun m => negb (m_id m =? m_id msg))
                      recentMessages)) in
            answer <- askClaudeVia awaitCall question context update ;;
            finalize answer
        end)
       (fun err =>
          cancel ;;
          liftW (try_catch
            (sendMessage channel topic
               (lit "Sorry, I encountered an error processing your request: "
                ++ errorMessage err))
            (fun sendErr => ret tt)))).

Definition handleMessage (event : ZulipMessageEvent) (services : list Service)
    (ctx : ServiceContext) : M World unit :=
  let msg := message event in
  match m_type msg with
  | private => ret tt
  | stream =>
      if jseqb (sender_email msg) (botEmail ctx) then ret tt
      else if negb (existsb (jseqb (lit "mentioned")) (flags event)) then ret tt
      else
        handled <- dispatch services msg ctx ;;
        if handled then ret tt else answerWithClaude msg ctx
  end.

End Bot.

(** ** The tasks service (services/tasks.ts) *)

Module Tasks.
Section Tasks.
Context `{Externals}.

Definition stampNow : M World jsstring :=
  fun w => (Returned (datetime_now (clock w)), w).

(** [text.split("\n")] *)
Fixpoint splitLines (current : jsstring) (text : jsstring) : list jsstring :=
  match text with
  | [] => [current]
  | c :: rest =>
      if N.eqb c 10 then current :: splitLines [] rest
      else splitLines (current ++ [c]) rest
  end.

Definition quote (text : jsstring) : jsstring :=
  join NL (List.map (fun line => lit "> " ++ line) (splitLines [] text)).

(** [text.replace(/\n/g, " ")] *)
Definition newlinesToSpaces (text : jsstring) : jsstring :=
  List.map (fun c => if N.eqb c 10 then 32%N else c) text.

Definition truncate (text : jsstring) (maxLen : Z) : jsstring :=
  let oneLine := trim (newlinesToSpaces text) in
  if jslen oneLine <=? maxLen then oneLine
  else slice oneLine 0 (maxLen - 1) ++ [8230%N].

(** [s.replace(/\s+/g, "-")] *)
Fixpoint dashes (inRun : bool) (s : jsstring) : jsstring :=
  match s with
  | [] => []
  | c :: rest =>
      if is_ws c then (if inRun then dashes true rest else 45%N :: dashes true rest)
      else c :: dashes false rest
  end.

Definition isTasksChannel (channelName : jsstring) (config : Config) : bool :=
  let prefix := toLowerCase (tasksChannel config) in
  let name := toLowerCase channelName in
  jseqb name prefix || startsWith name (prefix ++ lit "-").

Definition findStream (streams : list ZulipStream) (nm : jsstring)
  : option ZulipStream :=
  List.find (fun s => jseqb (toLowerCase (stream_name s)) (toLowerCase nm))
    streams.

(** A folder id that is neither missing nor zero. *)
Definition truthyId (id : option Z) : option Z :=
  match id with
  | Some 0 => None
  | other => other
  end.

Definition streamPath (id : Z) : jsstring :=
  lit "/streams/" ++ numberToString id.

(** [new Map(users.map(...)).get(id)]: the last entry for a key wins. *)
Definition emailOf (users : list (Z * jsstring)) (id : Z) : option jsstring :=
  match List.find (fun u => fst u =? id) (rev users) with
  | Some u => Some (snd u)
  | None => None
  end.

Definition nonEmpty (o : option jsstring) : list jsstring :=
  match o with
  | Some (c :: e) => [c :: e]
  | _ => []
  end.

Definition subscriberEmailsOf (source : option ZulipStream)
  : M World (list jsstring) :=
  match source with
  | None => ret []
  | Some src =>
      membersRes <- call (CallEndpoint
        (streamPath (stream_id src) ++ lit "/members") (lit "GET") []) ;;
      match res_subscribers membersRes with
      | None | Some [] => ret []
      | Some memberIds =>
          usersRes <- call (CallEndpoint (lit "/users") (lit "GET") []) ;;
          let users := match res_members usersRes with
                       | Some us => us
                       | None => []
                       end in
          ret (concat (List.map (fun id => nonEmpty (emailOf users id)) memberIds))
      end
  end.

Definition cacheSet (k v : jsstring) : M World unit :=
  modify (fun w => set_cache (<[k := v]> (tasksChannelCache w)) w).

Definition moveToFolder (s : ZulipStream) (folderId : Z) : M World unit :=
  call_ignore (CallEndpoint (streamPath (stream_id s)) (lit "PATCH")
                 [(lit "folder_id", numberToString folderId)]).

Definition resolveTasksChannel (ctx : ServiceContext) (sourceChannel : jsstring)
  : M World jsstring :=
  w <- get ;;
  match tasksChannelCache w !! sourceChannel with
  | Some (c :: cached) => ret (c :: cached)
  | _ =>
      res <- call (CallEndpoint (lit "/streams") (lit "GET") []) ;;
      let streams := match res_streams res with Some l => l | None => [] end in
      let source := findStream streams sourceChannel in
      let folderId :=
        match source with
        | Some src => truthyId (folder_id src)
        | None => None
        end in
      let tasksName :=
        match folderId with
        | Some _ => tasksChannel (config ctx)
        | None =>
            tasksChannel (config ctx) ++ lit "-"
            ++ dashes false (toLowerCase sourceChannel)
        end in
      match findStream streams tasksName with
      | None =>
          subscriberEmails <- subscriberEmailsOf source ;;
          createRes <- call (CallEndpoint (lit "/users/me/subscriptions")
            (lit "POST")
            ((lit "subscriptions",
              stringifySubscription tasksName
                (lit "Tasks promoted from channels"
                 ++ match folderId with
                    | Some _ => lit " in this folder"
                    | None => []
                    end))
             :: match subscriberEmails with
                | [] => []
                | _ :: _ => [(lit "principals", stringifyStrings subscriberEmails)]
                end)) ;;
          let wasCreated :=
            existsb
              (fun entry =>
                 existsb (fun n => jseqb (toLowerCase n) (toLowerCase tasksName))
                   (snd entry))
              (match res_subscribed createRes with Some l => l | None => [] end) in
          if negb wasCreated then
            cacheSet sourceChannel sourceChannel ;; ret sourceChannel
          else
            match folderId with
            | Some fid =>
                updated <- call (CallEndpoint (lit "/streams") (lit "GET") []) ;;
                match findStream
                        (match res_streams updated with Some l => l | None => [] end)
                        tasksName with
                | Some newStream => moveToFolder newStream fid
                | None => ret tt
                end
            | None => ret tt
            end ;;
            cacheSet sourceChannel tasksName ;; ret tasksName
      | Some existing =>
          match folderId with
          | Some fid =>
              if match folder_id existing with
                 | Some efid => efid =? fid
                 | None => false
                 end
              then ret tt
              else moveToFolder existing fid
          | None => ret tt
          end ;;
          cacheSet sourceChannel tasksName ;; ret tasksName
      end
  end.

(** *** Rendering *)

Definition EM_DASH : jsstring := [8212%N].
Definition CHECK_MARK : jsstring := [9989%N].
Definition CLIPBOARD : jsstring := [55357%N; 56523%N].

Definition statusEmoji (t : TaskRow) : jsstring :=
  match status t with
  | done => CHECK_MARK
  | open => CLIPBOARD
  end.

Definition mention (userName : jsstring) (userId : Z) : jsstring :=
  lit "@_**" ++ userName ++ lit "|" ++ numberToString userId ++ lit "**".

Definition renderTaskCard (task : TaskRow) (assignees : list AssigneeRow)
    (config : Config) : jsstring :=
  let msgLink :=
    zulipRealm config ++ lit "/#narrow/channel/"
    ++ encodeURIComponent (source_channel task) ++ lit "/topic/"
    ++ encodeURIComponent (source_topic task) ++ lit "/near/"
    ++ numberToString (source_msg_id task) in
  let statusText :=
    match status task with
    | done =>
        lit "Done" ++ match completed_by task with
                      | Some (c :: nm) => lit " by " ++ c :: nm
                      | _ => []
                      end
    | open => lit "Open " ++ EM_DASH ++ lit " react with :check: when done"
    end in
  let lines :=
    [ statusEmoji task ++ lit " **Task** " ++ EM_DASH
        ++ lit " [source message](" ++ msgLink ++ lit ")";
      [];
      quote (t_content task);
      [] ] in
  let lines :=
    match assignees with
    | [] => lines
    | _ :: _ =>
        lines ++
        [ lit "**Assigned to**: "
          ++ join (lit ", ")
               (List.map
                  (fun a => match a_user_id a with
                            | Some 0 | None => user_name a
                            | Some id => mention (user_name a) id
                            end)
                  assignees) ]
    end in
  join NL (lines ++ [ lit "**Created by**: " ++ creator_name task;
                      lit "**Status**: " ++ statusText ]).

(** Re-render and PATCH the task message from the given state. *)
Definition syncTaskMessage (task : TaskRow) (assignees : list AssigneeRow)
    (config : Config) : M World unit :=
  match task_msg_id task with
  | None | Some 0 => ret tt
  | Some id =>
      call_ignore (patchMessage id (renderTaskCard task assignees config))
  end.

Definition withLocation (channel topic : jsstring) (t : TaskRow) : TaskRow :=
  {| t_id := t_id t; t_content := t_content t;
     creator_name := creator_name t; creator_user_id := creator_user_id t;
     status := status t; source_channel := source_channel t;
     source_topic := source_topic t; source_msg_id := source_msg_id t;
     task_channel := Some channel; task_topic := Some topic;
     task_msg_id := task_msg_id t;
     own_topic := own_topic t; t_created_at := t_created_at t;
     completed_at := completed_at t; completed_by := completed_by t |}.

Definition withId (id : Z) (t : TaskRow) : TaskRow :=
  {| t_id := id; t_content := t_content t;
     creator_name := creator_name t; creator_user_id := creator_user_id t;
     status := status t; source_channel := source_channel t;
     source_topic := source_topic t; source_msg_id := source_msg_id t;
     task_channel := task_channel t; task_topic := task_topic t;
     task_msg_id := task_msg_id t;
     own_topic := own_topic t; t_created_at := t_created_at t;
     completed_at := completed_at t; completed_by := completed_by t |}.

Definition send (to subj body : jsstring) : M World Response :=
  call (MessagesSend to subj body).

(** [getTaskBySourceMsgId(id)!] followed by a field access. *)
Definition theTask (o : option TaskRow) : M World TaskRow :=
  match o with
  | Some t => ret t
  | None =>
      throw (ErrorObject (lit "Cannot read properties of undefined"))
  end.

(** *** Command handlers *)

Definition ALREADY : jsstring := lit "A task already exists for that message.".

Definition handleTaskCreation (msg : ZulipMessage) (ctx : ServiceContext)
    (mentions : list (Z * jsstring)) (ownTopic_ : bool) : M World unit :=
  let channel := display_recipient msg in
  let topic := subject msg in
  response <- call (MessagesRetrieve channel topic (numberToString (m_id msg)) 1 0) ;;
  let preceding :=
    List.filter (fun m => negb (m_id m =? m_id msg)) (res_messages response) in
  match last preceding with
  | None =>
      _ <- send channel topic
             (lit "There's no message above to promote into a task.") ;;
      ret tt
  | Some targetMsg =>
      existing <- dbRead (getTaskBySourceMsgId (m_id targetMsg)) ;;
      match existing with
      | Some _ => _ <- send channel topic ALREADY ;; ret tt
      | None =>
          let content := htmlToText (m_content targetMsg) in
          tasksChannel_ <-
            (if isTasksChannel channel (config ctx) then ret channel
             else resolveTasksChannel ctx channel) ;;
          stamp <- stampNow ;;
          taskId <- dbRun (createTask
            {| p_content := content; creatorName := sender_full_name msg;
               creatorUserId := None; sourceChannel := channel;
               sourceTopic := topic; sourceMsgId := m_id targetMsg;
               ownTopic := ownTopic_ |} stamp) ;;
          match mentions with
          | [] => ret tt
          | _ :: _ =>
              stamp <- stampNow ;;
              dbRun (addAssignees taskId
                (List.map (fun m => (snd m, Some (fst m))) mentions) stamp)
          end ;;
          assigneeRows <- dbRead (getAssignees taskId) ;;
          stored <- dbRead (getTaskBySourceMsgId (m_id targetMsg)) ;;
          task <- theTask stored ;;
          let task := withId taskId task in
          let inTasksChannel := isTasksChannel channel (config ctx) in
          let taskTopic :=
            if ownTopic_ then truncate content 50
            else if inTasksChannel then topic
            else channel ++ lit " / " ++ topic in
          let cardContent :=
            renderTaskCard (withLocation tasksChannel_ taskTopic task)
              assigneeRows (config ctx) in
          sendRes <- send tasksChannel_ taskTopic cardContent ;;
          dbWrite (updateTaskMsgRef taskId tasksChannel_ taskTopic (res_id sendRes)) ;;
          call_ignore (ReactionsAdd (m_id targetMsg) (taskEmoji (config ctx))) ;;
          let assigneeMentions :=
            List.map (fun m => mention (snd m) (fst m)) mentions in
          let parts :=
            (lit "Task created by " ++ sender_full_name msg)
            :: match assigneeMentions with
               | [] => []
               | _ :: _ => [lit "assigned to " ++ join (lit ", ") assigneeMentions]
               end in
          _ <- send channel topic
                 (join (lit ", ") parts ++ lit " in #**" ++ tasksChannel_
                  ++ lit ">" ++ taskTopic ++ lit "**") ;;
          ret tt
      end
  end.

(** [user?.full_name ?? "Unknown"] *)
Definition reactorNameOf (userRes : Response) : jsstring :=
  match res_user userRes with
  | Some u => fst u
  | None => lit "Unknown"
  end.

Definition isoNow : M World jsstring :=
  fun w => (Returned (toISOString (clock w)), w).

(** The [:check:] branch of [onReaction]: complete or reopen the task
    whose card was reacted to. *)
Definition toggleCompletion (event : ZulipReactionEvent) (ctx : ServiceContext)
  : M World unit :=
  found <- dbRead (getTaskByTaskMsgId (message_id event)) ;;
  match found with
  | None => ret tt
  | Some task =>
      userRes <- call (getUser (user_id event)) ;;
      let reactorName := reactorNameOf userRes in
      match op event with
      | add =>
          stamp <- stampNow ;;
          dbWrite (completeTask (t_id task) reactorName stamp)
      | remove => dbWrite (reopenTask (t_id task))
      end ;;
      iso <- isoNow ;;
      let updatedTask :=
        match op event with
        | add => withCompletion done (Some iso) (Some reactorName) task
        | remove => withCompletion open None None task
        end in
      assignees <- dbRead (getAssignees (t_id task)) ;;
      syncTaskMessage updatedTask assignees (config ctx)
  end.

(** The rest of [onReaction]: promote the message reacted to. *)
Definition promoteByReaction (event : ZulipReactionEvent)
    (ctx : ServiceContext) : M World unit :=
  res <- call (getMessage (message_id event)) ;;
  match res_message res with
  | None => ret tt
  | Some msg =>
      match m_type msg with
      | private => ret tt
      | stream =>
          existing <- dbRead (getTaskBySourceMsgId (m_id msg)) ;;
          match existing with
          | Some _ => ret tt
          | None =>
              userRes <- call (getUser (user_id event)) ;;
              let reactorName := reactorNameOf userRes in
              let content := htmlToText (m_content msg) in
              let inTasksChannel :=
                isTasksChannel (display_recipient msg) (config ctx) in
              tasksChannel_ <-
                (if inTasksChannel then ret (display_recipient msg)
                 else resolveTasksChannel ctx (display_recipient msg)) ;;
              stamp <- stampNow ;;
              taskId <- dbRun (createTask
                {| p_content := content; creatorName := reactorName;
                   creatorUserId := None;
                   sourceChannel := display_recipient msg;
                   sourceTopic := subject msg; sourceMsgId := m_id msg;
                   ownTopic := false |} stamp) ;;
              stamp <- stampNow ;;
              dbRun (addAssignees taskId
                       [(reactorName, Some (user_id event))] stamp) ;;
              assignees <- dbRead (getAssignees taskId) ;;
              let taskTopic :=
                if inTasksChannel then subject msg
                else display_recipient msg ++ lit " / " ++ subject msg in
              stored <- dbRead (getTaskBySourceMsgId (m_id msg)) ;;
              task <- theTask stored ;;
              let cardContent :=
                renderTaskCard (withLocation tasksChannel_ taskTopic task)
                  assignees (config ctx) in
              sendRes <- send tasksChannel_ taskTopic cardContent ;;
              dbWrite (updateTaskMsgRef taskId tasksChannel_ taskTopic
                         (res_id sendRes)) ;;
              _ <- send (display_recipient msg) (subject msg)
                     (lit "Task created by " ++ reactorName
                      ++ lit ", assigned to "
                      ++ mention reactorName (user_id event)
                      ++ lit " in #**" ++ tasksChannel_ ++ lit ">"
                      ++ taskTopic ++ lit "**") ;;
              ret tt
          end
      end
  end.

Definition onReaction (event : ZulipReactionEvent) (ctx : ServiceContext)
  : M World unit :=
  if user_id event =? botUserId ctx then ret tt
  else if jseqb (emoji_name event) (lit "check") then toggleCompletion event ctx
  else
    match op event with
    | remove => ret tt
    | add =>
        if negb (jseqb (emoji_name event) (taskEmoji (config ctx))) then ret tt
        else promoteByReaction event ctx
    end.

End Tasks.
End Tasks.

(** *** The [assign] and [unassign] commands *)

(** The two regular expressions of tasks.ts that read the HTML of a
    message are parameters. *)
Class Patterns := {
  (** [mentionRegex.exec(html)] until it answers null: for each match of
      a user mention, the number in its [data-user-id] attribute and the
      name after the [@] *)
  mentionMatches : jsstring -> list (Z * jsstring);
  (** [html.match(...)] for a link whose target ends in [/near/<digits>]:
      the number *)
  quotedMatch : jsstring -> option Z }.

Module TaskCommands.
Section TaskCommands.
Context `{Externals} `{Patterns}.

Definition parseMentions (html : jsstring) (botUserId : Z)
  : list (Z * jsstring) :=
  List.filter (fun m => negb (fst m =? botUserId)) (mentionMatches html).

Definition extractQuotedMessageId (html : jsstring) : option Z :=
  quotedMatch html.

Definition handleAssign (msg : ZulipMessage) (ctx : ServiceContext)
    (removing : bool) : M World unit :=
  let channel := display_recipient msg in
  let topic := subject msg in
  let mentions := parseMentions (m_content msg) (botUserId ctx) in
  match mentions with
  | [] =>
      _ <- Tasks.send channel topic
             (lit "Usage: quote-reply to a task and type `@bot "
              ++ (if removing then lit "unassign" else lit "assign")
              ++ lit " @user`") ;;
      ret tt
  | _ :: _ =>
      match extractQuotedMessageId (m_content msg) with
      | None | Some 0 =>
          _ <- Tasks.send channel topic
                 (lit "Please quote-reply to the specific task message you want to update.") ;;
          ret tt
      | Some quotedId =>
          found <- dbRead (getTaskByTaskMsgId quotedId) ;;
          match found with
          | None =>
              _ <- Tasks.send channel topic
                     (lit "The quoted message is not a tracked task.") ;;
              ret tt
          | Some task =>
              (if removing then
                 dbWrite (removeAssignees (t_id task) (List.map fst mentions))
               else
                 stamp <- Tasks.stampNow ;;
                 dbRun (addAssignees (t_id task)
                          (List.map (fun m => (snd m, Some (fst m))) mentions)
                          stamp)) ;;
              updatedAssignees <- dbRead (getAssignees (t_id task)) ;;
              Tasks.syncTaskMessage task updatedAssignees (config ctx) ;;
              let verb := if removing then lit "unassigned" else lit "assigned" in
              let names := join (lit ", ") (List.map snd mentions) in
              _ <- Tasks.send channel topic
                     (names ++ lit " " ++ verb ++ lit " "
                      ++ (if removing then lit "from" else lit "to")
                      ++ lit " this task.") ;;
              ret tt
          end
      end
  end.

End TaskCommands.
End TaskCommands.

(** ** The dashboards service (services/dashboards.ts, dashboards/registry.ts) *)

(** [DashboardDef].  [fetch] may write to the row object it is given
    ([row.bootstrapped = 1]): it returns the row as it leaves it.  A
    [fetch] that throws leaves the row object as it found it: rss.ts, the
    one producer that writes to the row, only renders after it has. *)
Record DashboardDef := {
  def_description : jsstring;
  def_intervalMs : option Z;
  usage : option jsstring;
  validateParams : option (jsstring -> option jsstring);
  fetch : jsstring -> ServiceContext -> DashboardRow
          -> M World (jsstring * DashboardRow) }.

(** [dashboardRegistry]: the entries in insertion order. *)
Abbreviation Registry := (list (jsstring * DashboardDef)).

Definition registryGet (registry : Registry) (nm : jsstring)
  : option DashboardDef :=
  match List.find (fun entry => jseqb (fst entry) nm) registry with
  | Some entry => Some (snd entry)
  | None => None
  end.

Definition registryHas (registry : Registry) (nm : jsstring) : bool :=
  match registryGet registry nm with
  | Some _ => true
  | None => false
  end.

Module Dashboards.
Section Dashboards.
Context `{Externals}.
Variable dashboardRegistry : Registry.

Definition DEFAULT_INTERVAL_MS : Z := 60000.

Definition stampNow : M World jsstring :=
  fun w => (Returned (datetime_now (clock w)), w).

(** [clearInterval(timer); timers.delete(row.id)] *)
Definition clearTimer (rowId timer : Z) : M World unit :=
  modify (fun w =>
    set_timers (delete rowId (timers w))
      (List.filter (fun i => negb (handle i =? timer)) (intervals w))
      (next_handle w) w).

Definition stopAndCleanup (row : DashboardRow) : M World unit :=
  w <- get ;;
  match timers w !! d_id row with
  | Some timer => clearTimer (d_id row) timer
  | None => ret tt
  end ;;
  dbWrite (deleteDashboard (d_id row)).

(** The [try] block of [tickDashboard], for a known producer.  A tick that
    fails is swallowed.  The row object is the one the caller holds: what
    [fetch] wrote to it stays written when the edit that follows fails. *)
Definition tickKnown (def : DashboardDef) (row : DashboardRow)
    (ctx : ServiceContext) : M World DashboardRow :=
  fetched <-
    try_catch
      (fetched <- fetch def (params row) ctx row ;; ret (Some fetched))
      (fun _ => ret None) ;;
  match fetched with
  | None => ret row
  | Some (content, row') =>
      try_catch
        (res <- call (patchMessage (msg_id row') content) ;;
         (if jseqb (res_result res) (lit "success") then ret tt
          else stopAndCleanup row') ;;
         ret row')
        (fun _ => ret row')
  end.

(** [await tickDashboard(row, ctx)]; the row object is returned as the
    tick leaves it. *)
Definition tickDashboard (row : DashboardRow) (ctx : ServiceContext)
  : M World DashboardRow :=
  match registryGet dashboardRegistry (d_name row) with
  | None => stopAndCleanup row ;; ret row
  | Some def => tickKnown def row ctx
  end.

(** [tickDashboard(row, ctx)] without [await]: the code before the first
    [await] runs now, the rest is queued. *)
Definition startTick (row : DashboardRow) (ctx : ServiceContext)
  : M World unit :=
  match registryGet dashboardRegistry (d_name row) with
  | None => stopAndCleanup row
  | Some _ => spawn (SpawnTick row)
  end.

(** [setInterval(() => tickDashboard(row, ctx), row.interval_ms)] followed
    by [timers.set(row.id, interval)] *)
Definition armTimer (row : DashboardRow) : M World unit :=
  modify (fun w =>
    set_timers (<[d_id row := next_handle w]> (timers w))
      (intervals w ++ [{| handle := next_handle w; i_row := row;
                          i_ms := interval_ms row |}])
      (next_handle w + 1) w).

Definition startTimer (row : DashboardRow) (ctx : ServiceContext)
    (immediate : bool) : M World unit :=
  w <- get ;;
  match timers w !! d_id row with
  | Some _ => ret tt
  | None =>
      (if immediate then startTick row ctx else ret tt) ;;
      armTimer row
  end.

(** A queued tick runs: the row object it mutates is the one its timer's
    callback holds. *)
Definition runTick (row : DashboardRow) (ctx : ServiceContext) : M World unit :=
  row' <- tickDashboard row ctx ;;
  modify (fun w =>
    set_timers (timers w)
      (List.map (fun i => if d_id (i_row i) =? d_id row'
                          then {| handle := handle i; i_row := row';
                                  i_ms := i_ms i |}
                          else i)
         (intervals w))
      (next_handle w) w).

(** [text.split(/\s+/)] of a trimmed, non-empty argument: the first word
    and the rest joined by single blanks. *)
Fixpoint words (current : jsstring) (s : jsstring) : list jsstring :=
  match s with
  | [] => [current]
  | c :: rest =>
      if is_ws c then
        match current with
        | [] => words [] rest
        | _ :: _ => current :: words [] rest
        end
      else words (current ++ [c]) rest
  end.

Definition handleStart (argRaw : jsstring) (msg : ZulipMessage)
    (ctx : ServiceContext) : M World unit :=
  let channel := display_recipient msg in
  let topic := subject msg in
  let name := hd [] (words [] argRaw) in
  let dashParams := join (lit " ") (tl (words [] argRaw)) in
  match registryGet dashboardRegistry name with
  | None =>
      let available :=
        match join (lit ", ") (List.map fst dashboardRegistry) with
        | [] => lit "(none)"
        | l => l
        end in
      _ <- call (MessagesSend channel topic
             (lit "Unknown dashboard `" ++ name ++ lit "`. Available: "
              ++ available)) ;;
      ret tt
  | Some def =>
      match match validateParams def with
            | Some validate => validate dashParams
            | None => None
            end with
      | Some (c :: err) =>
          _ <- call (MessagesSend channel topic (c :: err)) ;; ret tt
      | _ =>
          existing <- dbRead (getDashboardByNameAndLocation name channel topic) ;;
          match existing with
          | Some _ =>
              _ <- call (MessagesSend channel topic
                     (lit "Dashboard `" ++ name
                      ++ lit "` is already running here.")) ;;
              ret tt
          | None =>
              let intervalMs_ :=
                match def_intervalMs def with
                | Some i => i
                | None => DEFAULT_INTERVAL_MS
                end in
              res <- call (MessagesSend channel topic
                       (lit "Starting dashboard `" ++ name ++ lit "`"
                        ++ [8230%N])) ;;
              stamp <- stampNow ;;
              rowId <- dbRun (createDashboard
                {| p_name := name; p_channel := channel; p_topic := topic;
                   msgId := res_id res; intervalMs := intervalMs_;
                   p_params := dashParams |} stamp) ;;
              iso <- (fun w => (Returned (toISOString (clock w)), w)) ;;
              let row :=
                {| d_id := rowId; d_name := name; channel := channel;
                   topic := topic; msg_id := res_id res;
                   interval_ms := intervalMs_; params := dashParams;
                   bootstrapped := 0; d_created_at := iso |} in
              fetched <- fetch def dashParams ctx row ;;
              _ <- call (patchMessage (res_id res) (fst fetched)) ;;
              startTimer (withBootstrapped 1 (snd fetched)) ctx false
          end
      end
  end.

(** [dashboards.init] *)
Definition init (ctx : ServiceContext) : M World unit :=
  rows <- dbRead getActiveDashboards ;;
  for_each rows (fun row =>
    if negb (registryHas dashboardRegistry (d_name row)) then
      dbWrite (deleteDashboard (d_id row))
    else startTimer row ctx true).

(** [dashboards.onReaction] *)
Definition onReaction (event : ZulipReactionEvent) (ctx : ServiceContext)
  : M World unit :=
  match op event with
  | remove => ret tt
  | add =>
      if user_id event =? botUserId ctx then ret tt
      else if negb (jseqb (emoji_name event) (lit "refresh")) then ret tt
      else
        found <- dbRead (getDashboardByMsgId (message_id event)) ;;
        match found with
        | None => ret tt
        | Some row =>
            _ <- tickDashboard row ctx ;;
            call_ignore (ReactionsRemove (message_id event) (lit "refresh"))
        end
  end.

End Dashboards.
End Dashboards.

(** *** The [stop] command *)

Module DashboardCommands.

(** The rows a command is about: the named dashboard of the topic, or
    every dashboard of the topic. *)
Definition selectRows (name : option jsstring) (channel topic : jsstring)
  : M World (list DashboardRow) :=
  match name with
  | Some (c :: nm) =>
      row <- dbRead (getDashboardByNameAndLocation (c :: nm) channel topic) ;;
      ret (match row with
           | Some r => [r]
           | None => []
           end)
  | _ => dbRead (getDashboardsByChannelTopic channel topic)
  end.

Definition noneFound (name : option jsstring) : jsstring :=
  lit "No active "
  ++ match name with
     | Some (c :: nm) => lit "`" ++ c :: nm ++ lit "`"
     | _ => lit "any dashboards"
     end
  ++ lit " found in this topic.".

Definition handleStop (name : option jsstring) (msg : ZulipMessage)
    (ctx : ServiceContext) : M World unit :=
  let channel := display_recipient msg in
  let topic := subject msg in
  rows <- selectRows name channel topic ;;
  match rows with
  | [] => _ <- call (MessagesSend channel topic (noneFound name)) ;; ret tt
  | _ :: _ =>
      for_each rows (fun row =>
        call_ignore (deleteMessage (msg_id row)) ;;
        Dashboards.stopAndCleanup row) ;;
      let names :=
        join (lit ", ")
          (List.map (fun r => lit "`" ++ d_name r ++ lit "`") rows) in
      _ <- call (MessagesSend channel topic
             (lit "Stopped dashboard(s): " ++ names)) ;;
      ret tt
  end.

End DashboardCommands.

(** ** The feed watcher (dashboards/rss.ts) *)

Module Rss.
Section Rss.
Context `{Externals}.

Definition MAX_DISPLAY_ITEMS : nat := 10.

Definition rss_intervalMs : Z := 5 * 60000.

Definition withImage (img : jsstring) (item : FeedItem) : FeedItem :=
  {| guid := guid item; title := title item; link := link item;
     description := description item; pubDate := pubDate item;
     image := img |}.

Definition fetchOgImage (url : jsstring) : M World jsstring :=
  try_catch
    (res <- call (HttpFetch url) ;;
     if negb (res_ok res) then ret []
     else ret (ogImageOf (slice (res_text res) 0 20000)))
    (fun _ => ret []).

(** The callback of [toResolve.map]. *)
Definition resolveImage (item : FeedItem) : M World FeedItem :=
  match image item, link item with
  | [], _ :: _ =>
      img <- fetchOgImage (link item) ;;
      ret (withImage img item)
  | _, _ => ret item
  end.

Fixpoint resolveImages (items : list FeedItem) : M World (list FeedItem) :=
  match items with
  | [] => ret []
  | item :: rest =>
      item' <- resolveImage item ;;
      rest' <- resolveImages rest ;;
      ret (item' :: rest')
  end.

Definition markSeen (dashboardId : Z) (g : jsstring) : M World bool :=
  fun w => dbRun (markFeedItemSeen dashboardId g (datetime_now (clock w))) w.

(** The loop that collects [newItems]. *)
Fixpoint markNew (dashboardId : Z) (items : list FeedItem)
  : M World (list FeedItem) :=
  match items with
  | [] => ret []
  | item :: rest =>
      isNew <- markSeen dashboardId (guid item) ;;
      newItems <- markNew dashboardId rest ;;
      ret (if isNew then item :: newItems else newItems)
  end.

Definition MIDDLE_DOT : jsstring := [183%N].

Definition renderFeed (feed : jsstring * list FeedItem) (intervalMs_ : Z)
  : M World jsstring :=
  fun w =>
    let nextStr := toLocaleTimeString (clock w + intervalMs_) in
    let nowStr := toLocaleTimeString (clock w) in
    let display := firstn MAX_DISPLAY_ITEMS (snd feed) in
    let lines :=
      [ lit "## " ++ fst feed;
        lit "*Updated " ++ nowStr ++ lit " UTC " ++ MIDDLE_DOT
          ++ lit " Next at " ++ nextStr ++ lit " UTC " ++ MIDDLE_DOT
          ++ lit " React :refresh: to refresh*";
        [] ]
      ++ match List.map (renderItem (clock w)) display with
         | [] => []
         | first :: rest =>
             first :: concat (List.map (fun r => [[]; lit "---"; []; r]) rest)
         end in
    (Returned (join NL lines), w).

(** [rssDef.fetch] *)
Definition fetch (params_ : jsstring) (ctx : ServiceContext)
    (row : DashboardRow) : M World (jsstring * DashboardRow) :=
  res <- call (HttpFetch params_) ;;
  if negb (res_ok res) then
    ret (lit "**RSS** | Failed to fetch feed (HTTP "
           ++ numberToString (res_status res) ++ lit ")", row)
  else
    match parseFeed (res_text res) with
    | inl err => throw err
    | inr (feedTitle, parsed) =>
        resolved <- resolveImages (firstn MAX_DISPLAY_ITEMS parsed) ;;
        let items := resolved ++ skipn MAX_DISPLAY_ITEMS parsed in
        row' <-
          (if bootstrapped row =? 0 then
             for_each items (fun item =>
               _ <- markSeen (d_id row) (guid item) ;; ret tt) ;;
             dbWrite (setDashboardBootstrapped (d_id row)) ;;
             ret (withBootstrapped 1 row)
           else
             newItems <- markNew (d_id row) items ;;
             for_each (rev newItems) (fun item =>
               w <- get ;;
               _ <- call (MessagesSend (channel row) (topic row)
                            (renderItem (clock w) item)) ;;
               ret tt) ;;
             ret row) ;;
        content <- renderFeed (feedTitle, items) rss_intervalMs ;;
        ret (content, row')
    end.

Definition validate (p : jsstring) : option jsstring :=
  match p with
  | [] => Some (lit "Usage: `dashboard start rss <url>`")
  | _ :: _ =>
      if isUrl p then None
      else Some (lit "Usage: `dashboard start rss <url>`")
  end.

Definition rssDef : DashboardDef :=
  Build_DashboardDef
    (lit "RSS/Atom feed watcher")      (* description *)
    (Some rss_intervalMs)              (* intervalMs *)
    (Some (lit "rss <url>"))           (* usage *)
    (Some validate)                    (* validateParams *)
    fetch.

End Rss.
End Rss.

(** ** The event loop (index.ts) *)

Definition BACKOFF_MS : Z := 5000.

(** The two variables of [eventLoop]. *)
Record Cursor := {
  queueId : jsstring;
  lastEventId : Z }.

Definition registerQueue : M World Cursor :=
  result <- call (QueuesRegister [lit "message"; lit "reaction"]) ;;
  ret {| queueId := res_queue_id result;
         lastEventId := res_last_event_id result |}.

Definition getCursor : M (Cursor * World) Cursor :=
  fun s => (Returned (fst s), s).
Definition putCursor (c : Cursor) : M (Cursor * World) unit :=
  fun s => (Returned tt, (c, snd s)).

(** [err instanceof Error ? err.message : String(err)] *)
Definition errorMsgOf (err : Thrown) : jsstring :=
  match err with
  | ErrorObject m => m
  | NonError t => t
  end.

(** What the loop does with one event of a batch. *)
Definition onEvent (services : list Service) (event : Event)
  : M (Cursor * World) unit :=
  cur <- getCursor ;;
  putCursor {| queueId := queueId cur; lastEventId := event_id event |} ;;
  match event with
  | EvMessage e => liftW (spawn (SpawnHandleMessage e))
  | EvReaction e =>
      liftW (for_each services (fun svc =>
        match onReaction svc with
        | None => ret tt
        | Some _ => spawn (SpawnOnReaction (name svc) e)
        end))
  | EvOther _ _ => ret tt
  end.

(** One turn of [while (true)]. *)
Definition eventLoopTurn (services : list Service) : M (Cursor * World) unit :=
  try_catch
    (cur <- getCursor ;;
     response <- liftW (call (EventsRetrieve (queueId cur) (lastEventId cur))) ;;
     match res_events response with
     | None => throw (ErrorObject (lit "response.events is not iterable"))
     | Some events => for_each events (onEvent services)
     end)
    (fun err =>
       if includes (errorMsgOf err) (lit "BAD_EVENT_QUEUE_ID") then
         fresh <- liftW registerQueue ;;
         putCursor fresh
       else liftW (sleep BACKOFF_MS)).

Fixpoint eventLoopTurns (n : nat) (services : list Service)
  : M (Cursor * World) unit :=
  match n with
  | O => ret tt
  | S n' => eventLoopTurn services ;; eventLoopTurns n' services
  end.

(** The first [n] turns of [eventLoop]. *)
Definition eventLoop (n : nat) (services : list Service) : M World unit :=
  cur <- registerQueue ;;
  scope cur (eventLoopTurns n services).

(** ** The loader (services/loader.ts) *)

(** What [import(join(dir, file))] gives: the import fails, or the module
    has this default export. *)
Inductive Imported :=
| ImportFails (err : Thrown)
| ImportOk (default : option Service).

Section ServiceLoader.
(** [String.prototype.toUpperCase] *)
Variable toUpperCase : jsstring -> jsstring.
Context `{Externals}.

Definition SKIP_FILES : list jsstring :=
  [lit "types.ts"; lit "types.js"; lit "loader.ts"; lit "loader.js"].

(** [String.prototype.endsWith] *)
Definition endsWith (s suffix : jsstring) : bool :=
  startsWith (rev s) (rev suffix).

(** [`SERVICE_${name.toUpperCase().replace(/-/g, "_")}`] *)
Definition envKey (nm : jsstring) : jsstring :=
  lit "SERVICE_"
  ++ List.map (fun c => if N.eqb c 45 then 95%N else c) (toUpperCase nm).

Definition enabled (env : gmap jsstring jsstring) (service : Service) : bool :=
  match env !! envKey (name service) with
  | Some envVal =>
      negb (jseqb (toLowerCase envVal) (lit "false"))
      && negb (jseqb envVal (lit "0"))
  | None => defaultEnabled service
  end.

(** The first pass: the services that are loaded, named and enabled, in
    the order of the directory listing. *)
Fixpoint pending (files : list jsstring) (modules : jsstring -> Imported)
    (env : gmap jsstring jsstring) : list Service :=
  match files with
  | [] => []
  | file :: rest =>
      if negb (endsWith file (lit ".ts")) && negb (endsWith file (lit ".js"))
      then pending rest modules env
      else if existsb (jseqb file) SKIP_FILES then pending rest modules env
      else
        match modules file with
        | ImportOk (Some service) =>
            match name service with
            | [] => pending rest modules env
            | _ :: _ =>
                if enabled env service then service :: pending rest modules env
                else pending rest modules env
            end
        | _ => pending rest modules env
        end
  end.

(** The body of the second pass. *)
Definition initService (ctx : ServiceContext) (service : Service)
  : M World unit :=
  try_catch
    (match init service with
     | Some start => start ctx
     | None => ret tt
     end)
    (fun err => ret tt).

(** [loadServices(ctx)], given the listing of the services directory. *)
Definition loadServices (files : list jsstring)
    (modules : jsstring -> Imported) (env : gmap jsstring jsstring)
    (ctx : ServiceContext) : M World (list Service) :=
  let active := pending files modules env in
  for_each active (initService ctx) ;;
  ret active.

End ServiceLoader.

(** ** Reading the trace *)

(** A new message posted: [client.messages.send]. *)
Definition is_post (c : Call) : bool :=
  match c with
  | MessagesSend _ _ _ => true
  | _ => false
  end.

(** An edit of an existing message: [PATCH /messages/<id>]. *)
Definition is_edit (c : Call) : bool :=
  match c with
  | CallEndpoint e m _ => startsWith e (lit "/messages/") && jseqb m (lit "PATCH")
  | _ => false
  end.

(** A deletion of a message: [DELETE /messages/<id>]. *)
Definition is_delete (c : Call) : bool :=
  match c with
  | CallEndpoint e m _ => startsWith e (lit "/messages/") && jseqb m (lit "DELETE")
  | _ => false
  end.

Definition count (p : Call -> bool) (l : list Call) : Z :=
  Z.of_nat (length (List.filter p l)).

(** The requests issued between two worlds. *)
Definition issued (w w' : World) : list Call :=
  skipn (length (log w)) (log w').






(** The chunks of a split, each followed by the whitespace trimmed after
    it. *)
Fixpoint weave (chunks gaps : list jsstring) : jsstring :=
  match chunks, gaps with
  | c :: cs, g :: gs => c ++ g ++ weave cs gs
  | _, _ => []
  end.

(** [ceil(a / b)] for a positive [b]. *)
Definition ceil_div (a b : Z) : Z := (a + b - 1) / b.

(** A text without any whitespace: it can only be cut by hard splits. *)
Definition no_ws (s : jsstring) : Prop :=
  forallb (fun c => negb (is_ws c)) s = true.

(** The gateway accepts every new message. *)
Definition accepts_posts (w : World) : Prop :=
  forall h to subj body,
    exists r, gateway w h (MessagesSend to subj body) = Resolved r.



(** ** Reading the dispatch chain *)




(** ** Reading the task life cycle *)


(** A [:check:] reaction on message [m] by user [u]. *)
Definition checkReaction (o : ReactionOp) (u m : Z) : ZulipReactionEvent :=
  {| re_id := 0; op := o; user_id := u; message_id := m;
     emoji_name := lit "check"; emoji_code := []; reaction_type := [] |}.


(** At most one task per source message. *)
Definition one_task_per_source (d : Db) : Prop :=
  NoDup (List.map source_msg_id (tasks d)).


(** A computation that keeps a property of the store. *)
Definition preserves {A} (P : Db -> Prop) (m : M World A) : Prop :=
  forall w, P (db w) -> P (db (snd (m w))).

(** The source message [x] has been promoted. *)
Definition has_task (x : Z) (d : Db) : Prop :=
  getTaskBySourceMsgId x d <> None.

(** The request with which [handleTaskCreation] looks for the message
    above the command. *)
Definition retrieveAbove (msg : ZulipMessage) : Call :=
  MessagesRetrieve (display_recipient msg) (subject msg)
    (numberToString (m_id msg)) 1 0.

(** The message a command promotes, given the gateway's answer. *)
Definition targetOf (msg : ZulipMessage) (response : Response)
  : option ZulipMessage :=
  last (List.filter (fun m => negb (m_id m =? m_id msg))
          (res_messages response)).

(** ** Reading the scheduler *)

(** The live intervals whose callback ticks the row with a given id. *)
Definition countIntervals (id : Z) (l : list Interval) : nat :=
  length (List.filter (fun i => d_id (i_row i) =? id) l).

Definition is_tick_of (id : Z) (t : Spawned) : bool :=
  match t with
  | SpawnTick r => d_id r =? id
  | _ => false
  end.

(** The ticks started for the row with a given id. *)
Definition countTicks (id : Z) (l : list Spawned) : nat :=
  length (List.filter (is_tick_of id) l).

(** The body of the loop of [dashboards.init]. *)
Definition resume (registry : Registry) (ctx : ServiceContext)
    (row : DashboardRow) : M World unit :=
  if negb (registryHas registry (d_name row)) then
    dbWrite (deleteDashboard (d_id row))
  else Dashboards.startTimer registry row ctx true.

(** The primary key of [dashboards]: ids are distinct, and none is above
    the AUTOINCREMENT counter. *)
Definition dashboards_keyed (d : Db) : Prop :=
  NoDup (List.map d_id (dashboards d)) /\
  Forall (fun r => d_id r <= seq_dashboards d) (dashboards d).

(** ** Reading the feed watcher *)

(** The items of a feed to announce, given which guids have been seen:
    the first item of every guid not seen before, in feed order. *)
Fixpoint announce (seen : jsstring -> bool) (items : list FeedItem)
  : list FeedItem :=
  match items with
  | [] => []
  | item :: rest =>
      if seen (guid item) then announce seen rest
      else item :: announce (fun g => seen g || jseqb (guid item) g) rest
  end.

(** An item as parsed, up to the image resolved for it. *)
Definition same_item (resolved parsed : FeedItem) : Prop :=
  resolved = Rss.withImage (image resolved) parsed.

(** The standalone message that announces an item. *)
Definition announcement `{Externals} (row : DashboardRow) (t : Z)
    (item : FeedItem) : Call :=
  MessagesSend (channel row) (topic row) (renderItem t item).

(** ** Reading the tables *)

(** UNIQUE(task_id, user_id) of [task_assignees]: the rows that carry a
    user id are distinct in their (task, user) pairs. *)
Definition assigneeKey (a : AssigneeRow) : list (Z * Z) :=
  match a_user_id a with
  | Some u => [(task_id a, u)]
  | None => []
  end.

Definition assignees_unique (d : Db) : Prop :=
  NoDup (concat (List.map assigneeKey (task_assignees d))).

(** The user with id [u] is assigned to the task [taskId]. *)
Definition assigned (taskId u : Z) (d : Db) : bool :=
  existsb (sameAssignee taskId (Some u)) (task_assignees d).

(** ** Reading the life of a dashboard *)

(** UNIQUE(name, channel, topic) of [dashboards]. *)
Definition dashboardKey (r : DashboardRow) : jsstring * jsstring * jsstring :=
  (d_name r, channel r, topic r).

Definition dashboards_located (d : Db) : Prop :=
  NoDup (List.map dashboardKey (dashboards d)).

(** The id of the row an interval ticks. *)
Definition tickedId (i : Interval) : Z := d_id (i_row i).

(** The [timers] map and the live intervals agree: the map sends a row id
    to a handle exactly when a live interval with that handle ticks that
    row, no two intervals share a handle or a row, and every handle is
    below the next fresh one. *)
Definition timers_consistent (w : World) : Prop :=
  (forall id h, timers w !! id = Some h <->
     exists i, In i (intervals w) /\ handle i = h /\ tickedId i = id) /\
  NoDup (List.map handle (intervals w)) /\
  NoDup (List.map tickedId (intervals w)) /\
  Forall (fun i => handle i < next_handle w) (intervals w).

(** The dashboard with a given id is gone: no row, no feed item kept for
    it, no timer. *)
Definition gone (id : Z) (w : World) : Prop :=
  hasDashboard id (db w) = false /\
  (forall g, feedItemSeen id g (db w) = false) /\
  timers w !! id = None.

(** The body of the loop of [handleStop]. *)
Definition stopOne (row : DashboardRow) : M World unit :=
  call_ignore (deleteMessage (msg_id row)) ;; Dashboards.stopAndCleanup row.

(** The confirmation [handleStop] posts. *)
Definition stopped (names : list jsstring) : jsstring :=
  lit "Stopped dashboard(s): " ++ join (lit ", ") names.

(** The rows [selectRows] answers, read off the store. *)
Definition selected (name : option jsstring) (channel topic : jsstring)
    (d : Db) : list DashboardRow :=
  match name with
  | Some (c :: nm) =>
      match getDashboardByNameAndLocation (c :: nm) channel topic d with
      | Some r => [r]
      | None => []
      end
  | _ => getDashboardsByChannelTopic channel topic d
  end.

(** ** Reading chunks, batches and streams *)

(** A chunk that is not empty and begins with something other than
    whitespace. *)
Definition starts_clean (s : jsstring) : Prop :=
  match s with
  | [] => False
  | c :: _ => is_ws c = false
  end.

(** A chunk without whitespace at its end. *)
Definition ends_clean (s : jsstring) : Prop := trimEnd s = s.

(** The calls the event loop starts for one event. *)
Definition started (services : list Service) (event : Event) : list Spawned :=
  match event with
  | EvMessage e => [SpawnHandleMessage e]
  | EvReaction e =>
      concat (List.map
        (fun svc => match onReaction svc with
                    | Some _ => [SpawnOnReaction (name svc) e]
                    | None => []
                    end)
        services)
  | EvOther _ _ => []
  end.

(** The id of the last event of a batch, or the cursor when it is empty. *)
Definition lastIdOf (events : list Event) (cursor : Z) : Z :=
  fold_left (fun _ e => event_id e) events cursor.

(** The texts an [onText] callback is given: each is everything received
    so far. *)
Fixpoint cumulative (acc : jsstring) (deltas : list jsstring)
  : list jsstring :=
  match deltas with
  | [] => []
  | d :: rest => (acc ++ d) :: cumulative (acc ++ d) rest
  end.

(** The non-empty text deltas of a stream, up to its first result
    message. *)
Fixpoint deltasOf (messages : list SdkMessage) : list jsstring :=
  match messages with
  | SdkTextDelta (c :: text) :: rest => (c :: text) :: deltasOf rest
  | SdkTextDelta [] :: rest | SdkOther :: rest => deltasOf rest
  | SdkResultSuccess _ :: _ | SdkResultFailure _ _ :: _ | [] => []
  end.

(** The first result message of a stream. *)
Fixpoint firstResult (messages : list SdkMessage) : option SdkMessage :=
  match messages with
  | [] => None
  | SdkResultSuccess r :: _ => Some (SdkResultSuccess r)
  | SdkResultFailure s e :: _ => Some (SdkResultFailure s e)
  | _ :: rest => firstResult rest
  end.

(** An [onText] callback that keeps what it is given. *)
Definition record (text : jsstring) : M (list jsstring * World) unit :=
  fun s => (Returned tt, (fst s ++ [text], snd s)).

(** ** Reading the task commands *)

(** What [quote] does to one code unit. *)
Definition quoteUnit (c : N) : jsstring :=
  if N.eqb c 10 then 10%N :: lit "> " else [c].

(** What a computation has established when it returns. *)
Definition ensures {A} (Q : A -> World -> Prop) (m : M World A) : Prop :=
  forall w a w', m w = (Returned a, w') -> Q a w'.

(** ** Reading failures *)

(** The world after the [init] of a service was attempted: as [init] left
    it, whether it came back or threw. *)
Definition attempted (ctx : ServiceContext) (w : World) (service : Service)
  : World :=
  match init service with
  | Some start => snd (start ctx w)
  | None => w
  end.

(** The [init] of a service comes back or throws: it does not run for
    ever. *)
Definition init_ends (ctx : ServiceContext) (service : Service) : Prop :=
  forall w,
    match init service with
    | Some start => fst (start ctx w) <> Hangs
    | None => True
    end.

(** The gateway refuses every new message, with the same error. *)
Definition refuses_posts (w : World) (e : Thrown) : Prop :=
  forall h to subj body, gateway w h (MessagesSend to subj body) = Rejected e.

(** ** A small installation, to run the model on *)

(** An answer that says yes and carries nothing. *)
Definition okResponse : Response :=
  {| res_id := 1; res_result := lit "success"; res_code := [];
     res_messages := [];
     res_message := None; res_user := None; res_queue_id := lit "q";
     res_last_event_id := -1; res_events := Some []; res_streams := None;
     res_subscribers := None; res_members := None; res_subscribed := None;
     res_ok := true; res_status := 200; res_text := []; res_sdk := [] |}.

Definition emptyDb : Db :=
  {| tasks := []; task_assignees := []; dashboards := []; feed_items := [];
     seq_tasks := 0; seq_task_assignees := 0; seq_dashboards := 0;
     seq_feed_items := 0 |}.

(** A fresh process whose gateway accepts everything. *)
Definition world0 : World :=
  {| db := emptyDb; log := []; clock := 0;
     gateway := fun _ _ => Resolved okResponse;
     timers := ∅; intervals := []; next_handle := 1; spawned := [];
     tasksChannelCache := ∅; spinnerFires := fun _ => [] |}.

Definition composer0 : Composer :=
  {| c_channel := lit "general"; c_topic := lit "help"; messageId := 7;
     startTime := 0; finalized := false; textStarted := false;
     spinnerTimer := true; lastFlushedWordCount := 0; latestContent := None |}.

(** A text of 9505 code units: a one-letter paragraph, a paragraph of 9499
    letters, and a last one-letter paragraph. *)
Definition threeParagraphs : jsstring :=
  lit "a" ++ NLNL ++ repeat 98%N (Z.to_nat 9499) ++ NLNL ++ lit "c".

(** A letter followed by 9500 spaces. *)
Definition trailingBlanks : jsstring := lit "a" ++ repeat 32%N (Z.to_nat 9500).





Definition cursor0 : Cursor := {| queueId := lit "old"; lastEventId := 41 |}.

Definition item1 : FeedItem :=
  {| guid := lit "g1"; title := lit "One"; link := lit "https://example.com/1";
     description := []; pubDate := lit "2025-01-01T09:00:00Z";
     image := lit "https://example.com/1.png" |}.
Definition item2 : FeedItem :=
  {| guid := lit "g2"; title := lit "Two"; link := [];
     description := []; pubDate := lit "2025-01-02T09:00:00Z"; image := [] |}.
Definition item3 : FeedItem :=
  {| guid := lit "g3"; title := lit "Three"; link := lit "https://example.com/3";
     description := []; pubDate := lit "2025-01-03T09:00:00Z"; image := [] |}.

(** Transforms that do as little as possible; every feed parses to the
    three items above, the oldest first. *)
Definition plainExternals : Externals :=
  {| htmlToText := fun html => html;
     toLowerCase := fun s => s;
     encodeURIComponent := fun s => s;
     datetime_now := numberToString;
     toISOString := numberToString;
     parseFeed := fun _ => inr (lit "Feed", [item1; item2; item3]);
     ogImageOf := fun _ => [];
     renderItem := fun _ item => title item;
     toLocaleTimeString := numberToString;
     isUrl := fun _ => true;
     stringifySubscription := fun nm _ => nm;
     stringifyStrings := join (lit ",") |}.

Definition config0 : Config :=
  {| zulipRealm := lit "https://chat.example.com"; contextMessages := 20;
     tasksChannel := lit "tasks"; taskEmoji := lit "clipboard" |}.

Definition ctx0 : ServiceContext :=
  {| config := config0; botEmail := lit "bot@example.com"; botUserId := 1 |}.

Definition sourceMsg : ZulipMessage :=
  {| m_id := 100; sender_email := lit "ada@example.com";
     sender_full_name := lit "Ada"; m_type := stream;
     display_recipient := lit "general"; subject := lit "build";
     m_content := lit "fix the build" |}.

Definition commandMsg : ZulipMessage :=
  {| m_id := 101; sender_email := lit "ada@example.com";
     sender_full_name := lit "Ada"; m_type := stream;
     display_recipient := lit "general"; subject := lit "build";
     m_content := lit "@bot task" |}.

Definition directMsg : ZulipMessage :=
  {| m_id := 102; sender_email := lit "ada@example.com";
     sender_full_name := lit "Ada"; m_type := private;
     display_recipient := lit "ada@example.com"; subject := [];
     m_content := lit "hello" |}.

Definition mentionEvent : ZulipMessageEvent :=
  {| me_id := 1; message := commandMsg; flags := [lit "read"; lit "mentioned"] |}.

Definition directEvent : ZulipMessageEvent :=
  {| me_id := 2; message := directMsg; flags := [lit "mentioned"] |}.

(** The task promoted from [sourceMsg], with its card in message 500. *)
Definition task0 : TaskRow :=
  {| t_id := 1; t_content := lit "fix the build"; creator_name := lit "Ada";
     creator_user_id := None; status := open;
     source_channel := lit "general"; source_topic := lit "build";
     source_msg_id := 100;
     task_channel := Some (lit "tasks-general");
     task_topic := Some (lit "general / build"); task_msg_id := Some 500;
     own_topic := 0; t_created_at := lit "2025-01-01 00:00:00";
     completed_at := None; completed_by := None |}.

Definition helpRow : DashboardRow :=
  {| d_id := 1; d_name := lit "help"; channel := lit "general";
     topic := lit "bot"; msg_id := 600; interval_ms := 3600000;
     params := []; bootstrapped := 1;
     d_created_at := lit "2025-01-01 00:00:00" |}.

Definition orphanRow : DashboardRow :=
  {| d_id := 2; d_name := lit "weather"; channel := lit "general";
     topic := lit "bot"; msg_id := 601; interval_ms := 60000;
     params := []; bootstrapped := 1;
     d_created_at := lit "2025-01-02 00:00:00" |}.

Definition feedRow (flag : Z) : DashboardRow :=
  {| d_id := 3; d_name := lit "rss"; channel := lit "news";
     topic := lit "feed"; msg_id := 602; interval_ms := 300000;
     params := lit "https://example.com/feed.xml"; bootstrapped := flag;
     d_created_at := lit "2025-01-03 00:00:00" |}.

(** Item [g1] has been seen by the feed dashboard. *)
Definition db1 : Db :=
  {| tasks := [task0]; task_assignees := [];
     dashboards := [helpRow; orphanRow; feedRow 1];
     feed_items := [{| f_id := 1; dashboard_id := 3; item_guid := lit "g1";
                       seen_at := lit "2025-01-03 00:00:00" |}];
     seq_tasks := 1; seq_task_assignees := 0; seq_dashboards := 3;
     seq_feed_items := 1 |}.

(** An answer with something in every field the bot reads. *)
Definition richResponse : Response :=
  {| res_id := 700; res_result := lit "success"; res_code := [];
     res_messages := [sourceMsg; commandMsg];
     res_message := Some sourceMsg; res_user := Some (lit "Grace", 7);
     res_queue_id := lit "q1"; res_last_event_id := -1;
     res_events := Some []; res_streams := None; res_subscribers := None;
     res_members := None; res_subscribed := None;
     res_ok := true; res_status := 200; res_text := lit "<rss/>";
     res_sdk := [SdkTextDelta (lit "Hello"); SdkResultSuccess (lit "Hello")] |}.

Definition world1 : World :=
  {| db := db1; log := []; clock := 1000;
     gateway := fun _ _ => Resolved richResponse;
     timers := ∅; intervals := []; next_handle := 1; spawned := [];
     tasksChannelCache := ∅; spinnerFires := fun _ => [] |}.

(** Three services: one throws, one has no [onMessage], one claims the
    message after a request of its own. *)
Definition thrower : Service :=
  {| name := lit "thrower"; description_ := []; defaultEnabled := true;
     init := None;
     onMessage := Some (fun _ _ => throw (ErrorObject (lit "boom")));
     onReaction := None |}.

Definition silent : Service :=
  {| name := lit "silent"; description_ := []; defaultEnabled := true;
     init := None; onMessage := None; onReaction := None |}.

Definition claimer : Service :=
  {| name := lit "claimer"; description_ := []; defaultEnabled := true;
     init := None;
     onMessage := Some (fun msg _ =>
       (_ <- call (MessagesSend (display_recipient msg) (subject msg)
                     (lit "mine")) ;;
        ret true)%M);
     onReaction := None |}.

Definition helpDef0 : DashboardDef :=
  {| def_description := lit "Bot features & command reference";
     def_intervalMs := Some 3600000; usage := None; validateParams := None;
     fetch := fun _ _ row => ret (lit "## Bot Commands", row) |}.

Definition registry0 : Registry :=
  [(lit "help", helpDef0); (lit "rss", @Rss.rssDef plainExternals)].



(** The world after [dashboards.init]. *)
Definition afterInit : World :=
  snd (Dashboards.init registry0 ctx0 world1).

(** *** More of the installation *)

(** Patterns that only know Grace (user 7) and the card 500. *)
Definition plainPatterns : Patterns :=
  {| mentionMatches := fun html =>
       if includes html (lit "@Grace") then [(7, lit "Grace")] else [];
     quotedMatch := fun html =>
       if includes html (lit "/near/500") then Some 500 else None |}.

Definition blankMsg : ZulipMessage :=
  {| m_id := 103; sender_email := lit "ada@example.com";
     sender_full_name := lit "Ada"; m_type := stream;
     display_recipient := lit "general"; subject := lit "build";
     m_content := lit "  " |}.


Definition assignMsg : ZulipMessage :=
  {| m_id := 104; sender_email := lit "ada@example.com";
     sender_full_name := lit "Ada"; m_type := stream;
     display_recipient := lit "general"; subject := lit "build";
     m_content := lit "/near/500 @bot assign @Grace" |}.



(** The world after the task channel of [general] is resolved. *)
Definition afterResolve : World :=
  snd (@Tasks.resolveTasksChannel plainExternals ctx0 (lit "general") world1).

(** The answering engine cannot be reached. *)
Definition engineDown : World :=
  {| db := db1; log := []; clock := 1000;
     gateway := fun _ c =>
       match c with
       | Query _ _ => Rejected (ErrorObject (lit "overloaded"))
       | _ => Resolved richResponse
       end;
     timers := ∅; intervals := []; next_handle := 1; spawned := [];
     tasksChannelCache := ∅; spinnerFires := fun _ => [] |}.



(** The feed server cannot be reached. *)
Definition feedOffline : World :=
  {| db := db1; log := []; clock := 1000;
     gateway := fun _ c =>
       match c with
       | HttpFetch _ => Rejected (ErrorObject (lit "ECONNREFUSED"))
       | _ => Resolved richResponse
       end;
     timers := ∅; intervals := []; next_handle := 1; spawned := [];
     tasksChannelCache := ∅; spinnerFires := fun _ => [] |}.


(** The gateway refuses new messages. *)
Definition muted : World :=
  {| db := db1; log := []; clock := 1000;
     gateway := fun _ c =>
       match c with
       | MessagesSend _ _ _ => Rejected (ErrorObject (lit "rate limited"))
       | _ => Resolved richResponse
       end;
     timers := ∅; intervals := []; next_handle := 1; spawned := [];
     tasksChannelCache := ∅; spinnerFires := fun _ => [] |}.

(** A batch of two events: Ada's mention, and a reaction. *)
Definition batch : list Event :=
  [EvMessage mentionEvent; EvReaction (checkReaction add 7 500)].

Definition batchResponse : Response :=
  {| res_id := 0; res_result := lit "success"; res_code := [];
     res_messages := [];
     res_message := None; res_user := None; res_queue_id := lit "q1";
     res_last_event_id := -1; res_events := Some batch;
     res_streams := None; res_subscribers := None; res_members := None;
     res_subscribed := None; res_ok := true; res_status := 200;
     res_text := []; res_sdk := [] |}.

Definition busy : World :=
  {| db := db1; log := []; clock := 1000;
     gateway := fun _ _ => Resolved batchResponse;
     timers := ∅; intervals := []; next_handle := 1; spawned := [];
     tasksChannelCache := ∅; spinnerFires := fun _ => [] |}.

(** A producer whose fetch always throws. *)
Definition brokenDef : DashboardDef :=
  {| def_description := lit "Always down"; def_intervalMs := None;
     usage := None; validateParams := None;
     fetch := fun _ _ _ => throw (ErrorObject (lit "down")) |}.

Definition registry1 : Registry := [(lit "broken", brokenDef)].

(* ===================================================================== *)
(** * Properties *)
(* ===================================================================== *)

Example splitMessage_small :
  splitMessage (lit "aaa bbb") 4 = Some [lit "aaa"; lit "bbb"].
Proof. reflexivity. Qed.

(** ** Strings *)

Definition all_ws (s : jsstring) : Prop := forallb is_ws s = true.

Lemma trimStart_split (s : jsstring) :
  exists g, all_ws g /\ s = g ++ trimStart s.
Proof.
  induction s as [|c s IH]; simpl.
  - exists []. split; reflexivity.
  - destruct (is_ws c) eqn:Hc.
    + destruct IH as (g & Hg & Hs). exists (c :: g). split.
      * unfold all_ws in *. simpl. rewrite Hc, Hg. reflexivity.
      * simpl. congruence.
    + exists []. split; reflexivity.
Qed.

Lemma all_ws_rev (g : jsstring) : all_ws g -> all_ws (rev g).
Proof.
  unfold all_ws. rewrite !forallb_forall. intros H x Hx.
  apply H. apply in_rev. exact Hx.
Qed.

Lemma all_ws_app (g h : jsstring) : all_ws g -> all_ws h -> all_ws (g ++ h).
Proof. unfold all_ws. rewrite forallb_app. intros -> ->. reflexivity. Qed.

Lemma trimEnd_split (s : jsstring) :
  exists g, all_ws g /\ s = trimEnd s ++ g.
Proof.
  unfold trimEnd. destruct (trimStart_split (rev s)) as (g & Hg & Hs).
  exists (rev g). split; [apply all_ws_rev, Hg|].
  rewrite <- rev_app_distr, <- Hs, rev_involutive. reflexivity.
Qed.

Lemma trimStart_length (s : jsstring) : (length (trimStart s) <= length s)%nat.
Proof.
  destruct (trimStart_split s) as (g & _ & Hs).
  rewrite Hs at 2. rewrite length_app. lia.
Qed.

Lemma trimEnd_length (s : jsstring) : (length (trimEnd s) <= length s)%nat.
Proof.
  destruct (trimEnd_split s) as (g & _ & Hs).
  rewrite Hs at 2. rewrite length_app. lia.
Qed.

(** The scan answers [best], or an index it visited that is admissible. *)
Lemma lastIndexOf_scan_range (s pat : jsstring) (i start best : Z) :
  let r := lastIndexOf_scan s pat i start best in
  r = best \/ (i <= r <= start /\ r <= i + jslen s).
Proof.
  revert i best. induction s as [|c s IH]; intros i best;
    cbn [lastIndexOf_scan].
  - destruct ((i <=? start) && startsWith [] pat) eqn:E; [|left; reflexivity].
    apply andb_true_iff in E. destruct E as [E _]. apply Z.leb_le in E.
    right. unfold jslen. simpl. lia.
  - unfold jslen in *. simpl length. rewrite Nat2Z.inj_succ.
    destruct ((i <=? start) && startsWith (c :: s) pat) eqn:E.
    + apply andb_true_iff in E. destruct E as [E _]. apply Z.leb_le in E.
      destruct (IH (i + 1) i) as [-> | H]; right; lia.
    + destruct (IH (i + 1) best) as [-> | H]; [left; reflexivity | right; lia].
Qed.

(** The scan finds the last admissible occurrence: nothing admissible
    occurs after the index it answers, and when it answers [best] nothing
    admissible occurs at all. *)
Lemma lastIndexOf_scan_last (s pat : jsstring) (i start best : Z) :
  let r := lastIndexOf_scan s pat i start best in
  let occurs k := startsWith (skipn (Z.to_nat (k - i)) s) pat in
  (r = best /\ forall k, i <= k <= start -> k <= i + jslen s -> occurs k = false)
  \/ (i <= r <= start /\ r <= i + jslen s /\ occurs r = true /\
      forall k, r < k <= start -> k <= i + jslen s -> occurs k = false).
Proof.
  revert i best. induction s as [|c s IH]; intros i best;
    cbn [lastIndexOf_scan]; cbv zeta.
  - unfold jslen. cbn [length].
    destruct ((i <=? start) && startsWith [] pat) eqn:E.
    + apply andb_true_iff in E. destruct E as [E1 E2]. apply Z.leb_le in E1.
      right. replace (i - i) with 0 by lia. cbn [Z.to_nat skipn].
      split; [lia|]. split; [lia|]. split; [exact E2|]. intros k Hk Hk'. lia.
    + left. split; [reflexivity|]. intros k Hk Hk'.
      assert (k = i) as -> by lia. replace (i - i) with 0 by lia.
      cbn [Z.to_nat skipn]. apply andb_false_iff in E.
      destruct E as [E | E]; [apply Z.leb_gt in E; lia | exact E].
  - unfold jslen in *. cbn [length]. rewrite Nat2Z.inj_succ.
    assert (forall k, i + 1 <= k ->
              skipn (Z.to_nat (k - i)) (c :: s)
              = skipn (Z.to_nat (k - (i + 1))) s) as Hshift.
    { intros k Hk. replace (Z.to_nat (k - i)) with (S (Z.to_nat (k - (i + 1))))
        by lia. reflexivity. }
    assert (skipn (Z.to_nat (i - i)) (c :: s) = c :: s) as Hhere
      by (replace (i - i) with 0 by lia; reflexivity).
    destruct ((i <=? start) && startsWith (c :: s) pat) eqn:E.
    + apply andb_true_iff in E. destruct E as [E1 E2]. apply Z.leb_le in E1.
      right. destruct (IH (i + 1) i) as [(-> & Hnone) | (Hr & Hr' & Hocc & Hlast)].
      * rewrite Hhere. split; [lia|]. split; [lia|]. split; [exact E2|].
        intros k Hk Hk'. rewrite Hshift by lia. apply Hnone; lia.
      * rewrite Hshift by lia. split; [lia|]. split; [lia|]. split; [exact Hocc|].
        intros k Hk Hk'. rewrite Hshift by lia. apply Hlast; lia.
    + destruct (IH (i + 1) best) as [(-> & Hnone) | (Hr & Hr' & Hocc & Hlast)].
      * left. split; [reflexivity|]. intros k Hk Hk'.
        destruct (Z.eq_dec k i) as [-> | Hne].
        -- rewrite Hhere. apply andb_false_iff in E.
           destruct E as [E | E]; [apply Z.leb_gt in E; lia | exact E].
        -- rewrite Hshift by lia. apply Hnone; lia.
      * right. rewrite Hshift by lia. split; [lia|]. split; [lia|]. split; [exact Hocc|].
        intros k Hk Hk'. rewrite Hshift by lia. apply Hlast; lia.
Qed.

(** [lastIndexOf] as ECMAScript defines it: the answer is [-1] when the
    pattern occurs at no index up to [pos]; otherwise the pattern occurs
    at the answer and at no later index up to [pos]. *)
Lemma lastIndexOf_last (s pat : jsstring) (pos : Z) :
  let r := lastIndexOf s pat pos in
  let occurs k := startsWith (skipn (Z.to_nat k) s) pat in
  (r = -1 /\ forall k, 0 <= k <= Z.max pos 0 -> k <= jslen s -> occurs k = false)
  \/ (0 <= r <= Z.max pos 0 /\ occurs r = true /\
      forall k, r < k <= Z.max pos 0 -> k <= jslen s -> occurs k = false).
Proof.
  unfold lastIndexOf. cbv zeta.
  destruct (lastIndexOf_scan_last s pat 0 (Z.max pos 0) (-1))
    as [(Hr & Hnone) | (Hr & Hr' & Hocc & Hlast)].
  - left. split; [exact Hr|]. intros k Hk Hk'.
    specialize (Hnone k Hk ltac:(lia)). rewrite Z.sub_0_r in Hnone. exact Hnone.
  - right. rewrite Z.sub_0_r in Hocc. split; [lia|]. split; [exact Hocc|].
    intros k Hk Hk'. specialize (Hlast k Hk ltac:(lia)).
    rewrite Z.sub_0_r in Hlast. exact Hlast.
Qed.

Example lastIndexOf_paragraph :
  lastIndexOf (lit "ab" ++ NLNL ++ lit "cd" ++ NLNL ++ lit "ef") NLNL 5 = 2
  /\ lastIndexOf (lit "ab" ++ NLNL ++ lit "cd" ++ NLNL ++ lit "ef") NLNL 6 = 6
  /\ lastIndexOf (lit "abc") NL 2 = -1
  /\ lastIndexOf (NL ++ lit "abc") NL 2 = 0.
Proof. repeat split; reflexivity. Qed.

Example countWords_runs :
  countWords (lit "  two words ") = 2 /\ countWords [] = 0
  /\ trim (lit "  two words ") = lit "two words".
Proof. repeat split; reflexivity. Qed.

Lemma lastIndexOf_range (s pat : jsstring) (pos : Z) :
  lastIndexOf s pat pos = -1 \/
  (0 <= lastIndexOf s pat pos <= Z.max pos 0 /\ lastIndexOf s pat pos <= jslen s).
Proof.
  unfold lastIndexOf.
  destruct (lastIndexOf_scan_range s pat 0 (Z.max pos 0) (-1)) as [H | H];
    [left; exact H | right; lia].
Qed.

(** ** [splitMessage] *)

Lemma splitIdx_range (remaining : jsstring) (maxLen : Z) :
  0 < maxLen -> 1 <= splitIdx remaining maxLen <= maxLen.
Proof.
  intros Hpos. unfold splitIdx.
  pose proof (lastIndexOf_range remaining NLNL maxLen) as H2.
  pose proof (lastIndexOf_range remaining NL maxLen) as H1.
  destruct (lastIndexOf remaining NLNL maxLen <=? 0) eqn:E2.
  - destruct (lastIndexOf remaining NL maxLen <=? 0) eqn:E1.
    + lia.
    + apply Z.leb_gt in E1. lia.
  - rewrite E2. apply Z.leb_gt in E2. lia.
Qed.

Lemma slice_prefix (s : jsstring) (i : Z) :
  0 <= i <= jslen s -> slice s 0 i = firstn (Z.to_nat i) s.
Proof.
  intros Hi. unfold slice, slice_index.
  destruct (0 <? 0) eqn:E0; [apply Z.ltb_lt in E0; lia|].
  destruct (i <? 0) eqn:Ei; [apply Z.ltb_lt in Ei; lia|].
  assert (jslen s >= 0) by (unfold jslen; lia).
  rewrite (Z.min_l 0), (Z.min_l i) by lia.
  rewrite Z.sub_0_r. reflexivity.
Qed.

Lemma sliceFrom_suffix (s : jsstring) (i : Z) :
  0 <= i <= jslen s -> sliceFrom s i = skipn (Z.to_nat i) s.
Proof.
  intros Hi. unfold sliceFrom, slice, slice_index.
  destruct (i <? 0) eqn:Ei; [apply Z.ltb_lt in Ei; lia|].
  destruct (jslen s <? 0) eqn:El; [apply Z.ltb_lt in El; lia|].
  rewrite (Z.min_l i), Z.min_id by lia.
  apply firstn_all2. rewrite length_skipn. unfold jslen in *. lia.
Qed.

(** One turn of the loop cuts the text in two and trims the cut. *)
Lemma split_turn (remaining : jsstring) (maxLen : Z) :
  0 < maxLen -> jslen remaining > maxLen ->
  let i := splitIdx remaining maxLen in
  exists gap, all_ws gap /\
    remaining = trimEnd (slice remaining 0 i) ++ gap
                ++ trimStart (sliceFrom remaining i).
Proof.
  intros Hpos Hlen i.
  pose proof (splitIdx_range remaining maxLen Hpos) as Hi. fold i in Hi.
  rewrite slice_prefix, sliceFrom_suffix by lia.
  destruct (trimEnd_split (firstn (Z.to_nat i) remaining)) as (g1 & Hg1 & H1).
  destruct (trimStart_split (skipn (Z.to_nat i) remaining)) as (g2 & Hg2 & H2).
  exists (g1 ++ g2). split; [apply all_ws_app; assumption|].
  rewrite <- (firstn_skipn (Z.to_nat i) remaining) at 1.
  rewrite H1 at 1. rewrite H2 at 1. rewrite <- !app_assoc. reflexivity.
Qed.

(** Each turn strictly shortens the remaining text. *)
Lemma split_turn_shorter (remaining : jsstring) (maxLen : Z) :
  0 < maxLen -> jslen remaining > maxLen ->
  (length (trimStart (sliceFrom remaining (splitIdx remaining maxLen)))
   < length remaining)%nat.
Proof.
  intros Hpos Hlen.
  pose proof (splitIdx_range remaining maxLen Hpos) as Hi.
  rewrite sliceFrom_suffix by lia.
  pose proof (trimStart_length
    (skipn (Z.to_nat (splitIdx remaining maxLen)) remaining)) as Ht.
  rewrite length_skipn in Ht. unfold jslen in *. lia.
Qed.

Lemma split_turn_chunk_length (remaining : jsstring) (maxLen : Z) :
  0 < maxLen -> jslen remaining > maxLen ->
  jslen (trimEnd (slice remaining 0 (splitIdx remaining maxLen))) <= maxLen.
Proof.
  intros Hpos Hlen.
  pose proof (splitIdx_range remaining maxLen Hpos) as Hi.
  rewrite slice_prefix by lia.
  pose proof (trimEnd_length
    (firstn (Z.to_nat (splitIdx remaining maxLen)) remaining)) as Ht.
  rewrite length_firstn in Ht. unfold jslen in *. lia.
Qed.

Lemma splitLoop_total (fuel : nat) (chunks : list jsstring)
    (remaining : jsstring) (maxLen : Z) :
  0 < maxLen -> (length remaining <= fuel)%nat ->
  exists r, splitLoop fuel chunks remaining maxLen = Some r.
Proof.
  intros Hpos. revert chunks remaining.
  induction fuel as [|fuel IH]; intros chunks remaining Hfuel; simpl.
  - destruct (jslen remaining >? maxLen) eqn:E; [|eauto].
    apply Z.gtb_lt in E. unfold jslen in E. lia.
  - destruct (jslen remaining >? maxLen) eqn:E; [|eauto].
    apply Z.gtb_lt in E. apply IH.
    pose proof (split_turn_shorter remaining maxLen Hpos ltac:(lia)). lia.
Qed.

Lemma weave_app (c1 g1 c2 g2 : list jsstring) :
  length g1 = length c1 ->
  weave (c1 ++ c2) (g1 ++ g2) = weave c1 g1 ++ weave c2 g2.
Proof.
  revert g1. induction c1 as [|c c1 IH]; intros [|g g1] Hlen;
    simpl in *; try discriminate; [reflexivity|].
  rewrite IH by congruence. rewrite <- !app_assoc. reflexivity.
Qed.

(** What the loop has produced when it stops. *)
Lemma splitLoop_spec (fuel : nat) (maxLen : Z) :
  0 < maxLen ->
  forall chunks remaining chunks' remaining',
  splitLoop fuel chunks remaining maxLen = Some (chunks', remaining') ->
  jslen remaining' <= maxLen /\
  exists new gaps,
    chunks' = chunks ++ new /\ length gaps = length new /\
    Forall all_ws gaps /\ remaining = weave new gaps ++ remaining' /\
    Forall (fun c => jslen c <= maxLen) new /\
    (jslen remaining > maxLen -> new <> []).
Proof.
  intros Hpos. induction fuel as [|fuel IH];
    intros chunks remaining chunks' remaining'; simpl;
    destruct (jslen remaining >? maxLen) eqn:E; intros H;
    try discriminate.
  - injection H as <- <-. rewrite Z.gtb_ltb in E. apply Z.ltb_ge in E.
    split; [exact E|]. exists [], []. rewrite app_nil_r.
    repeat split; auto; lia.
  - apply Z.gtb_lt in E.
    destruct (IH _ _ _ _ H) as (Hr & new & gaps & -> & Hlen & Hws & Hw & Hle & _).
    split; [exact Hr|].
    destruct (split_turn remaining maxLen Hpos ltac:(lia)) as (gap & Hgap & Hsplit).
    exists (trimEnd (slice remaining 0 (splitIdx remaining maxLen)) :: new),
           (gap :: gaps).
    rewrite <- app_assoc. simpl. repeat split; auto.
    + rewrite <- !app_assoc, <- Hw. exact Hsplit.
    + constructor; [|exact Hle].
      apply split_turn_chunk_length; lia.
  - injection H as <- <-. rewrite Z.gtb_ltb in E. apply Z.ltb_ge in E.
    split; [exact E|]. exists [], []. rewrite app_nil_r.
    repeat split; auto; lia.
Qed.

(** A text over the limit is cut into at least one chunk; every chunk fits
    the limit, and the chunks with the trimmed whitespace put back are the
    text. *)
Lemma splitMessage_spec (content : jsstring) (maxLen : Z) :
  0 < maxLen -> jslen content > maxLen ->
  exists first rest gaps,
    splitMessage content maxLen = Some (first :: rest) /\
    Forall (fun c => jslen c <= maxLen) (first :: rest) /\
    length gaps = length (first :: rest) /\
    Forall all_ws gaps /\
    content = weave (first :: rest) gaps.
Proof.
  intros Hpos Hlen. unfold splitMessage.
  destruct (jslen content <=? maxLen) eqn:E; [apply Z.leb_le in E; lia|].
  destruct (splitLoop_total (S (length content)) [] content maxLen Hpos
              ltac:(lia)) as ([chunks remaining] & Hloop).
  rewrite Hloop.
  destruct (splitLoop_spec _ _ Hpos _ _ _ _ Hloop)
    as (Hr & new & gaps & -> & Hgl & Hws & Hw & Hle & Hne).
  simpl app. specialize (Hne Hlen).
  destruct new as [|first rest]; [congruence|].
  destruct (jslen remaining >? 0) eqn:E0.
  - exists first, (rest ++ [remaining]), (gaps ++ [[]]).
    split; [reflexivity|]. split.
    + rewrite app_comm_cons. apply Forall_app. split; [exact Hle|].
      constructor; [exact Hr | constructor].
    + split; [rewrite app_comm_cons, !length_app, Hgl; reflexivity|].
      split; [apply Forall_app; split; [exact Hws | repeat constructor]|].
      rewrite app_comm_cons, weave_app by exact Hgl.
      simpl weave at 2. rewrite !app_nil_r. exact Hw.
  - exists first, rest, gaps. split; [reflexivity|].
    repeat split; auto.
    assert (remaining = []) as ->.
    { rewrite Z.gtb_ltb in E0. apply Z.ltb_ge in E0. unfold jslen in E0.
      destruct remaining; [reflexivity | simpl in E0; lia]. }
    rewrite app_nil_r in Hw. exact Hw.
Qed.

(** With a maximum of zero the loop can run forever. *)
Remark splitLoop_zero_diverges (fuel : nat) (chunks : list jsstring) :
  splitLoop fuel chunks (lit "a") 0 = None.
Proof.
  revert chunks. induction fuel as [|fuel IH]; intros chunks;
    [reflexivity|]. apply IH.
Qed.

(** C10: for a positive maximum length [splitMessage] returns: the index
    at which a turn of its loop cuts is at least 1, so each turn strictly
    shortens the remaining text, and the loop ends within as many turns as
    the text has code units. *)
Theorem splitMessage_terminates (content : jsstring) (maxLen : Z) :
  0 < maxLen ->
  (exists chunks, splitMessage content maxLen = Some chunks) /\
  (forall remaining, jslen remaining > maxLen ->
     1 <= splitIdx remaining maxLen /\
     (length (trimStart (sliceFrom remaining (splitIdx remaining maxLen)))
      < length remaining)%nat).
Proof.
  intros Hpos. split.
  - unfold splitMessage. destruct (jslen content <=? maxLen); [eauto|].
    destruct (splitLoop_total (S (length content)) [] content maxLen Hpos
                ltac:(lia)) as ([chunks remaining] & ->).
    eauto.
  - intros remaining Hlen. split.
    + apply splitIdx_range, Hpos.
    + apply split_turn_shorter; assumption.
Qed.

Lemma splitMessage_terminates_witness :
  0 < 4 /\
  ((exists chunks, splitMessage (lit "aaa bbb") 4 = Some chunks) /\
   (forall remaining, jslen remaining > 4 ->
      1 <= splitIdx remaining 4 /\
      (length (trimStart (sliceFrom remaining (splitIdx remaining 4)))
       < length remaining)%nat)).
Proof.
  split; [lia|]. apply (splitMessage_terminates (lit "aaa bbb") 4). lia.
Defined.

(** *** Texts that only hard splits can cut *)

Lemma no_ws_cons (c : N) (s : jsstring) :
  no_ws (c :: s) -> is_ws c = false /\ no_ws s.
Proof.
  unfold no_ws. cbn [forallb]. intros Hs. apply andb_true_iff in Hs.
  destruct Hs as [Hc Hs]. apply negb_true_iff in Hc. tauto.
Qed.

Lemma no_ws_app (s t : jsstring) : no_ws (s ++ t) <-> no_ws s /\ no_ws t.
Proof. unfold no_ws. rewrite forallb_app, andb_true_iff. reflexivity. Qed.

Lemma no_ws_rev (s : jsstring) : no_ws s -> no_ws (rev s).
Proof.
  unfold no_ws. rewrite !forallb_forall. intros Hs x Hx.
  apply Hs. apply in_rev. exact Hx.
Qed.

Lemma trimStart_no_ws (s : jsstring) : no_ws s -> trimStart s = s.
Proof.
  destruct s as [|c s]; [reflexivity|]. intros Hs.
  apply no_ws_cons in Hs. cbn [trimStart]. destruct Hs as [-> _]. reflexivity.
Qed.

Lemma trimEnd_no_ws (s : jsstring) : no_ws s -> trimEnd s = s.
Proof.
  intros Hs. unfold trimEnd. rewrite trimStart_no_ws by (apply no_ws_rev, Hs).
  apply rev_involutive.
Qed.

(** A pattern that starts with a newline does not occur. *)
Lemma lastIndexOf_scan_no_ws (s pat : jsstring) (i start best : Z) :
  no_ws s -> lastIndexOf_scan s (10%N :: pat) i start best = best.
Proof.
  revert i best. induction s as [|c s IH]; intros i best Hs;
    cbn [lastIndexOf_scan startsWith].
  - rewrite andb_false_r. reflexivity.
  - apply no_ws_cons in Hs. destruct Hs as [Hc Hs].
    assert (N.eqb 10 c = false) as ->.
    { apply N.eqb_neq. intros <-. discriminate Hc. }
    cbn [andb]. rewrite andb_false_r. apply IH, Hs.
Qed.

Lemma splitIdx_no_ws (s : jsstring) (maxLen : Z) :
  no_ws s -> splitIdx s maxLen = maxLen.
Proof.
  intros Hs. unfold splitIdx, lastIndexOf, NLNL, NL.
  rewrite !lastIndexOf_scan_no_ws by exact Hs. reflexivity.
Qed.

(** Without whitespace the loop takes [(len - 1) / maxLen] turns and ends
    with a non-empty rest. *)
Lemma splitLoop_no_ws (fuel : nat) (maxLen : Z) :
  0 < maxLen ->
  forall chunks s,
  no_ws s -> (length s <= fuel)%nat -> 1 <= jslen s ->
  exists chunks' remaining,
    splitLoop fuel chunks s maxLen = Some (chunks', remaining) /\
    Z.of_nat (length chunks') = Z.of_nat (length chunks) + (jslen s - 1) / maxLen /\
    1 <= jslen remaining.
Proof.
  intros Hpos. induction fuel as [|fuel IH]; intros chunks s Hs Hfuel Hlen;
    cbn [splitLoop]; destruct (jslen s >? maxLen) eqn:E.
  - apply Z.gtb_lt in E. unfold jslen in *. lia.
  - rewrite Z.gtb_ltb in E. apply Z.ltb_ge in E.
    exists chunks, s. rewrite Z.div_small by lia. repeat split; lia.
  - apply Z.gtb_lt in E. rewrite splitIdx_no_ws by exact Hs.
    rewrite slice_prefix, sliceFrom_suffix by lia.
    rewrite <- (firstn_skipn (Z.to_nat maxLen) s) in Hs.
    apply no_ws_app in Hs. destruct Hs as [Hhead Htail].
    rewrite trimStart_no_ws by exact Htail.
    assert (jslen (skipn (Z.to_nat maxLen) s) = jslen s - maxLen) as Hrest
      by (unfold jslen in *; rewrite length_skipn; lia).
    destruct (IH (chunks ++ [trimEnd (firstn (Z.to_nat maxLen) s)])
                (skipn (Z.to_nat maxLen) s) Htail)
      as (chunks' & remaining & -> & Hcount & Hrem).
    { rewrite length_skipn. unfold jslen in *. lia. }
    { lia. }
    exists chunks', remaining. split; [reflexivity|]. split; [|exact Hrem].
    rewrite Hcount, Hrest. rewrite length_app. cbn [length].
    replace (jslen s - 1) with (jslen s - maxLen - 1 + 1 * maxLen) by lia.
    rewrite Z.div_add by lia. lia.
  - rewrite Z.gtb_ltb in E. apply Z.ltb_ge in E.
    exists chunks, s. rewrite Z.div_small by lia. repeat split; lia.
Qed.

(** For such a text the number of chunks is the one the length gives. *)
Lemma splitMessage_no_ws (content : jsstring) (maxLen : Z) :
  0 < maxLen -> no_ws content -> jslen content > maxLen ->
  exists chunks,
    splitMessage content maxLen = Some chunks /\
    Z.of_nat (length chunks) - 1 = ceil_div (jslen content - maxLen) maxLen.
Proof.
  intros Hpos Hs Hlen. unfold splitMessage.
  destruct (jslen content <=? maxLen) eqn:E; [apply Z.leb_le in E; lia|].
  destruct (splitLoop_no_ws (S (length content)) maxLen Hpos [] content Hs
              ltac:(lia) ltac:(lia)) as (chunks & remaining & -> & Hcount & Hrem).
  destruct (jslen remaining >? 0) eqn:E0;
    [|rewrite Z.gtb_ltb in E0; apply Z.ltb_ge in E0; lia].
  eexists. split; [reflexivity|].
  rewrite length_app. cbn [length]. cbn [length] in Hcount.
  unfold ceil_div.
  replace (jslen content - maxLen + maxLen - 1) with (jslen content - 1) by lia.
  lia.
Qed.

(** ** The streaming composer *)

Lemma is_edit_patch (id : Z) (content : jsstring) :
  is_edit (patchMessage id content) = true.
Proof. reflexivity. Qed.

Lemma issued_app (w w' : World) (l : list Call) :
  log w' = log w ++ l -> issued w w' = l.
Proof. unfold issued. intros ->. apply drop_app_length. Qed.

Lemma set_log_set_log (l l' : list Call) (w : World) :
  set_log l' (set_log l w) = set_log l' w.
Proof. reflexivity. Qed.

Lemma sendChunks_accepted (channel topic : jsstring) (chunks : list jsstring)
    (w : World) :
  accepts_posts w ->
  sendChunks channel topic chunks w =
    (Returned tt,
     set_log (log w ++ List.map (MessagesSend channel topic) chunks) w).
Proof.
  intros Hok. unfold sendChunks. revert w Hok.
  induction chunks as [|chunk chunks IH]; intros w Hok.
  - simpl. unfold ret. rewrite app_nil_r. destruct w; reflexivity.
  - cbn [for_each List.map]. unfold bind at 1. unfold bind at 1. unfold call.
    destruct (Hok (log w) channel topic chunk) as (r & ->).
    unfold ret at 1. rewrite IH by exact Hok.
    simpl. rewrite <- app_assoc. reflexivity.
Qed.

Lemma count_posts_sends (channel topic : jsstring) (chunks : list jsstring) :
  count is_post (List.map (MessagesSend channel topic) chunks)
  = Z.of_nat (length chunks).
Proof.
  unfold count. f_equal.
  induction chunks as [|chunk chunks IH]; [reflexivity|].
  cbn [List.map List.filter is_post length]. f_equal. exact IH.
Qed.

(** C1, as the code has it: [finalize] edits the placeholder exactly once
    and then posts one message per further chunk of [splitMessage], in
    order.  A text within the limit is one chunk: one edit, nothing posted.
    A longer text gives at least one chunk; every chunk has at most 9500
    code units, and the chunks with the whitespace trimmed at the cuts put
    back are the text.  The number of messages posted is
    [ceil((len - limit) / limit)] when the text holds no whitespace, so
    that only hard splits cut it. *)
Theorem finalize_writes (content : jsstring) (c : Composer) (w : World) :
  accepts_posts w ->
  (jslen content <= MAX_MESSAGE_LENGTH ->
   finalize content (c, w) =
     (Returned tt,
      (terminate c,
       set_log (log w ++ [patchMessage (messageId c) content]) w))) /\
  (jslen content > MAX_MESSAGE_LENGTH ->
   exists first rest gaps,
     splitMessage content MAX_MESSAGE_LENGTH = Some (first :: rest) /\
     finalize content (c, w) =
       (Returned tt,
        (terminate c,
         set_log (log w ++ patchMessage (messageId c) first
                    :: List.map (MessagesSend (c_channel c) (c_topic c)) rest)
           w)) /\
     count is_edit (issued w (snd (snd (finalize content (c, w))))) = 1 /\
     count is_post (issued w (snd (snd (finalize content (c, w)))))
       = Z.of_nat (length rest) /\
     Forall (fun chunk => jslen chunk <= MAX_MESSAGE_LENGTH) (first :: rest) /\
     length gaps = length (first :: rest) /\
     Forall all_ws gaps /\
     content = weave (first :: rest) gaps /\
     (no_ws content ->
      Z.of_nat (length rest)
      = ceil_div (jslen content - MAX_MESSAGE_LENGTH) MAX_MESSAGE_LENGTH)).
Proof.
  intros Hok. split; intros Hlen.
  - unfold finalize, bind, modifyC, getC, liftW, call_ignore. simpl.
    apply Z.leb_le in Hlen. rewrite Hlen. reflexivity.
  - destruct (splitMessage_spec content MAX_MESSAGE_LENGTH ltac:(reflexivity) Hlen)
      as (first & rest & gaps & Hsplit & Hle & Hgl & Hws & Hw).
    exists first, rest, gaps.
    assert (finalize content (c, w) =
      (Returned tt,
       (terminate c,
        set_log (log w ++ patchMessage (messageId c) first
                   :: List.map (MessagesSend (c_channel c) (c_topic c)) rest)
          w))) as Hrun.
    { unfold finalize, bind, modifyC, getC, liftW, call_ignore.
      cbn [fst snd].
      destruct (jslen content <=? MAX_MESSAGE_LENGTH) eqn:E;
        [apply Z.leb_le in E; lia|].
      rewrite Hsplit. rewrite sendChunks_accepted by exact Hok.
      cbn [fst snd log set_log c_channel c_topic messageId terminate].
      rewrite <- app_assoc. reflexivity. }
    rewrite Hrun. cbn [snd].
    rewrite (issued_app w _
               (patchMessage (messageId c) first
                :: List.map (MessagesSend (c_channel c) (c_topic c)) rest))
      by reflexivity.
    pose proof (count_posts_sends (c_channel c) (c_topic c) rest) as Hposts.
    unfold count in *. cbn [List.filter is_post].
    rewrite is_edit_patch. cbn [length].
    assert (List.filter is_edit
              (List.map (MessagesSend (c_channel c) (c_topic c)) rest) = [])
      as -> by (clear; induction rest; [reflexivity | assumption]).
    repeat split; auto.
    intros Hnows.
    destruct (splitMessage_no_ws content MAX_MESSAGE_LENGTH ltac:(reflexivity)
                Hnows Hlen) as (chunks & Hsplit' & Hcount).
    rewrite Hsplit in Hsplit'. injection Hsplit' as <-.
    cbn [length] in Hcount. lia.
Qed.

Lemma finalize_writes_witness :
  accepts_posts world0 /\
  finalize (lit "done") (composer0, world0) =
    (Returned tt,
     (terminate composer0,
      set_log (log world0 ++ [patchMessage (messageId composer0) (lit "done")])
        world0)).
Proof.
  assert (accepts_posts world0) as Hok by (intros h to subj body; eexists; reflexivity).
  split; [exact Hok|].
  apply (finalize_writes (lit "done") composer0 world0 Hok). vm_compute. discriminate.
Defined.

(** The three paragraphs become three chunks. *)
Example threeParagraphs_chunks :
  jslen threeParagraphs = 9505 /\
  option_map (List.map jslen) (splitMessage threeParagraphs MAX_MESSAGE_LENGTH)
  = Some [1; 9499; 1].
Proof. vm_compute. split; reflexivity. Qed.

(** A hard split gives a chunk of exactly 9500 code units: "under the
    limit" can only mean "not over". *)
Remark hard_split_chunk_at_limit :
  option_map (List.map jslen)
    (splitMessage (repeat 98%N (Z.to_nat 9501)) MAX_MESSAGE_LENGTH)
  = Some [9500; 1].
Proof. vm_compute. reflexivity. Qed.

(** C1 as stated fails: the number of messages posted is not
    [ceil((len - limit) / limit)].  A text of 9505 code units in three
    paragraphs is posted as two further messages where the formula gives
    one. *)
Lemma finalize_posts_counterexample :
  ~ (forall (content : jsstring) (c : Composer) (w : World),
       accepts_posts w ->
       jslen content > MAX_MESSAGE_LENGTH ->
       count is_post (issued w (snd (snd (finalize content (c, w))))) =
         ceil_div (jslen content - MAX_MESSAGE_LENGTH) MAX_MESSAGE_LENGTH).
Proof.
  intros H.
  specialize (H threeParagraphs composer0 world0).
  assert (accepts_posts world0) as Hok by (intros h to subj body; eexists; reflexivity).
  specialize (H Hok ltac:(vm_compute; reflexivity)).
  vm_compute in H. discriminate H.
Qed.

(** The formula can also be too large: a letter followed by 9500 blanks is
    over the limit and is written as one edit and no further message. *)
Remark finalize_trailing_blanks :
  jslen trailingBlanks > MAX_MESSAGE_LENGTH /\
  count is_post (issued world0 (snd (snd (finalize trailingBlanks (composer0, world0))))) = 0 /\
  ceil_div (jslen trailingBlanks - MAX_MESSAGE_LENGTH) MAX_MESSAGE_LENGTH = 1.
Proof. vm_compute. repeat split; reflexivity. Qed.

(** C2, as the code has it: once [finalize] or [cancel] has run, the
    [finalized] flag is set; from then on [update], a pending [flush] and
    the spinner tick return at once, with no request and no change of
    state.  [finalize] and [cancel] carry no such guard: called again,
    [finalize] edits the message again and [cancel] deletes it. *)
Theorem terminated_composer (c : Composer) (w : World) :
  finalized c = true ->
  (forall content, update content (c, w) = (Returned tt, (c, w))) /\
  flush (c, w) = (Returned tt, (c, w)) /\
  spinnerTick (c, w) = (Returned tt, (c, w)) /\
  (forall content, jslen content <= MAX_MESSAGE_LENGTH ->
     finalize content (c, w) =
       (Returned tt,
        (terminate c,
         set_log (log w ++ [patchMessage (messageId c) content]) w))) /\
  cancel (c, w) =
    (Returned tt,
     (terminate c, set_log (log w ++ [deleteMessage (messageId c)]) w)).
Proof.
  intros Hfin. repeat split.
  - intros content. unfold update, bind, getC. simpl. rewrite Hfin. reflexivity.
  - unfold flush, bind, getC. simpl. rewrite Hfin. reflexivity.
  - unfold spinnerTick, bind, getC. simpl. rewrite Hfin. reflexivity.
  - intros content Hlen.
    unfold finalize, bind, modifyC, getC, liftW, call_ignore. simpl.
    apply Z.leb_le in Hlen. rewrite Hlen. reflexivity.
Qed.

Lemma terminated_composer_witness :
  finalized (terminate composer0) = true /\
  update (lit "late text") (terminate composer0, world0) =
    (Returned tt, (terminate composer0, world0)).
Proof.
  split; [reflexivity|].
  apply (terminated_composer (terminate composer0) world0). reflexivity.
Defined.

(** Both handles end terminated, whatever they were before. *)
Lemma finalize_terminates (content : jsstring) (c : Composer) (w : World) :
  finalized (fst (snd (finalize content (c, w)))) = true.
Proof.
  unfold finalize, bind, modifyC, getC, liftW, call_ignore, hang. simpl.
  destruct (jslen content <=? MAX_MESSAGE_LENGTH); [reflexivity|].
  destruct (splitMessage content MAX_MESSAGE_LENGTH) as [[|first rest]|];
    try reflexivity.
  simpl. destruct (sendChunks _ _ _ _) as [[| |] w']; reflexivity.
Qed.

Lemma cancel_terminates (c : Composer) (w : World) :
  finalized (fst (snd (cancel (c, w)))) = true.
Proof. reflexivity. Qed.

(** C2 as stated fails for [finalize] and [cancel]: on a handle that has
    been finalized, a second [finalize] issues a second edit, and [cancel]
    issues the deletion of the finalized message. *)
Lemma terminated_writes_counterexample :
  ~ (forall (c : Composer) (w : World) (content : jsstring),
       finalized c = true ->
       issued w (snd (snd (finalize content (c, w)))) = [] /\
       issued w (snd (snd (cancel (c, w)))) = []).
Proof.
  intros H.
  destruct (H (fst (snd (finalize (lit "answer") (composer0, world0))))
              (snd (snd (finalize (lit "answer") (composer0, world0))))
              (lit "answer") ltac:(reflexivity)) as [H1 _].
  vm_compute in H1. discriminate H1.
Qed.

Remark cancel_after_finalize_deletes :
  let s := snd (finalize (lit "answer") (composer0, world0)) in
  List.map is_edit (log (snd s)) = [true] /\
  List.map is_delete (issued (snd s) (snd (snd (cancel s)))) = [true].
Proof. vm_compute. split; reflexivity. Qed.

(** ** The event loop *)

Lemma set_spawned_nil (w : World) : set_spawned (spawned w ++ []) w = w.
Proof. rewrite app_nil_r. destruct w; reflexivity. Qed.

Lemma set_spawned_app (w : World) (l l' : list Spawned) :
  set_spawned (spawned (set_spawned (spawned w ++ l) w) ++ l')
    (set_spawned (spawned w ++ l) w)
  = set_spawned (spawned w ++ (l ++ l')) w.
Proof. unfold set_spawned. simpl. rewrite <- app_assoc. reflexivity. Qed.

Lemma spawn_run (t : Spawned) (w : World) :
  spawn t w = (Returned tt, set_spawned (spawned w ++ [t]) w).
Proof. reflexivity. Qed.

(** Starting the reaction handlers only queues them. *)
Lemma spawn_reactions (e : ZulipReactionEvent) (services : list Service)
    (w : World) :
  exists l,
    for_each services
      (fun svc => match onReaction svc with
                  | None => ret tt
                  | Some _ => spawn (SpawnOnReaction (name svc) e)
                  end) w
    = (Returned tt, set_spawned (spawned w ++ l) w).
Proof.
  revert w. induction services as [|svc services IH]; intros w.
  - exists []. simpl. unfold ret. rewrite set_spawned_nil. reflexivity.
  - cbn [for_each]. unfold bind.
    destruct (onReaction svc) as [h|].
    + rewrite spawn_run.
      destruct (IH (set_spawned (spawned w ++ [SpawnOnReaction (name svc) e]) w))
        as (l & ->).
      exists (SpawnOnReaction (name svc) e :: l).
      rewrite set_spawned_app. reflexivity.
    + unfold ret at 1. apply IH.
Qed.

Lemma onEvent_effect (services : list Service) (event : Event)
    (cur : Cursor) (w : World) :
  exists l,
    onEvent services event (cur, w)
    = (Returned tt,
       ({| queueId := queueId cur; lastEventId := event_id event |},
        set_spawned (spawned w ++ l) w)).
Proof.
  unfold onEvent, bind, getCursor, putCursor. cbn [fst snd].
  destruct event as [e|e|ty id]; unfold liftW; cbn [fst snd].
  - exists [SpawnHandleMessage e]. reflexivity.
  - destruct (spawn_reactions e services w) as (l & ->). exists l. reflexivity.
  - exists []. unfold ret. rewrite set_spawned_nil. reflexivity.
Qed.

(** Handling a batch moves the cursor and queues work; nothing is
    requested and the queue id stays. *)
Lemma batch_effect (services : list Service) (events : list Event)
    (cur : Cursor) (w : World) :
  exists cur' l,
    for_each events (onEvent services) (cur, w)
    = (Returned tt, (cur', set_spawned (spawned w ++ l) w))
    /\ queueId cur' = queueId cur.
Proof.
  revert cur w. induction events as [|event events IH]; intros cur w.
  - exists cur, []. simpl. unfold ret. rewrite set_spawned_nil. split; reflexivity.
  - cbn [for_each]. unfold bind at 1.
    destruct (onEvent_effect services event cur w) as (l0 & ->).
    destruct (IH {| queueId := queueId cur; lastEventId := event_id event |}
                (set_spawned (spawned w ++ l0) w))
      as (cur' & l & -> & Hq).
    exists cur', (l0 ++ l).
    rewrite set_spawned_app. split; [reflexivity | exact Hq].
Qed.


Lemma turn_backoff (services : list Service) (cur : Cursor) (w : World)
    (e : Thrown) :
  let poll := EventsRetrieve (queueId cur) (lastEventId cur) in
  gateway w (log w) poll = Rejected e ->
  includes (errorMsgOf e) (lit "BAD_EVENT_QUEUE_ID") = false ->
  eventLoopTurn services (cur, w)
  = (Returned tt,
     (cur, set_clock (clock w + BACKOFF_MS)
             (set_log (log w ++ [poll; Sleep BACKOFF_MS]) w))).
Proof.
  intros poll Hpoll Hbad.
  unfold eventLoopTurn, try_catch, bind, getCursor, liftW, call.
  cbn [fst snd]. fold poll. rewrite Hpoll, Hbad.
  unfold sleep. cbn [fst snd log set_log clock].
  rewrite <- app_assoc. reflexivity.
Qed.

Lemma turn_reregister (services : list Service) (cur : Cursor) (w : World)
    (e : Thrown) :
  let poll := EventsRetrieve (queueId cur) (lastEventId cur) in
  let register := QueuesRegister [lit "message"; lit "reaction"] in
  gateway w (log w) poll = Rejected e ->
  includes (errorMsgOf e) (lit "BAD_EVENT_QUEUE_ID") = true ->
  eventLoopTurn services (cur, w)
  = match gateway w (log w ++ [poll]) register with
    | Rejected e0 =>
        (Threw e0, (cur, set_log (log w ++ [poll; register]) w))
    | Resolved r =>
        (Returned tt,
         ({| queueId := res_queue_id r; lastEventId := res_last_event_id r |},
          set_log (log w ++ [poll; register]) w))
    end.
Proof.
  intros poll register Hpoll Hbad.
  unfold eventLoopTurn, try_catch, bind, getCursor, liftW, call.
  cbn [fst snd]. fold poll. rewrite Hpoll, Hbad.
  unfold registerQueue, bind, call, putCursor, ret.
  cbn [fst snd log set_log gateway]. fold register.
  destruct (gateway w (log w ++ [poll]) register) as [e0|r];
    cbn [fst snd]; rewrite <- app_assoc; reflexivity.
Qed.





(** ** The answering path *)

Section Emits.
Context {S : Type} (logOf : S -> list Call) (P : Call -> bool).







End Emits.

Section EmitsWorld.
Variable P : Call -> bool.






Hypothesis P_endpoint : forall e m ps, P (CallEndpoint e m ps) = true.
Hypothesis P_post : forall a b c, P (MessagesSend a b c) = true.











End EmitsWorld.












Section AnsweringPath.
Context `{Externals}.

Variables (msg : ZulipMessage) (ctx : ServiceContext).

Let ch := display_recipient msg.
Let tp := subject msg.
Let question := htmlToText (m_content msg).
Let post := MessagesSend ch tp THINKING.








End AnsweringPath.

(** ** The dispatch chain *)

Section DispatchChain.
Context `{Externals}.

Lemma jseqb_eq (a b : jsstring) : jseqb a b = true <-> a = b.
Proof.
  revert b. induction a as [|x a IH]; intros [|y b]; simpl;
    try (split; [discriminate | congruence]); try tauto.
  rewrite andb_true_iff, N.eqb_eq, IH. split.
  - intros [-> ->]. reflexivity.
  - intros [= -> ->]. split; reflexivity.
Qed.






(** C7: a direct message, a message of the bot itself and a message
    without the [mentioned] flag leave [handleMessage] at once: the world,
    and with it the trace of requests, is unchanged, whatever the services
    are. *)
Theorem ineligible_ignored (event : ZulipMessageEvent)
    (services : list Service) (ctx : ServiceContext) (w : World) :
  m_type (message event) = private \/
  sender_email (message event) = botEmail ctx \/
  ~ In (lit "mentioned") (flags event) ->
  handleMessage event services ctx w = (Returned tt, w).
Proof.
  intros Hin. unfold handleMessage.
  destruct (m_type (message event)) eqn:Hty; [|reflexivity].
  destruct (jseqb (sender_email (message event)) (botEmail ctx)) eqn:Hself;
    [reflexivity|].
  destruct (existsb (jseqb (lit "mentioned")) (flags event)) eqn:Hflag;
    [|reflexivity].
  exfalso. destruct Hin as [Hp | [Hs | Hf]].
  - discriminate Hp.
  - apply jseqb_eq in Hs. congruence.
  - apply Hf. apply existsb_exists in Hflag. destruct Hflag as (f & Hf1 & Hf2).
    apply jseqb_eq in Hf2. subst f. exact Hf1.
Qed.

End DispatchChain.

(** ** The task life cycle *)

Section TaskLifecycle.
Context `{Externals}.

Lemma find_map_stable {A} (p : A -> bool) (f : A -> A) (l : list A) :
  (forall x, p (f x) = p x) ->
  List.find p (List.map f l) = option_map f (List.find p l).
Proof.
  intros Hp. induction l as [|x l IH]; [reflexivity|].
  simpl. rewrite Hp. destruct (p x); [reflexivity | exact IH].
Qed.



Lemma is_edit_getUser (u : Z) : is_edit (getUser u) = false.
Proof. reflexivity. Qed.




End TaskLifecycle.

(** ** One task per source message *)

Section OneTaskPerSource.
Context `{Externals}.

Lemma preserves_ret {A} (P : Db -> Prop) (a : A) : preserves P (ret a).
Proof. intros w Hw. exact Hw. Qed.

Lemma preserves_throw {A} (P : Db -> Prop) (e : Thrown) :
  preserves P (@throw World A e).
Proof. intros w Hw. exact Hw. Qed.

Lemma preserves_bind {A B} (P : Db -> Prop) (m : M World A)
    (k : A -> M World B) :
  preserves P m -> (forall a, preserves P (k a)) -> preserves P (bind m k).
Proof.
  intros Hm Hk w Hw. unfold bind. specialize (Hm w Hw).
  destruct (m w) as [[a|e|] w']; cbn [snd] in *; [|assumption..].
  apply Hk. exact Hm.
Qed.

Lemma preserves_call (P : Db -> Prop) (c : Call) : preserves P (call c).
Proof.
  intros w Hw. unfold call. destruct (gateway w (log w) c); exact Hw.
Qed.

Lemma preserves_call_ignore (P : Db -> Prop) (c : Call) :
  preserves P (call_ignore c).
Proof. intros w Hw. exact Hw. Qed.

Lemma preserves_get (P : Db -> Prop) : preserves P (@get World).
Proof. intros w Hw. exact Hw. Qed.

Lemma preserves_dbRead {A} (P : Db -> Prop) (f : Db -> A) :
  preserves P (dbRead f).
Proof. intros w Hw. exact Hw. Qed.

Lemma preserves_dbWrite (P : Db -> Prop) (f : Db -> Db) :
  (forall d, P d -> P (f d)) -> preserves P (dbWrite f).
Proof. intros Hf w Hw. apply Hf. exact Hw. Qed.

Lemma preserves_dbRun {A} (P : Db -> Prop) (f : Db -> Outcome A * Db) :
  (forall d, P d -> P (snd (f d))) -> preserves P (dbRun f).
Proof. intros Hf w Hw. apply Hf. exact Hw. Qed.

Lemma preserves_stampNow (P : Db -> Prop) : preserves P Tasks.stampNow.
Proof. intros w Hw. exact Hw. Qed.

Lemma preserves_isoNow (P : Db -> Prop) : preserves P Tasks.isoNow.
Proof. intros w Hw. exact Hw. Qed.

Lemma preserves_cacheSet (P : Db -> Prop) (k v : jsstring) :
  preserves P (Tasks.cacheSet k v).
Proof. intros w Hw. exact Hw. Qed.

Lemma preserves_theTask (P : Db -> Prop) (o : option TaskRow) :
  preserves P (Tasks.theTask o).
Proof. intros w Hw. destruct o; exact Hw. Qed.

(** Symbolic run through a computation that only reads the store, or
    writes it through steps proved apart. *)
Ltac keeps_with extra :=
  cbv zeta;
  repeat first
    [ extra
    | apply preserves_ret
    | apply preserves_throw
    | apply preserves_call
    | apply preserves_call_ignore
    | apply preserves_get
    | apply preserves_dbRead
    | apply preserves_stampNow
    | apply preserves_isoNow
    | apply preserves_cacheSet
    | apply preserves_theTask
    | apply preserves_bind; [|intros ?]
    | match goal with
      | |- preserves _ (match ?x with _ => _ end) => destruct x
      end
    | progress cbv zeta ].

Ltac keeps := keeps_with fail.

Lemma preserves_subscriberEmailsOf (P : Db -> Prop)
    (source : option ZulipStream) :
  preserves P (Tasks.subscriberEmailsOf source).
Proof. unfold Tasks.subscriberEmailsOf. keeps. Qed.

Lemma preserves_moveToFolder (P : Db -> Prop) (s : ZulipStream) (f : Z) :
  preserves P (Tasks.moveToFolder s f).
Proof. unfold Tasks.moveToFolder. keeps. Qed.

(** Resolving the tasks channel talks to the gateway and fills the cache;
    the store is not touched. *)
Lemma preserves_resolveTasksChannel (P : Db -> Prop) (ctx : ServiceContext)
    (sourceChannel : jsstring) :
  preserves P (Tasks.resolveTasksChannel ctx sourceChannel).
Proof.
  unfold Tasks.resolveTasksChannel.
  keeps_with ltac:(first [ apply preserves_subscriberEmailsOf
                         | apply preserves_moveToFolder ]).
Qed.

Lemma not_found_not_in (x : Z) (l : list TaskRow) :
  List.find (fun t => source_msg_id t =? x) l = None ->
  ~ In x (List.map source_msg_id l).
Proof.
  intros Hfind Hin. apply in_map_iff in Hin. destruct Hin as (t & Ht & Hin).
  apply (find_none _ _ Hfind) in Hin. simpl in Hin.
  apply Z.eqb_neq in Hin. congruence.
Qed.

Lemma createTask_one (p : CreateTaskParams) (stamp : jsstring) (d : Db) :
  one_task_per_source d -> one_task_per_source (snd (createTask p stamp d)).
Proof.
  unfold one_task_per_source, createTask, getTaskBySourceMsgId. intros Hd.
  destruct (List.find _ (tasks d)) eqn:Hfind; [exact Hd|].
  cbn [snd tasks set_tasks]. rewrite map_app. cbn [List.map source_msg_id].
  apply NoDup_app. split; [exact Hd|]. split.
  - intros x Hx [<- | []]%list_elem_of_In.
    apply (not_found_not_in _ _ Hfind). apply list_elem_of_In. exact Hx.
  - apply NoDup_singleton.
Qed.

Lemma updateTasks_sources (id : Z) (f : TaskRow -> TaskRow) (d : Db) :
  (forall t, source_msg_id (f t) = source_msg_id t) ->
  List.map source_msg_id (tasks (updateTasks id f d))
  = List.map source_msg_id (tasks d).
Proof.
  intros Hf. unfold updateTasks. cbn [tasks set_tasks].
  rewrite map_map. apply map_ext. intros t.
  destruct (t_id t =? id); [apply Hf | reflexivity].
Qed.

Lemma updateTasks_one (id : Z) (f : TaskRow -> TaskRow) (d : Db) :
  (forall t, source_msg_id (f t) = source_msg_id t) ->
  one_task_per_source d -> one_task_per_source (updateTasks id f d).
Proof.
  intros Hf. unfold one_task_per_source.
  rewrite (updateTasks_sources id f d Hf). tauto.
Qed.

Lemma insertAssignees_tasks (taskId : Z) (stamp : jsstring)
    (users : list (jsstring * option Z)) (d : Db) :
  tasks (fold_left (insertAssignee taskId stamp) users d) = tasks d.
Proof.
  revert d. induction users as [|u users IH]; intros d; [reflexivity|].
  cbn [fold_left]. rewrite IH. unfold insertAssignee.
  destruct (existsb _ _); reflexivity.
Qed.

Lemma addAssignees_one (taskId : Z) (users : list (jsstring * option Z))
    (stamp : jsstring) (d : Db) :
  one_task_per_source d ->
  one_task_per_source (snd (addAssignees taskId users stamp d)).
Proof.
  unfold one_task_per_source, addAssignees. intros Hd.
  destruct users as [|u users]; [exact Hd|].
  destruct (getTaskById taskId d); [|exact Hd].
  cbn [snd]. rewrite insertAssignees_tasks. exact Hd.
Qed.

Ltac keeps_one :=
  keeps_with ltac:(first
    [ apply preserves_resolveTasksChannel
    | apply preserves_dbRun; intros ? ?;
        first [ apply createTask_one | apply addAssignees_one ]; assumption
    | apply preserves_dbWrite; intros ? ?;
        apply updateTasks_one; [intros ?; reflexivity | assumption] ]).

Lemma handleTaskCreation_one (msg : ZulipMessage) (ctx : ServiceContext)
    (mentions : list (Z * jsstring)) (ownTopic_ : bool) :
  preserves one_task_per_source
    (Tasks.handleTaskCreation msg ctx mentions ownTopic_).
Proof. unfold Tasks.handleTaskCreation, Tasks.send. keeps_one. Qed.

Lemma onReaction_one (event : ZulipReactionEvent) (ctx : ServiceContext) :
  preserves one_task_per_source (Tasks.onReaction event ctx).
Proof.
  unfold Tasks.onReaction, Tasks.toggleCompletion, Tasks.promoteByReaction,
    Tasks.syncTaskMessage, Tasks.send, completeTask, reopenTask.
  keeps_one.
Qed.

Lemma find_app_l {A} (p : A -> bool) (l l' : list A) (x : A) :
  List.find p l = Some x -> List.find p (l ++ l') = Some x.
Proof.
  induction l as [|y l IH]; simpl; [discriminate|].
  destruct (p y); [tauto | exact IH].
Qed.

Lemma find_app_r {A} (p : A -> bool) (l l' : list A) :
  List.find p l = None -> List.find p (l ++ l') = List.find p l'.
Proof.
  induction l as [|y l IH]; simpl; [reflexivity|].
  destruct (p y); [discriminate | exact IH].
Qed.

Lemma createTask_has (x : Z) (p : CreateTaskParams) (stamp : jsstring)
    (d : Db) :
  has_task x d -> has_task x (snd (createTask p stamp d)).
Proof.
  unfold has_task, createTask. intros Hx.
  destruct (getTaskBySourceMsgId (sourceMsgId p) d); [exact Hx|].
  cbn [snd]. unfold getTaskBySourceMsgId in *. cbn [tasks set_tasks].
  destruct (List.find _ (tasks d)) as [t|] eqn:Hfind; [|congruence].
  rewrite (find_app_l _ _ _ _ Hfind). discriminate.
Qed.

(** A successful insert leaves a task for its source message. *)
Lemma createTask_inserted (p : CreateTaskParams) (stamp : jsstring) (d : Db)
    (id : Z) :
  fst (createTask p stamp d) = Returned id ->
  has_task (sourceMsgId p) (snd (createTask p stamp d)).
Proof.
  unfold has_task, createTask.
  destruct (getTaskBySourceMsgId (sourceMsgId p) d) eqn:Hfind;
    [discriminate|].
  intros _. cbn [snd]. unfold getTaskBySourceMsgId in *.
  cbn [tasks set_tasks]. rewrite (find_app_r _ _ _ Hfind).
  simpl. rewrite Z.eqb_refl. discriminate.
Qed.

Lemma updateTasks_has (x id : Z) (f : TaskRow -> TaskRow) (d : Db) :
  (forall t, source_msg_id (f t) = source_msg_id t) ->
  has_task x d -> has_task x (updateTasks id f d).
Proof.
  intros Hf. unfold has_task, getTaskBySourceMsgId, updateTasks.
  cbn [tasks set_tasks]. rewrite find_map_stable.
  - destruct (List.find _ (tasks d)); [discriminate | tauto].
  - intros t. destruct (t_id t =? id); [rewrite Hf|]; reflexivity.
Qed.

Lemma addAssignees_has (x taskId : Z) (users : list (jsstring * option Z))
    (stamp : jsstring) (d : Db) :
  has_task x d -> has_task x (snd (addAssignees taskId users stamp d)).
Proof.
  unfold has_task, getTaskBySourceMsgId, addAssignees. intros Hd.
  destruct users as [|u users]; [exact Hd|].
  destruct (getTaskById taskId d); [|exact Hd].
  cbn [snd]. rewrite insertAssignees_tasks. exact Hd.
Qed.

Ltac keeps_has :=
  keeps_with ltac:(first
    [ apply preserves_resolveTasksChannel
    | apply preserves_dbRun; intros ? ?;
        first [ apply createTask_has | apply addAssignees_has ]; assumption
    | apply preserves_dbWrite; intros ? ?;
        apply updateTasks_has; [intros ?; reflexivity | assumption] ]).

Lemma bind_returned {A B} (m : M World A) (k : A -> M World B) (w w' : World)
    (b : B) :
  bind m k w = (Returned b, w') ->
  exists a w1, m w = (Returned a, w1) /\ k a w1 = (Returned b, w').
Proof.
  unfold bind. destruct (m w) as [[a|e|] w1]; try discriminate. eauto.
Qed.

(** A promotion by command that runs to its end leaves a task for the
    message it promoted. *)
Lemma handleTaskCreation_promotes (msg : ZulipMessage) (ctx : ServiceContext)
    (mentions : list (Z * jsstring)) (ownTopic_ : bool) (w w1 : World)
    (response : Response) (target : ZulipMessage) :
  gateway w (log w) (retrieveAbove msg) = Resolved response ->
  targetOf msg response = Some target ->
  Tasks.handleTaskCreation msg ctx mentions ownTopic_ w = (Returned tt, w1) ->
  has_task (m_id target) (db w1).
Proof.
  intros Hreply Htarget Hrun. unfold Tasks.handleTaskCreation in Hrun.
  cbv zeta in Hrun.
  apply bind_returned in Hrun. destruct Hrun as (resp & wa & Hcall & Hrun).
  unfold call in Hcall. fold (retrieveAbove msg) in Hcall.
  rewrite Hreply in Hcall. injection Hcall as <- <-.
  fold (targetOf msg response) in Hrun. rewrite Htarget in Hrun.
  apply bind_returned in Hrun. destruct Hrun as (existing & wb & Hread & Hrun).
  unfold dbRead in Hread. injection Hread as <- <-.
  cbn [db set_log] in Hrun.
  destruct (getTaskBySourceMsgId (m_id target) (db w)) as [t|] eqn:Hexisting.
  - apply bind_returned in Hrun. destruct Hrun as (r & wc & Hsend & Hrun).
    injection Hrun as <-. unfold Tasks.send, call in Hsend.
    match type of Hsend with
    | context [gateway ?a ?b ?c] => destruct (gateway a b c)
    end; [discriminate|]. injection Hsend as _ <-.
    unfold has_task. cbn [db set_log]. rewrite Hexisting. discriminate.
  - apply bind_returned in Hrun. destruct Hrun as (ch & wc & Hch & Hrun).
    apply bind_returned in Hrun. destruct Hrun as (stamp & wd & Hstamp & Hrun).
    unfold Tasks.stampNow in Hstamp. injection Hstamp as <- <-.
    apply bind_returned in Hrun. destruct Hrun as (taskId & we & Hcreate & Hrun).
    unfold dbRun in Hcreate. injection Hcreate as Hid <-.
    apply createTask_inserted in Hid. cbn [sourceMsgId] in Hid.
    match type of Hrun with
    | ?rest ?we = _ =>
        assert (preserves (has_task (m_id target)) rest) as Hrest
          by (unfold Tasks.send; keeps_has);
        specialize (Hrest we Hid)
    end.
    rewrite Hrun in Hrest. exact Hrest.
Qed.

(** C4: the store never holds two tasks with the same source message.
    Both ways of promoting keep it so.  A command whose target already has
    a task changes nothing in the store and answers that a task already
    exists; this is what a second command for the same message meets,
    since a promotion that ran to its end has left a task for its target.
    A reaction with the promote emoji (not the bot's own, and the promote
    emoji is not [check]) on a message that already has a task changes no
    state and requests nothing but the look-up of the message. *)
Theorem one_task_per_message (ctx : ServiceContext) (w : World) :
  one_task_per_source (db w) ->
  (forall msg mentions own,
     one_task_per_source
       (db (snd (Tasks.handleTaskCreation msg ctx mentions own w)))) /\
  (forall event,
     one_task_per_source (db (snd (Tasks.onReaction event ctx w)))) /\
  (forall msg mentions own response target,
     gateway w (log w) (retrieveAbove msg) = Resolved response ->
     targetOf msg response = Some target ->
     has_task (m_id target) (db w) ->
     snd (Tasks.handleTaskCreation msg ctx mentions own w)
     = set_log (log w ++ [retrieveAbove msg;
                          MessagesSend (display_recipient msg) (subject msg)
                            Tasks.ALREADY]) w) /\
  (forall msg mentions own response target w1,
     gateway w (log w) (retrieveAbove msg) = Resolved response ->
     targetOf msg response = Some target ->
     Tasks.handleTaskCreation msg ctx mentions own w = (Returned tt, w1) ->
     has_task (m_id target) (db w1)) /\
  (forall event,
     emoji_name event = taskEmoji (config ctx) ->
     taskEmoji (config ctx) <> lit "check" ->
     (forall r msg,
        gateway w (log w) (getMessage (message_id event)) = Resolved r ->
        res_message r = Some msg ->
        has_task (m_id msg) (db w)) ->
     snd (Tasks.onReaction event ctx w) = w \/
     snd (Tasks.onReaction event ctx w)
     = set_log (log w ++ [getMessage (message_id event)]) w).
Proof.
  intros Hinv. split; [|split; [|split; [|split]]].
  - intros msg mentions own. apply handleTaskCreation_one. exact Hinv.
  - intros event. apply onReaction_one. exact Hinv.
  - intros msg mentions own response target Hreply Htarget Hhas.
    unfold Tasks.handleTaskCreation. cbv zeta. unfold bind at 1. unfold call.
    fold (retrieveAbove msg). rewrite Hreply.
    fold (targetOf msg response). rewrite Htarget.
    unfold bind at 1. unfold dbRead. cbn [db set_log].
    unfold has_task in Hhas.
    destruct (getTaskBySourceMsgId (m_id target) (db w)); [|congruence].
    unfold bind, Tasks.send, call. cbn [log set_log gateway].
    match goal with
    | |- context [gateway w (log w ++ ?l) ?c] =>
        destruct (gateway w (log w ++ l) c)
    end; cbn [snd set_log log]; rewrite <- ?app_assoc; reflexivity.
  - intros msg mentions own response target w1.
    apply handleTaskCreation_promotes.
  - intros event Hemoji Hcheck Hpromoted. unfold Tasks.onReaction.
    destruct (user_id event =? botUserId ctx); [left; reflexivity|].
    destruct (jseqb (emoji_name event) (lit "check")) eqn:Hc.
    { apply jseqb_eq in Hc. congruence. }
    destruct (op event); [|left; reflexivity].
    assert (jseqb (emoji_name event) (taskEmoji (config ctx)) = true) as ->
      by (apply jseqb_eq; exact Hemoji).
    cbn [negb]. right. unfold Tasks.promoteByReaction, bind, call.
    destruct (gateway w (log w) (getMessage (message_id event))) as [e|r] eqn:Hr;
      [reflexivity|].
    destruct (res_message r) as [msg|] eqn:Hmsg; [|reflexivity].
    destruct (m_type msg); [|reflexivity].
    unfold dbRead. cbn [db set_log].
    specialize (Hpromoted r msg eq_refl Hmsg). unfold has_task in Hpromoted.
    destruct (getTaskBySourceMsgId (m_id msg) (db w)); [reflexivity | congruence].
Qed.

End OneTaskPerSource.

(** ** Scheduler recovery *)

Section SchedulerRecovery.
Variable registry : Registry.
Variable ctx : ServiceContext.

Lemma insertByCreated_perm (r : DashboardRow) (sorted : list DashboardRow) :
  Permutation (insertByCreated r sorted) (r :: sorted).
Proof.
  induction sorted as [|r' rest IH]; simpl; [reflexivity|].
  destruct (text_leb _ _); [|reflexivity].
  rewrite IH. apply perm_swap.
Qed.

Lemma getActiveDashboards_perm (d : Db) :
  Permutation (getActiveDashboards d) (dashboards d).
Proof.
  unfold getActiveDashboards.
  enough (forall l acc,
            Permutation
              (fold_left (fun sorted r => insertByCreated r sorted) l acc)
              (l ++ acc)) as Hgen
    by (rewrite Hgen, app_nil_r; reflexivity).
  induction l as [|r l IH]; intros acc; simpl; [reflexivity|].
  rewrite IH, insertByCreated_perm. symmetry. apply Permutation_middle.
Qed.

(** The statements of db.ts keep the primary key of [dashboards]. *)
Lemma dashboards_keyed_kept (d : Db) :
  dashboards_keyed d ->
  (forall p stamp, dashboards_keyed (snd (createDashboard p stamp d))) /\
  (forall id, dashboards_keyed (deleteDashboard id d)) /\
  (forall id, dashboards_keyed (setDashboardBootstrapped id d)).
Proof.
  intros [Hnd Hseq]. split; [|split].
  - intros p stamp. unfold createDashboard.
    destruct (getDashboardByNameAndLocation _ _ _ d); [split; assumption|].
    cbn [snd]. unfold dashboards_keyed.
    cbn [dashboards seq_dashboards set_dashboards]. split.
    + rewrite map_app. cbn [List.map d_id]. apply NoDup_app.
      split; [exact Hnd|]. split; [|apply NoDup_singleton].
      intros x Hx [<- | []]%list_elem_of_In.
      apply list_elem_of_In, in_map_iff in Hx. destruct Hx as (r & Hr & Hin).
      rewrite Forall_forall in Hseq. specialize (Hseq r).
      rewrite list_elem_of_In in Hseq. specialize (Hseq Hin). lia.
    + apply Forall_app. split.
      * eapply Forall_impl; [exact Hseq|]. cbn. intros r Hr. lia.
      * repeat constructor. cbn [d_id]. lia.
  - intros id. unfold deleteDashboard, dashboards_keyed.
    cbn [dashboards seq_dashboards set_dashboards]. split.
    + apply NoDup_ListNoDup. apply NoDup_ListNoDup in Hnd.
      clear Hseq. induction (dashboards d) as [|r l IH]; [constructor|].
      cbn [List.map] in Hnd. apply List.NoDup_cons_iff in Hnd.
      destruct Hnd as [Hr Hnd]. cbn [List.filter].
      destruct (negb (d_id r =? id)); [|apply IH, Hnd].
      cbn [List.map]. constructor; [|apply IH, Hnd].
      intros Hin. apply Hr. apply in_map_iff in Hin.
      destruct Hin as (x & Hx & Hin). apply filter_In in Hin.
      rewrite <- Hx. apply in_map. tauto.
    + rewrite Forall_forall in *. intros r Hr. apply Hseq.
      rewrite list_elem_of_In in *. apply filter_In in Hr. tauto.
  - intros id. unfold setDashboardBootstrapped, dashboards_keyed.
    cbn [dashboards seq_dashboards set_dashboards].
    assert (List.map d_id
              (List.map (fun r => if d_id r =? id then withBootstrapped 1 r else r)
                 (dashboards d))
            = List.map d_id (dashboards d)) as Hids.
    { rewrite map_map. apply map_ext. intros r.
      destruct (d_id r =? id); reflexivity. }
    split; [rewrite Hids; exact Hnd|].
    rewrite Forall_forall in *. intros r Hr.
    rewrite list_elem_of_In in Hr. apply in_map_iff in Hr.
    destruct Hr as (r0 & <- & Hin).
    specialize (Hseq r0). rewrite list_elem_of_In in Hseq. specialize (Hseq Hin).
    destruct (d_id r0 =? id); exact Hseq.
Qed.

(** What resuming one row does. *)
Lemma resume_unknown (row : DashboardRow) (w : World) :
  registryHas registry (d_name row) = false ->
  resume registry ctx row w
  = (Returned tt, set_db (deleteDashboard (d_id row) (db w)) w).
Proof. intros Hreg. unfold resume. rewrite Hreg. reflexivity. Qed.

Lemma resume_known (row : DashboardRow) (w : World) :
  registryHas registry (d_name row) = true ->
  timers w !! d_id row = None ->
  resume registry ctx row w
  = (Returned tt,
     set_timers (<[d_id row := next_handle w]> (timers w))
       (intervals w ++ [{| handle := next_handle w; i_row := row;
                           i_ms := interval_ms row |}])
       (next_handle w + 1)
       (set_spawned (spawned w ++ [SpawnTick row]) w)).
Proof.
  intros Hreg Hfree. unfold resume. rewrite Hreg. cbn [negb].
  unfold Dashboards.startTimer, bind, get. rewrite Hfree.
  unfold Dashboards.startTick. unfold registryHas in Hreg.
  destruct (registryGet registry (d_name row)); [|discriminate].
  reflexivity.
Qed.

Lemma resume_armed (row : DashboardRow) (w : World) (h : Z) :
  registryHas registry (d_name row) = true ->
  timers w !! d_id row = Some h ->
  resume registry ctx row w = (Returned tt, w).
Proof.
  intros Hreg Harmed. unfold resume. rewrite Hreg. cbn [negb].
  unfold Dashboards.startTimer, bind, get. rewrite Harmed. reflexivity.
Qed.

Lemma countIntervals_app (id : Z) (l l' : list Interval) :
  countIntervals id (l ++ l') = (countIntervals id l + countIntervals id l')%nat.
Proof. unfold countIntervals. rewrite List.filter_app, length_app. reflexivity. Qed.

Lemma countTicks_app (id : Z) (l l' : list Spawned) :
  countTicks id (l ++ l') = (countTicks id l + countTicks id l')%nat.
Proof. unfold countTicks. rewrite List.filter_app, length_app. reflexivity. Qed.

(** Resuming a row leaves the rows with another id as they were. *)
Lemma resume_other (row : DashboardRow) (w : World) (r : DashboardRow) :
  d_id r <> d_id row ->
  let w' := snd (resume registry ctx row w) in
  timers w' !! d_id r = timers w !! d_id r /\
  countIntervals (d_id r) (intervals w') = countIntervals (d_id r) (intervals w) /\
  countTicks (d_id r) (spawned w') = countTicks (d_id r) (spawned w) /\
  (In r (dashboards (db w')) <-> In r (dashboards (db w))).
Proof.
  intros Hne w'. subst w'.
  destruct (registryHas registry (d_name row)) eqn:Hreg.
  - destruct (timers w !! d_id row) as [h|] eqn:Ht.
    + rewrite (resume_armed row w h Hreg Ht). cbn [snd]. tauto.
    + rewrite (resume_known row w Hreg Ht).
      cbn [snd timers intervals spawned db set_timers set_spawned].
      rewrite lookup_insert_ne by congruence.
      rewrite countIntervals_app, countTicks_app.
      unfold countIntervals, countTicks. cbn [List.filter i_row is_tick_of].
      assert ((d_id row =? d_id r) = false) as -> by (apply Z.eqb_neq; congruence).
      cbn [length]. repeat split; try lia; tauto.
  - rewrite (resume_unknown row w Hreg).
    cbn [snd timers intervals spawned db set_db].
    repeat split; try reflexivity.
    + unfold deleteDashboard. cbn [dashboards set_dashboards].
      intros Hin. apply filter_In in Hin. tauto.
    + unfold deleteDashboard. cbn [dashboards set_dashboards].
      intros Hin. apply filter_In. split; [exact Hin|].
      apply negb_true_iff, Z.eqb_neq. exact Hne.
Qed.

Lemma resume_returns (row : DashboardRow) (w : World) :
  fst (resume registry ctx row w) = Returned tt.
Proof.
  destruct (registryHas registry (d_name row)) eqn:Hreg.
  - destruct (timers w !! d_id row) as [h|] eqn:Ht.
    + rewrite (resume_armed row w h Hreg Ht). reflexivity.
    + rewrite (resume_known row w Hreg Ht). reflexivity.
  - rewrite (resume_unknown row w Hreg). reflexivity.
Qed.

(** Resuming only ever deletes rows. *)
Lemma resume_rows (row : DashboardRow) (w : World) (r : DashboardRow) :
  In r (dashboards (db (snd (resume registry ctx row w)))) ->
  In r (dashboards (db w)).
Proof.
  destruct (registryHas registry (d_name row)) eqn:Hreg.
  - destruct (timers w !! d_id row) as [h|] eqn:Ht.
    + rewrite (resume_armed row w h Hreg Ht). tauto.
    + rewrite (resume_known row w Hreg Ht). tauto.
  - rewrite (resume_unknown row w Hreg).
    unfold deleteDashboard. cbn [snd db set_db dashboards set_dashboards].
    intros Hin. apply filter_In in Hin. tauto.
Qed.

Lemma for_each_resume (rows : list DashboardRow) (w : World) :
  for_each rows (resume registry ctx) w
  = (Returned tt,
     fold_left (fun w row => snd (resume registry ctx row w)) rows w).
Proof.
  revert w. induction rows as [|row rows IH]; intros w; [reflexivity|].
  cbn [for_each fold_left]. unfold bind.
  pose proof (resume_returns row w) as Hret.
  destruct (resume registry ctx row w) as [o w1]. cbn [fst snd] in *.
  subst o. apply IH.
Qed.

Lemma resume_all_other (rows : list DashboardRow) (w : World)
    (r : DashboardRow) :
  ~ In (d_id r) (List.map d_id rows) ->
  let w' := fold_left (fun w row => snd (resume registry ctx row w)) rows w in
  timers w' !! d_id r = timers w !! d_id r /\
  countIntervals (d_id r) (intervals w') = countIntervals (d_id r) (intervals w) /\
  countTicks (d_id r) (spawned w') = countTicks (d_id r) (spawned w) /\
  (In r (dashboards (db w')) <-> In r (dashboards (db w))).
Proof.
  revert w. induction rows as [|row rows IH]; intros w Hnot; cbn [fold_left].
  - tauto.
  - cbn [List.map In] in Hnot.
    destruct (IH (snd (resume registry ctx row w)) ltac:(tauto))
      as (Ht & Hi & Hs & Hd).
    destruct (resume_other row w r ltac:(intros E; apply Hnot; left; congruence))
      as (Ht' & Hi' & Hs' & Hd').
    cbv zeta. rewrite Ht, Hi, Hs, Hd. tauto.
Qed.

Lemma resume_all_rows (rows : list DashboardRow) (w : World)
    (r : DashboardRow) :
  In r (dashboards (db (fold_left
         (fun w row => snd (resume registry ctx row w)) rows w))) ->
  In r (dashboards (db w)).
Proof.
  revert w. induction rows as [|row rows IH]; intros w; cbn [fold_left];
    [tauto|].
  intros Hin. apply IH in Hin. apply resume_rows in Hin. exact Hin.
Qed.

(** The loop of [init] over rows with distinct ids, none of which has a
    timer or a tick yet. *)
Lemma resume_all (rows : list DashboardRow) :
  NoDup (List.map d_id rows) ->
  forall w,
  (forall r, In r rows ->
     timers w !! d_id r = None /\
     countIntervals (d_id r) (intervals w) = 0%nat /\
     countTicks (d_id r) (spawned w) = 0%nat) ->
  let w' := fold_left (fun w row => snd (resume registry ctx row w)) rows w in
  forall r, In r rows ->
    (registryHas registry (d_name r) = false ->
       ~ In (d_id r) (List.map d_id (dashboards (db w'))) /\
       timers w' !! d_id r = None /\
       countIntervals (d_id r) (intervals w') = 0%nat /\
       countTicks (d_id r) (spawned w') = 0%nat) /\
    (registryHas registry (d_name r) = true ->
       (In r (dashboards (db w)) -> In r (dashboards (db w'))) /\
       is_Some (timers w' !! d_id r) /\
       countIntervals (d_id r) (intervals w') = 1%nat /\
       countTicks (d_id r) (spawned w') = 1%nat).
Proof.
  induction rows as [|row rows IH]; intros Hnd w Hfresh w' r Hin;
    [destruct Hin|].
  cbn [List.map] in Hnd. apply NoDup_cons in Hnd. destruct Hnd as [Hhd Hnd].
  rewrite list_elem_of_In in Hhd.
  subst w'. cbn [fold_left].
  set (w1 := snd (resume registry ctx row w)).
  destruct Hin as [-> | Hin].
  - (* the row resumed first *)
    destruct (resume_all_other rows w1 r Hhd) as (Ht & Hi & Hs & Hd).
    cbv zeta in Ht, Hi, Hs, Hd. rewrite Ht, Hi, Hs.
    destruct (Hfresh r (or_introl eq_refl)) as (Hft & Hfi & Hfs).
    split; intros Hreg.
    + subst w1. rewrite (resume_unknown r w Hreg).
      cbn [snd timers intervals spawned set_db]. repeat split; try assumption.
      intros Hex. apply in_map_iff in Hex. destruct Hex as (x & Hx & Hex).
      apply resume_all_rows in Hex. unfold deleteDashboard in Hex.
      cbn [snd db set_db dashboards set_dashboards] in Hex.
      apply filter_In in Hex. destruct Hex as [_ Hex].
      apply negb_true_iff, Z.eqb_neq in Hex. congruence.
    + rewrite Hd. subst w1. rewrite (resume_known r w Hreg Hft).
      cbn [snd timers intervals spawned db set_timers set_spawned].
      rewrite lookup_insert_eq, countIntervals_app, countTicks_app, Hfi, Hfs.
      unfold countIntervals, countTicks. cbn [List.filter i_row is_tick_of].
      rewrite Z.eqb_refl. cbn [length]. repeat split; eauto.
  - (* a row resumed later *)
    assert (d_id r <> d_id row) as Hne.
    { intros E. apply Hhd. rewrite <- E. apply in_map. exact Hin. }
    destruct (resume_other row w r Hne) as (Ht & Hi & Hs & Hd). fold w1 in Ht, Hi, Hs, Hd.
    assert (forall r', In r' rows ->
              timers w1 !! d_id r' = None /\
              countIntervals (d_id r') (intervals w1) = 0%nat /\
              countTicks (d_id r') (spawned w1) = 0%nat) as Hfresh1.
    { intros r' Hin'.
      assert (d_id r' <> d_id row) as Hne'.
      { intros E. apply Hhd. rewrite <- E. apply in_map. exact Hin'. }
      destruct (resume_other row w r' Hne') as (Ht' & Hi' & Hs' & _).
      fold w1 in Ht', Hi', Hs'. rewrite Ht', Hi', Hs'.
      apply Hfresh. right. exact Hin'. }
    destruct (IH Hnd w1 Hfresh1 r Hin) as [Hunknown Hknown].
    split; [exact Hunknown|].
    intros Hreg. destruct (Hknown Hreg) as (Hkeep & Hrest).
    split; [|exact Hrest]. intros Hr. apply Hkeep, Hd, Hr.
Qed.

(** C8: at startup (no timer armed, no interval live, nothing started
    yet) [dashboards.init] goes through the persisted rows, whose ids are
    distinct.  A row whose name the registry does not know is deleted,
    and neither a tick nor a timer is started for it.  For a row whose
    name is known, exactly one tick is started, exactly one interval is
    live, the timer table holds a handle for it, and the row stays. *)
Theorem startup_recovery (w : World) :
  timers w = ∅ -> intervals w = [] -> spawned w = [] ->
  NoDup (List.map d_id (dashboards (db w))) ->
  let w' := snd (Dashboards.init registry ctx w) in
  fst (Dashboards.init registry ctx w) = Returned tt /\
  forall row, In row (dashboards (db w)) ->
    (registryHas registry (d_name row) = false ->
       ~ In (d_id row) (List.map d_id (dashboards (db w'))) /\
       timers w' !! d_id row = None /\
       countIntervals (d_id row) (intervals w') = 0%nat /\
       countTicks (d_id row) (spawned w') = 0%nat) /\
    (registryHas registry (d_name row) = true ->
       In row (dashboards (db w')) /\
       is_Some (timers w' !! d_id row) /\
       countIntervals (d_id row) (intervals w') = 1%nat /\
       countTicks (d_id row) (spawned w') = 1%nat).
Proof.
  intros Htimers Hintervals Hspawned Hnd w'. subst w'.
  unfold Dashboards.init, bind, dbRead.
  change (fun row : DashboardRow =>
            if negb (registryHas registry (d_name row))
            then dbWrite (deleteDashboard (d_id row))
            else Dashboards.startTimer registry row ctx true)
    with (resume registry ctx).
  rewrite for_each_resume. cbn [fst snd]. split; [reflexivity|].
  pose proof (getActiveDashboards_perm (db w)) as Hperm.
  intros row Hrow.
  assert (NoDup (List.map d_id (getActiveDashboards (db w)))) as Hnd'.
  { rewrite (Permutation_map d_id Hperm). exact Hnd. }
  assert (In row (getActiveDashboards (db w))) as Hrow'.
  { eapply Permutation_in; [symmetry; exact Hperm | exact Hrow]. }
  destruct (resume_all (getActiveDashboards (db w)) Hnd' w) with (r := row)
    as [Hunknown Hknown]; [|exact Hrow'|].
  { intros r _. rewrite Htimers, Hintervals, Hspawned.
    rewrite lookup_empty. repeat split; reflexivity. }
  split; [exact Hunknown|].
  intros Hreg. destruct (Hknown Hreg) as (Hkeep & Hrest).
  split; [apply Hkeep, Hrow | exact Hrest].
Qed.

End SchedulerRecovery.

(** ** The feed watcher *)

Section FeedWatcher.
Context `{Externals}.

(** *** Which items are announced *)

Lemma announce_ext (seen seen' : jsstring -> bool) (items : list FeedItem) :
  (forall g, seen g = seen' g) -> announce seen items = announce seen' items.
Proof.
  revert seen seen'. induction items as [|item items IH]; intros seen seen' Hext;
    [reflexivity|].
  cbn [announce]. rewrite <- Hext. destruct (seen (guid item)).
  - apply IH, Hext.
  - f_equal. apply IH. intros g. rewrite Hext. reflexivity.
Qed.

Lemma announce_unseen (seen : jsstring -> bool) (items : list FeedItem)
    (a : FeedItem) :
  In a (announce seen items) -> In a items /\ seen (guid a) = false.
Proof.
  revert seen. induction items as [|item items IH]; intros seen; cbn [announce];
    [intros []|].
  destruct (seen (guid item)) eqn:Hseen.
  - intros Hin. apply IH in Hin. cbn [In]. tauto.
  - intros [<- | Hin]; [cbn [In]; tauto|].
    apply IH in Hin. destruct Hin as [Hin Hor].
    apply orb_false_iff in Hor. cbn [In]. tauto.
Qed.

Lemma announce_later_guid (seen : jsstring -> bool) (items : list FeedItem)
    (a : FeedItem) (g : jsstring) :
  seen g = true -> In a (announce seen items) -> guid a <> g.
Proof.
  intros Hseen Hin Heq. apply announce_unseen in Hin. destruct Hin as [_ Hin].
  congruence.
Qed.

Lemma announce_NoDup (seen : jsstring -> bool) (items : list FeedItem) :
  NoDup (List.map guid (announce seen items)).
Proof.
  revert seen. induction items as [|item items IH]; intros seen; cbn [announce];
    [constructor|].
  destruct (seen (guid item)); [apply IH|].
  cbn [List.map]. apply NoDup_cons. split; [|apply IH].
  rewrite list_elem_of_In. intros Hin. apply in_map_iff in Hin.
  destruct Hin as (a & Ha & Hin).
  apply announce_unseen in Hin. destruct Hin as [_ Hin].
  apply orb_false_iff in Hin. destruct Hin as [_ Hin]. rewrite <- Ha in Hin.
  assert (jseqb (guid a) (guid a) = true) by (apply jseqb_eq; reflexivity).
  congruence.
Qed.

Lemma announce_covers (seen : jsstring -> bool) (items : list FeedItem)
    (i : FeedItem) :
  In i items -> seen (guid i) = false ->
  In (guid i) (List.map guid (announce seen items)).
Proof.
  revert seen. induction items as [|item items IH]; intros seen; [intros []|].
  cbn [announce]. intros [-> | Hin] Hunseen.
  - rewrite Hunseen. left. reflexivity.
  - destruct (seen (guid item)) eqn:Hseen; [apply IH; assumption|].
    cbn [List.map In].
    destruct (jseqb (guid item) (guid i)) eqn:Heq.
    + left. apply jseqb_eq. exact Heq.
    + right. apply IH; [exact Hin|]. rewrite Hunseen, Heq. reflexivity.
Qed.

Lemma announce_sublist (seen : jsstring -> bool) (items : list FeedItem) :
  sublist (announce seen items) items.
Proof.
  revert seen. induction items as [|item items IH]; intros seen; cbn [announce];
    [constructor|].
  destruct (seen (guid item)); [apply sublist_cons | apply sublist_skip]; apply IH.
Qed.

(** *** The store *)

Lemma markFeedItemSeen_run (id : Z) (g stamp : jsstring) (d : Db) :
  hasDashboard id d = true ->
  let d' := snd (markFeedItemSeen id g stamp d) in
  fst (markFeedItemSeen id g stamp d) = Returned (negb (feedItemSeen id g d)) /\
  dashboards d' = dashboards d /\
  (forall g', feedItemSeen id g' d' = feedItemSeen id g' d || jseqb g g').
Proof.
  intros Hhas d'. subst d'. unfold markFeedItemSeen. cbv zeta. rewrite Hhas.
  destruct (feedItemSeen id g d) eqn:Hseen; cbn [negb fst snd].
  - repeat split. intros g'.
    change (feedItemSeen id g'
              (set_feed_items (feed_items d) (seq_feed_items d + 1) d))
      with (feedItemSeen id g' d).
    destruct (jseqb g g') eqn:Heq; [|rewrite orb_false_r; reflexivity].
    apply jseqb_eq in Heq. subst g'. rewrite Hseen. reflexivity.
  - repeat split. intros g'. unfold feedItemSeen.
    cbn [feed_items set_feed_items]. rewrite existsb_app.
    cbn [existsb dashboard_id item_guid]. rewrite Z.eqb_refl, orb_false_r.
    reflexivity.
Qed.

Lemma hasDashboard_rows (id : Z) (d d' : Db) :
  dashboards d' = dashboards d -> hasDashboard id d' = hasDashboard id d.
Proof. unfold hasDashboard. intros ->. reflexivity. Qed.

Lemma markSeen_run (id : Z) (g : jsstring) (w : World) :
  hasDashboard id (db w) = true ->
  exists d',
    Rss.markSeen id g w
    = (Returned (negb (feedItemSeen id g (db w))), set_db d' w) /\
    dashboards d' = dashboards (db w) /\
    (forall g', feedItemSeen id g' d' = feedItemSeen id g' (db w) || jseqb g g').
Proof.
  intros Hhas.
  destruct (markFeedItemSeen_run id g (datetime_now (clock w)) (db w) Hhas)
    as (Hret & Hrows & Hseen).
  eexists. unfold Rss.markSeen, dbRun. rewrite Hret.
  split; [reflexivity|]. split; [exact Hrows | exact Hseen].
Qed.

Lemma bind_run {S A B} (m : M S A) (k : A -> M S B) (s : S) (a : A) (s1 : S) :
  m s = (Returned a, s1) -> bind m k s = k a s1.
Proof. unfold bind. intros ->. reflexivity. Qed.

(** *** The phases of a tick *)

Lemma fetchOgImage_run (url : jsstring) (w : World) :
  exists img,
    Rss.fetchOgImage url w
    = (Returned img, set_log (log w ++ [HttpFetch url]) w).
Proof.
  unfold Rss.fetchOgImage, try_catch, bind, call.
  destruct (gateway w (log w) (HttpFetch url)) as [e|r].
  - eexists. reflexivity.
  - destruct (negb (res_ok r)); eexists; reflexivity.
Qed.

Lemma same_item_refl (item : FeedItem) : same_item item item.
Proof. destruct item. reflexivity. Qed.

Lemma set_log_nil (w : World) : set_log (log w ++ []) w = w.
Proof. rewrite app_nil_r. destruct w; reflexivity. Qed.

(** Resolving images only issues page fetches; an item keeps everything
    but its image. *)
Lemma resolveImages_run (items : list FeedItem) (w : World) :
  exists resolved l,
    Rss.resolveImages items w = (Returned resolved, set_log (log w ++ l) w) /\
    Forall2 same_item resolved items /\
    List.filter is_post l = [].
Proof.
  revert w. induction items as [|item items IH]; intros w.
  - exists [], []. cbn [Rss.resolveImages]. unfold ret.
    rewrite set_log_nil. repeat split. constructor.
  - cbn [Rss.resolveImages]. unfold bind at 1. unfold Rss.resolveImage.
    destruct (image item) as [|c img] eqn:Himg.
    + destruct (link item) as [|c url] eqn:Hlink.
      * unfold ret at 1. unfold bind.
        destruct (IH w) as (resolved & l & -> & Hsame & Hposts).
        exists (item :: resolved), l. repeat split; [|exact Hposts].
        constructor; [apply same_item_refl | exact Hsame].
      * unfold bind at 1.
        destruct (fetchOgImage_run (c :: url) w) as (img & ->).
        unfold ret at 1. unfold bind.
        destruct (IH (set_log (log w ++ [HttpFetch (c :: url)]) w))
          as (resolved & l & -> & Hsame & Hposts).
        exists (Rss.withImage img item :: resolved), (HttpFetch (c :: url) :: l).
        cbn [log set_log]. rewrite <- app_assoc. repeat split; [|exact Hposts].
        constructor; [reflexivity | exact Hsame].
    + unfold ret at 1. unfold bind.
      destruct (IH w) as (resolved & l & -> & Hsame & Hposts).
      exists (item :: resolved), l. repeat split; [|exact Hposts].
      constructor; [apply same_item_refl | exact Hsame].
Qed.

Lemma same_item_guids (resolved parsed : list FeedItem) :
  Forall2 same_item resolved parsed ->
  List.map guid resolved = List.map guid parsed.
Proof.
  induction 1 as [|r p rs ps Hrp _ IH]; [reflexivity|].
  cbn [List.map]. rewrite IH, Hrp. reflexivity.
Qed.

(** The bootstrap loop: every item is marked, nothing is requested. *)
Lemma bootstrap_marks (id : Z) (items : list FeedItem) (w : World) :
  hasDashboard id (db w) = true ->
  exists d',
    for_each items
      (fun item => (_ <- Rss.markSeen id (guid item) ;; ret tt)%M) w
    = (Returned tt, set_db d' w) /\
    dashboards d' = dashboards (db w) /\
    (forall g, feedItemSeen id g (db w) = true -> feedItemSeen id g d' = true) /\
    (forall item, In item items -> feedItemSeen id (guid item) d' = true).
Proof.
  revert w. induction items as [|item items IH]; intros w Hhas.
  - exists (db w). cbn [for_each]. unfold ret.
    repeat split; try tauto; [destruct w; reflexivity | intros ? []].
  - cbn [for_each]. unfold bind at 1. unfold bind at 1.
    destruct (markSeen_run id (guid item) w Hhas) as (d1 & -> & Hrows & Hseen).
    unfold ret at 1.
    destruct (IH (set_db d1 w)) as (d' & -> & Hrows' & Hmono & Hall).
    { cbn [db set_db]. rewrite (hasDashboard_rows _ _ _ Hrows). exact Hhas. }
    exists d'. cbn [db set_db] in *.
    repeat split.
    + congruence.
    + intros g Hg. apply Hmono. rewrite Hseen, Hg. reflexivity.
    + intros i [<- | Hin]; [|apply Hall, Hin].
      apply Hmono. rewrite Hseen.
      assert (jseqb (guid item) (guid item) = true) as ->
        by (apply jseqb_eq; reflexivity).
      apply orb_true_r.
Qed.

(** The loop that collects the new items: they are the items to
    announce, and afterwards every item is marked. *)
Lemma markNew_run (id : Z) (items : list FeedItem) (w : World) :
  hasDashboard id (db w) = true ->
  exists d',
    Rss.markNew id items w
    = (Returned (announce (fun g => feedItemSeen id g (db w)) items),
       set_db d' w) /\
    dashboards d' = dashboards (db w) /\
    (forall g, feedItemSeen id g (db w) = true -> feedItemSeen id g d' = true) /\
    (forall item, In item items -> feedItemSeen id (guid item) d' = true).
Proof.
  revert w. induction items as [|item items IH]; intros w Hhas.
  - exists (db w). cbn [Rss.markNew announce]. unfold ret.
    repeat split; try tauto; [destruct w; reflexivity | intros ? []].
  - cbn [Rss.markNew announce]. unfold bind at 1.
    destruct (markSeen_run id (guid item) w Hhas) as (d1 & -> & Hrows & Hseen).
    unfold bind at 1.
    destruct (IH (set_db d1 w)) as (d' & -> & Hrows' & Hmono & Hall).
    { cbn [db set_db]. rewrite (hasDashboard_rows _ _ _ Hrows). exact Hhas. }
    exists d'. cbn [db set_db] in *. unfold ret.
    repeat split.
    + do 2 f_equal. destruct (feedItemSeen id (guid item) (db w)) eqn:Hs; cbn [negb].
      * apply announce_ext. intros g. rewrite Hseen.
        destruct (jseqb (guid item) g) eqn:Heq; [|apply orb_false_r].
        apply jseqb_eq in Heq. subst g. rewrite Hs. reflexivity.
      * f_equal. apply announce_ext. intros g. apply Hseen.
    + congruence.
    + intros g Hg. apply Hmono. rewrite Hseen, Hg. reflexivity.
    + intros i [<- | Hin]; [|apply Hall, Hin].
      apply Hmono. rewrite Hseen.
      assert (jseqb (guid item) (guid item) = true) as ->
        by (apply jseqb_eq; reflexivity).
      apply orb_true_r.
Qed.

(** Announcing: one accepted message per item, in list order. *)
Lemma announce_posts (row : DashboardRow) (items : list FeedItem) (w : World) :
  accepts_posts w ->
  for_each items
    (fun item =>
       (w <- get ;;
        _ <- call (MessagesSend (channel row) (topic row)
                     (renderItem (clock w) item)) ;;
        ret tt)%M) w
  = (Returned tt,
     set_log (log w ++
              List.map (fun item => MessagesSend (channel row) (topic row)
                                      (renderItem (clock w) item)) items) w).
Proof.
  intros Hok. revert w Hok. induction items as [|item items IH]; intros w Hok.
  - cbn [for_each List.map]. unfold ret. rewrite set_log_nil. reflexivity.
  - cbn [for_each List.map]. unfold bind at 1. unfold bind at 1. unfold get.
    unfold bind at 1. unfold call.
    destruct (Hok (log w) (channel row) (topic row) (renderItem (clock w) item))
      as (r & ->).
    unfold ret at 1. rewrite IH by exact Hok.
    cbn [log set_log clock]. rewrite <- app_assoc. reflexivity.
Qed.

Lemma filter_posts_announcements (row : DashboardRow) (t : Z)
    (items : list FeedItem) :
  List.filter is_post (List.map (announcement row t) items)
  = List.map (announcement row t) items.
Proof.
  induction items as [|item items IH]; [reflexivity|].
  cbn [List.map List.filter announcement is_post]. f_equal. exact IH.
Qed.

Lemma announce_guids (seen : jsstring -> bool) (items : list FeedItem)
    (g : jsstring) :
  In g (List.map guid (announce seen items)) <->
  In g (List.map guid items) /\ seen g = false.
Proof.
  split.
  - intros Hin. apply in_map_iff in Hin. destruct Hin as (a & <- & Hin).
    apply announce_unseen in Hin. destruct Hin as [Hin Hunseen].
    split; [apply in_map, Hin | exact Hunseen].
  - intros [Hin Hunseen]. apply in_map_iff in Hin.
    destruct Hin as (i & <- & Hin). apply announce_covers; assumption.
Qed.

Lemma announce_none (seen : jsstring -> bool) (items : list FeedItem) :
  (forall item, In item items -> seen (guid item) = true) ->
  announce seen items = [].
Proof.
  induction items as [|item items IH]; intros Hall; [reflexivity|].
  cbn [announce]. rewrite (Hall item) by (left; reflexivity).
  apply IH. intros i Hi. apply Hall. right. exact Hi.
Qed.

(** A tick with new items whose announcements the gateway refuses. *)
Lemma tick_refused (url : jsstring) (ctx : ServiceContext)
    (row : DashboardRow) (w : World) (res : Response) (feedTitle : jsstring)
    (parsed : list FeedItem) (e : Thrown) (fresh : FeedItem) :
  gateway w (log w) (HttpFetch url) = Resolved res ->
  res_ok res = true ->
  parseFeed (res_text res) = inr (feedTitle, parsed) ->
  hasDashboard (d_id row) (db w) = true ->
  bootstrapped row <> 0 ->
  refuses_posts w e ->
  In fresh parsed ->
  feedItemSeen (d_id row) (guid fresh) (db w) = false ->
  let w' := snd (Rss.fetch url ctx row w) in
  fst (Rss.fetch url ctx row w) = Threw e /\
  count is_post (issued w w') = 1 /\
  (forall item, In item parsed ->
     feedItemSeen (d_id row) (guid item) (db w') = true) /\
  announce (fun g => feedItemSeen (d_id row) g (db w')) parsed = [].
Proof.
  intros Hreply Hok Hparse Hhas Hboot Hrefuse Hfresh Hunseen. cbv zeta.
  set (w0 := set_log (log w ++ [HttpFetch url]) w).
  assert (Hcall : call (HttpFetch url) w = (Returned res, w0))
    by (unfold call; rewrite Hreply; reflexivity).
  unfold Rss.fetch. rewrite (bind_run _ _ _ _ _ Hcall).
  rewrite Hok. cbn [negb]. rewrite Hparse.
  destruct (resolveImages_run (firstn Rss.MAX_DISPLAY_ITEMS parsed) w0)
    as (resolved & l & Hres & Hsame & Hnoposts).
  rewrite (bind_run _ _ _ _ _ Hres). cbv zeta.
  set (items := resolved ++ skipn Rss.MAX_DISPLAY_ITEMS parsed).
  assert (Hitems : Forall2 same_item items parsed).
  { subst items. rewrite <- (firstn_skipn Rss.MAX_DISPLAY_ITEMS parsed) at 2.
    apply Forall2_app; [exact Hsame|].
    apply Forall_Forall2_diag, Forall_forall. intros x _. apply same_item_refl. }
  pose proof (same_item_guids _ _ Hitems) as Hguids.
  set (w1 := set_log (log w0 ++ l) w0).
  assert (Hhas1 : hasDashboard (d_id row) (db w1) = true) by exact Hhas.
  apply Z.eqb_neq in Hboot. rewrite Hboot.
  destruct (markNew_run (d_id row) items w1 Hhas1)
    as (d' & Hnew & Hrows & _ & Hall).
  set (seen := fun g => feedItemSeen (d_id row) g (db w)) in *.
  change (fun g => feedItemSeen (d_id row) g (db w1)) with seen in Hnew.
  assert (Hsome : rev (announce seen items) <> []).
  { intros Hnil. apply (f_equal (@rev FeedItem)) in Hnil.
    rewrite rev_involutive in Hnil. simpl in Hnil.
    assert (Hg : In (guid fresh) (List.map guid (announce seen items))).
    { apply announce_guids. split; [|exact Hunseen].
      rewrite Hguids. apply in_map, Hfresh. }
    rewrite Hnil in Hg. destruct Hg. }
  destruct (rev (announce seen items)) as [|first rest] eqn:Hrev; [congruence|].
  assert (Hmarked : forall item, In item parsed ->
            feedItemSeen (d_id row) (guid item) d' = true).
  { intros item Hin.
    assert (Hg : In (guid item) (List.map guid items))
      by (rewrite Hguids; apply in_map, Hin).
    apply in_map_iff in Hg. destruct Hg as (i & <- & Hi). apply Hall, Hi. }
  set (post := MessagesSend (channel row) (topic row)
                 (renderItem (clock w) first)).
  assert (Hrun :
    (row' <-
       (newItems <- Rss.markNew (d_id row) items ;;
        for_each (rev newItems)
          (fun item =>
             w <- get ;;
             _ <- call (MessagesSend (channel row) (topic row)
                          (renderItem (clock w) item)) ;;
             ret tt) ;;
        ret row) ;;
     content <- Rss.renderFeed (feedTitle, items) Rss.rss_intervalMs ;;
     ret (content, row')) w1
    = (Threw e, set_log (log w1 ++ [post]) (set_db d' w1))).
  { unfold bind at 1. unfold bind at 1. rewrite Hnew.
    unfold bind at 1. rewrite Hrev. cbn [for_each].
    unfold bind at 1. unfold bind at 1. unfold get at 1.
    unfold bind at 1. unfold call at 1.
    unfold w1, w0. cbn [gateway log clock set_db set_log].
    rewrite Hrefuse. reflexivity. }
  rewrite Hrun. cbn [fst snd db set_log set_db].
  split; [reflexivity|]. split; [|split; [exact Hmarked|]].
  - rewrite (issued_app w _ (HttpFetch url :: l ++ [post]))
      by (subst w1 w0; cbn [log set_log set_db]; rewrite <- !app_assoc;
          reflexivity).
    unfold count. cbn [List.filter is_post].
    rewrite List.filter_app, Hnoposts. reflexivity.
  - apply announce_none. exact Hmarked.
Qed.

(** C9: a tick of the feed watcher whose feed was fetched and parsed, for
    an instance that is in the store.  While the row is not bootstrapped,
    the tick marks every item of the feed as seen, sets the bootstrapped
    flag in the store and on the row, and posts no message.  Once it is,
    and where the gateway accepts the posts, the tick posts exactly the
    announcements of the items to announce, in the reverse of the order
    in which the feed lists them: one item per guid of the feed that was
    not marked before the tick, none for a guid that was; afterwards
    every item is marked.  Where the gateway refuses the posts and there
    is something to announce, the tick throws after one attempt, with
    every item marked: nothing is left for a later tick to announce. *)
Theorem feed_tick (url : jsstring) (ctx : ServiceContext) (row : DashboardRow)
    (w : World) (res : Response) (feedTitle : jsstring)
    (parsed : list FeedItem) :
  gateway w (log w) (HttpFetch url) = Resolved res ->
  res_ok res = true ->
  parseFeed (res_text res) = inr (feedTitle, parsed) ->
  hasDashboard (d_id row) (db w) = true ->
  let result := Rss.fetch url ctx row w in
  let w' := snd result in
  let seen := fun g => feedItemSeen (d_id row) g (db w) in
  (bootstrapped row = 0 ->
     (exists content, fst result = Returned (content, withBootstrapped 1 row)) /\
     count is_post (issued w w') = 0 /\
     (forall item, In item parsed ->
        feedItemSeen (d_id row) (guid item) (db w') = true) /\
     (forall r, In r (dashboards (db w')) -> d_id r = d_id row ->
        bootstrapped r = 1)) /\
  (bootstrapped row <> 0 ->
     accepts_posts w ->
     exists content items,
       fst result = Returned (content, row) /\
       Forall2 same_item items parsed /\
       List.filter is_post (issued w w')
       = List.map (announcement row (clock w)) (rev (announce seen items)) /\
       count is_post (issued w w') = Z.of_nat (length (announce seen items)) /\
       NoDup (List.map guid (announce seen items)) /\
       (forall g, In g (List.map guid (announce seen items)) <->
                  In g (List.map guid parsed) /\ seen g = false) /\
       (forall item, In item parsed ->
          feedItemSeen (d_id row) (guid item) (db w') = true)) /\
  (bootstrapped row <> 0 ->
     forall e fresh,
       refuses_posts w e ->
       In fresh parsed -> seen (guid fresh) = false ->
       fst result = Threw e /\
       count is_post (issued w w') = 1 /\
       (forall item, In item parsed ->
          feedItemSeen (d_id row) (guid item) (db w') = true) /\
       announce (fun g => feedItemSeen (d_id row) g (db w')) parsed = []).
Proof.
  intros Hreply Hok Hparse Hhas result w' seen.
  assert (Hrefused : bootstrapped row <> 0 ->
            forall e fresh,
              refuses_posts w e ->
              In fresh parsed -> seen (guid fresh) = false ->
              fst result = Threw e /\
              count is_post (issued w w') = 1 /\
              (forall item, In item parsed ->
                 feedItemSeen (d_id row) (guid item) (db w') = true) /\
              announce (fun g => feedItemSeen (d_id row) g (db w')) parsed = []).
  { intros Hboot e fresh Hrefuse Hfresh Hunseen.
    exact (tick_refused url ctx row w res feedTitle parsed e fresh Hreply Hok
             Hparse Hhas Hboot Hrefuse Hfresh Hunseen). }
  match goal with
  | |- ?A /\ ?B /\ ?C =>
      cut (A /\ B);
      [ intros [HA HB]; split; [exact HA | split; [exact HB | exact Hrefused]] | ]
  end.
  clear Hrefused. subst result w'.
  set (w0 := set_log (log w ++ [HttpFetch url]) w).
  assert (call (HttpFetch url) w = (Returned res, w0)) as Hcall
    by (unfold call; rewrite Hreply; reflexivity).
  unfold Rss.fetch. rewrite (bind_run _ _ _ _ _ Hcall).
  rewrite Hok. cbn [negb]. rewrite Hparse.
  destruct (resolveImages_run (firstn Rss.MAX_DISPLAY_ITEMS parsed) w0)
    as (resolved & l & Hres & Hsame & Hnoposts).
  rewrite (bind_run _ _ _ _ _ Hres). cbv zeta.
  set (items := resolved ++ skipn Rss.MAX_DISPLAY_ITEMS parsed).
  assert (Forall2 same_item items parsed) as Hitems.
  { subst items. rewrite <- (firstn_skipn Rss.MAX_DISPLAY_ITEMS parsed) at 2.
    apply Forall2_app; [exact Hsame|].
    apply Forall_Forall2_diag, Forall_forall. intros x _. apply same_item_refl. }
  pose proof (same_item_guids _ _ Hitems) as Hguids.
  set (w1 := set_log (log w0 ++ l) w0).
  assert (hasDashboard (d_id row) (db w1) = true) as Hhas1 by exact Hhas.
  assert (forall d item, In item parsed ->
            (forall i, In i items -> feedItemSeen (d_id row) (guid i) d = true) ->
            feedItemSeen (d_id row) (guid item) d = true) as Hcover.
  { intros d item Hin Hall.
    assert (In (guid item) (List.map guid items)) as Hg
      by (rewrite Hguids; apply in_map, Hin).
    apply in_map_iff in Hg. destruct Hg as (i & <- & Hi). apply Hall, Hi. }
  split; intros Hboot.
  - apply Z.eqb_eq in Hboot. rewrite Hboot.
    destruct (bootstrap_marks (d_id row) items w1 Hhas1)
      as (d' & Hmarks & Hrows & _ & Hall).
    rewrite (bind_run _ _ _
               (withBootstrapped 1 row)
               (set_db (setDashboardBootstrapped (d_id row) d') w1))
      by (rewrite (bind_run _ _ _ _ _ Hmarks); reflexivity).
    unfold bind, ret, Rss.renderFeed. cbn [fst snd db set_db].
    split; [eexists; reflexivity|].
    split.
    { rewrite (issued_app w _ (HttpFetch url :: l))
        by (subst w1 w0; cbn [log set_log set_db]; rewrite <- app_assoc; reflexivity).
      unfold count. cbn [List.filter is_post]. rewrite Hnoposts. reflexivity. }
    split.
    { intros item Hin. apply (Hcover _ item Hin). intros i Hi.
      unfold setDashboardBootstrapped, feedItemSeen.
      cbn [feed_items set_dashboards]. apply Hall, Hi. }
    intros r Hr Hid. unfold setDashboardBootstrapped in Hr.
    cbn [dashboards set_dashboards] in Hr. apply in_map_iff in Hr.
    destruct Hr as (r0 & Hr0 & _).
    destruct (d_id r0 =? d_id row) eqn:E.
    + subst r. reflexivity.
    + subst r. apply Z.eqb_neq in E. congruence.
  - intros Hposts. apply Z.eqb_neq in Hboot. rewrite Hboot.
    destruct (markNew_run (d_id row) items w1 Hhas1)
      as (d' & Hnew & Hrows & _ & Hall).
    fold seen in Hnew.
    set (w2 := set_log
                 (log w1 ++ List.map (announcement row (clock w))
                              (rev (announce seen items)))
                 (set_db d' w1)).
    rewrite (bind_run _ _ _ row w2).
    2:{ rewrite (bind_run _ _ _ _ _ Hnew).
        rewrite (bind_run _ _ _ tt w2); [reflexivity|].
        rewrite (announce_posts row _ (set_db d' w1)) by exact Hposts.
        reflexivity. }
    unfold bind, ret, Rss.renderFeed. cbn [fst snd].
    eexists. exists items.
    assert (issued w w2
            = HttpFetch url :: l
              ++ List.map (announcement row (clock w)) (rev (announce seen items)))
      as Hissued.
    { apply issued_app. subst w2 w1 w0. cbn [log set_log set_db].
      rewrite <- !app_assoc. reflexivity. }
    rewrite Hissued.
    assert (List.filter is_post
              (HttpFetch url :: l
               ++ List.map (announcement row (clock w)) (rev (announce seen items)))
            = List.map (announcement row (clock w)) (rev (announce seen items)))
      as Hfilter.
    { cbn [List.filter is_post]. rewrite List.filter_app, Hnoposts.
      apply filter_posts_announcements. }
    split; [reflexivity|]. split; [exact Hitems|].
    split; [exact Hfilter|].
    split; [unfold count; rewrite Hfilter, length_map, length_rev; reflexivity|].
    split; [apply announce_NoDup|].
    split; [intros g; rewrite announce_guids, Hguids; reflexivity|].
    intros item Hin. apply (Hcover _ item Hin). exact Hall.
Qed.

End FeedWatcher.

(** ** The theorems at work on the small installation *)

Section Installation.
#[local] Existing Instance plainExternals.

Lemma one_task_per_message_witness :
  one_task_per_source (db world1) /\
  snd (Tasks.handleTaskCreation commandMsg ctx0 [] false world1)
  = set_log [retrieveAbove commandMsg;
             MessagesSend (lit "general") (lit "build") Tasks.ALREADY] world1.
Proof.
  assert (one_task_per_source (db world1)) as Hinv
    by (apply NoDup_singleton).
  split; [exact Hinv|].
  destruct (one_task_per_message ctx0 world1 Hinv) as (_ & _ & Hdup & _).
  apply (Hdup commandMsg [] false richResponse sourceMsg);
    [reflexivity | reflexivity | discriminate].
Defined.





Lemma ineligible_ignored_witness :
  m_type (message directEvent) = private /\
  handleMessage directEvent [claimer] ctx0 world1 = (Returned tt, world1).
Proof.
  split; [reflexivity|].
  apply (ineligible_ignored directEvent [claimer] ctx0 world1).
  left. reflexivity.
Defined.

Lemma startup_recovery_witness :
  timers world1 = ∅ /\ intervals world1 = [] /\ spawned world1 = [] /\
  NoDup (List.map d_id (dashboards (db world1))) /\
  registryHas registry0 (d_name orphanRow) = false /\
  registryHas registry0 (d_name helpRow) = true /\
  (~ In (d_id orphanRow) (List.map d_id (dashboards (db afterInit))) /\
   timers afterInit !! d_id orphanRow = None /\
   countIntervals (d_id orphanRow) (intervals afterInit) = 0%nat /\
   countTicks (d_id orphanRow) (spawned afterInit) = 0%nat) /\
  (In helpRow (dashboards (db afterInit)) /\
   is_Some (timers afterInit !! d_id helpRow) /\
   countIntervals (d_id helpRow) (intervals afterInit) = 1%nat /\
   countTicks (d_id helpRow) (spawned afterInit) = 1%nat).
Proof.
  assert (NoDup (List.map d_id (dashboards (db world1)))) as Hnd
    by (apply NoDup_ListNoDup; repeat constructor; cbn; intuition discriminate).
  split; [reflexivity|]. split; [reflexivity|]. split; [reflexivity|].
  split; [exact Hnd|]. split; [reflexivity|]. split; [reflexivity|].
  destruct (startup_recovery registry0 ctx0 world1 eq_refl eq_refl eq_refl Hnd)
    as [_ Hrows].
  split.
  - apply (Hrows orphanRow); [cbn; tauto | reflexivity].
  - apply (Hrows helpRow); [cbn; tauto | reflexivity].
Defined.

Lemma feed_tick_witness :
  hasDashboard 3 (db world1) = true /\
  accepts_posts world1 /\
  count is_post
    (issued world1
       (snd (Rss.fetch (lit "https://example.com/feed.xml") ctx0 (feedRow 0)
               world1))) = 0 /\
  (exists items,
     Forall2 same_item items [item1; item2; item3] /\
     List.filter is_post
       (issued world1
          (snd (Rss.fetch (lit "https://example.com/feed.xml") ctx0 (feedRow 1)
                  world1)))
     = List.map (announcement (feedRow 1) (clock world1))
         (rev (announce (fun g => feedItemSeen 3 g (db world1)) items))) /\
  refuses_posts muted (ErrorObject (lit "rate limited")) /\
  fst (Rss.fetch (lit "https://example.com/feed.xml") ctx0 (feedRow 1) muted)
  = Threw (ErrorObject (lit "rate limited")).
Proof.
  assert (accepts_posts world1) as Hposts
    by (intros h to subj body; eexists; reflexivity).
  assert (refuses_posts muted (ErrorObject (lit "rate limited"))) as Hmute
    by (intros h to subj body; reflexivity).
  split; [reflexivity|]. split; [exact Hposts|]. split; [|split; [|split]].
  - destruct (feed_tick (lit "https://example.com/feed.xml") ctx0 (feedRow 0)
                world1 richResponse (lit "Feed") [item1; item2; item3]
                ltac:(reflexivity) ltac:(reflexivity) ltac:(reflexivity)
                ltac:(reflexivity)) as [Hbootstrap _].
    apply Hbootstrap. reflexivity.
  - destruct (feed_tick (lit "https://example.com/feed.xml") ctx0 (feedRow 1)
                world1 richResponse (lit "Feed") [item1; item2; item3]
                ltac:(reflexivity) ltac:(reflexivity) ltac:(reflexivity)
                ltac:(reflexivity)) as (_ & Hlater & _).
    destruct (Hlater ltac:(discriminate) Hposts)
      as (content & items & _ & Hsame & Hfilter & _).
    exists items. split; [exact Hsame | exact Hfilter].
  - exact Hmute.
  - destruct (feed_tick (lit "https://example.com/feed.xml") ctx0 (feedRow 1)
                muted richResponse (lit "Feed") [item1; item2; item3]
                ltac:(reflexivity) ltac:(reflexivity) ltac:(reflexivity)
                ltac:(reflexivity)) as (_ & _ & Hrefused).
    apply (Hrefused ltac:(discriminate) (ErrorObject (lit "rate limited")) item2);
      [exact Hmute | right; left; reflexivity | reflexivity].
Defined.

(** The feed lists its items oldest first; [g1] has been seen.  The tick
    announces the newest item first.  And where the gateway refuses the
    announcements, one is attempted, and the tick after that has nothing
    left to announce. *)
Lemma feed_tick_counterexample :
  let url := lit "https://example.com/feed.xml" in
  parseFeed (res_text richResponse) = inr (lit "Feed", [item1; item2; item3]) /\
  text_leb (pubDate item2) (pubDate item3) = true /\
  text_leb (pubDate item3) (pubDate item2) = false /\
  feedItemSeen 3 (guid item2) (db world1) = false /\
  feedItemSeen 3 (guid item3) (db world1) = false /\
  List.filter is_post (issued world1 (snd (Rss.fetch url ctx0 (feedRow 1) world1)))
  = [announcement (feedRow 1) 1000 item3; announcement (feedRow 1) 1000 item2] /\
  let refused := snd (Rss.fetch url ctx0 (feedRow 1) muted) in
  List.filter is_post (issued muted refused)
  = [announcement (feedRow 1) 1000 item3] /\
  List.filter is_post (issued refused (snd (Rss.fetch url ctx0 (feedRow 1) refused)))
  = [].
Proof. cbv zeta. repeat split; vm_compute; reflexivity. Qed.

(** The tick after the bootstrap, with [g1] seen before: [g2] and [g3]
    are announced, the later one in the feed first. *)
Example feed_tick_announces :
  List.filter is_post
    (issued world1
       (snd (Rss.fetch (lit "https://example.com/feed.xml") ctx0 (feedRow 1)
               world1)))
  = [MessagesSend (lit "news") (lit "feed") (lit "Three");
     MessagesSend (lit "news") (lit "feed") (lit "Two")].
Proof. vm_compute. reflexivity. Qed.

(** No service claims the mention: the placeholder is posted, the topic
    is read, the engine is asked, and the answer replaces the
    placeholder. *)
Example fallthrough_trace :
  List.map is_post
    (log (snd (handleMessage mentionEvent [thrower; silent] ctx0 world1)))
  = [true; false; false; false] /\
  last (log (snd (handleMessage mentionEvent [thrower; silent] ctx0 world1)))
  = Some (patchMessage 700 (lit "Hello")).
Proof. vm_compute. split; reflexivity. Qed.

End Installation.

(** ** The tables *)

Lemma jseqb_same (a : jsstring) : jseqb a a = true.
Proof. apply jseqb_eq. reflexivity. Qed.

(** *** Feed items are recorded once *)

Lemma feedItemSeen_app (id : Z) (g : jsstring) (items : list FeedItemRow)
    (seq : Z) (f : FeedItemRow) (d : Db) :
  feedItemSeen id g (set_feed_items (feed_items d ++ [f]) seq d)
  = feedItemSeen id g d
    || ((dashboard_id f =? id) && jseqb (item_guid f) g).
Proof.
  unfold feedItemSeen. cbn [feed_items set_feed_items].
  rewrite existsb_app. simpl. rewrite orb_false_r. reflexivity.
Qed.

(** X1: [markFeedItemSeen] answers [true] exactly once per dashboard and
    guid.  For a stored dashboard, the first call answers whether the guid
    was new, and no other (dashboard, guid) pair changes its state; any
    later call answers [false] and stores no row: it leaves every table
    as it is and only uses up one id of the counter of [feed_items].  For
    a dashboard that is not stored, a new guid is refused and nothing is
    written. *)
Theorem markFeedItemSeen_once (id : Z) (g stamp stamp' : jsstring) (d : Db) :
  (hasDashboard id d = true ->
     let first := markFeedItemSeen id g stamp d in
     let again := markFeedItemSeen id g stamp' (snd first) in
     fst first = Returned (negb (feedItemSeen id g d)) /\
     feedItemSeen id g (snd first) = true /\
     (forall id' g', (id' = id /\ g' = g) \/
        feedItemSeen id' g' (snd first) = feedItemSeen id' g' d) /\
     fst again = Returned false /\
     feed_items (snd again) = feed_items (snd first) /\
     dashboards (snd again) = dashboards (snd first) /\
     tasks (snd again) = tasks (snd first) /\
     task_assignees (snd again) = task_assignees (snd first) /\
     seq_feed_items (snd again) = seq_feed_items (snd first) + 1) /\
  (hasDashboard id d = false -> feedItemSeen id g d = false ->
     exists e, markFeedItemSeen id g stamp d = (Threw e, d)).
Proof.
  split.
  - intros Hhas. cbv zeta.
    assert (Hfirst : fst (markFeedItemSeen id g stamp d)
                     = Returned (negb (feedItemSeen id g d)) /\
                     feedItemSeen id g (snd (markFeedItemSeen id g stamp d)) = true /\
                     (forall id' g', (id' = id /\ g' = g) \/
                        feedItemSeen id' g' (snd (markFeedItemSeen id g stamp d))
                        = feedItemSeen id' g' d)).
    { unfold markFeedItemSeen. cbv zeta.
      destruct (feedItemSeen id g d) eqn:Hseen.
      - cbn [fst snd negb]. split; [reflexivity|]. split; [exact Hseen|].
        intros id' g'. right. reflexivity.
      - rewrite Hhas. cbn [negb fst snd]. split; [reflexivity|]. split.
        + rewrite (feedItemSeen_app id g (feed_items d)).
          cbn [dashboard_id item_guid].
          rewrite Z.eqb_refl, jseqb_same. apply orb_true_r.
        + intros id' g'.
          rewrite (feedItemSeen_app id' g' (feed_items d)).
          cbn [dashboard_id item_guid].
          destruct (id =? id') eqn:Hid; [|right; apply orb_false_r].
          destruct (jseqb g g') eqn:Hg; [|right; apply orb_false_r].
          left. apply Z.eqb_eq in Hid. apply jseqb_eq in Hg. auto. }
    destruct Hfirst as (Hret & Hnow & Hothers).
    split; [exact Hret|]. split; [exact Hnow|]. split; [exact Hothers|].
    set (d1 := snd (markFeedItemSeen id g stamp d)) in *.
    unfold markFeedItemSeen. cbv zeta. rewrite Hnow. repeat split.
  - intros Hhas Hseen. unfold markFeedItemSeen. cbv zeta. rewrite Hseen, Hhas.
    eexists. reflexivity.
Qed.

(** *** Deleting a dashboard *)

(** X2: [deleteDashboard] removes the row and, by the cascade, every feed
    item recorded for it, so that a later dashboard never inherits seen
    guids; rows and feed items of other dashboards, and the tasks, stay. *)
Theorem deleteDashboard_cascade (id : Z) (d : Db) :
  hasDashboard id (deleteDashboard id d) = false /\
  (forall g, feedItemSeen id g (deleteDashboard id d) = false) /\
  (forall id' g, id' <> id ->
     hasDashboard id' (deleteDashboard id d) = hasDashboard id' d /\
     feedItemSeen id' g (deleteDashboard id d) = feedItemSeen id' g d) /\
  tasks (deleteDashboard id d) = tasks d /\
  task_assignees (deleteDashboard id d) = task_assignees d.
Proof.
  unfold hasDashboard, feedItemSeen, deleteDashboard.
  cbn [dashboards feed_items set_dashboards tasks task_assignees].
  split; [|split; [|split; [|split; reflexivity]]].
  - induction (dashboards d) as [|r rows IH]; [reflexivity|].
    simpl. destruct (d_id r =? id) eqn:E; simpl; [exact IH|].
    rewrite E. exact IH.
  - intros g. induction (feed_items d) as [|f items IH]; [reflexivity|].
    simpl. destruct (dashboard_id f =? id) eqn:E; simpl; [exact IH|].
    rewrite E. exact IH.
  - intros id' g Hne. split.
    + induction (dashboards d) as [|r rows IH]; [reflexivity|].
      simpl. destruct (d_id r =? id) eqn:E; simpl.
      * apply Z.eqb_eq in E.
        assert (E' : (d_id r =? id') = false) by (apply Z.eqb_neq; lia).
        rewrite E'. exact IH.
      * rewrite IH. reflexivity.
    + induction (feed_items d) as [|f items IH]; [reflexivity|].
      simpl. destruct (dashboard_id f =? id) eqn:E; simpl.
      * apply Z.eqb_eq in E.
        assert (E' : (dashboard_id f =? id') = false) by (apply Z.eqb_neq; lia).
        rewrite E'. exact IH.
      * rewrite IH. reflexivity.
Qed.

(** *** Assignees *)

Lemma sameAssignee_key (taskId u : Z) (a : AssigneeRow) :
  sameAssignee taskId (Some u) a = true <-> In (taskId, u) (assigneeKey a).
Proof.
  unfold sameAssignee, assigneeKey.
  destruct (a_user_id a) as [x|]; simpl.
  - rewrite andb_true_iff, !Z.eqb_eq. split.
    + intros [-> ->]. auto.
    + intros [Heq|[]]. injection Heq as -> ->. auto.
  - rewrite andb_false_r. split; [discriminate|tauto].
Qed.

Lemma assigned_key (taskId u : Z) (rows : list AssigneeRow) :
  existsb (sameAssignee taskId (Some u)) rows = true <->
  In (taskId, u) (concat (List.map assigneeKey rows)).
Proof.
  induction rows as [|a rows IH]; [split; [discriminate|intros []]|].
  cbn [existsb List.map concat].
  rewrite orb_true_iff, in_app_iff, IH, sameAssignee_key. tauto.
Qed.

Lemma insertAssignee_unique (taskId : Z) (stamp : jsstring) (d : Db)
    (u : jsstring * option Z) :
  assignees_unique d -> assignees_unique (insertAssignee taskId stamp d u).
Proof.
  unfold assignees_unique, insertAssignee. intros Hd.
  destruct (existsb _ _) eqn:Hex; [exact Hd|].
  cbn [task_assignees set_task_assignees].
  rewrite List.map_app, concat_app. simpl. rewrite app_nil_r.
  unfold assigneeKey at 2. cbn [a_user_id task_id].
  destruct u as [n [x|]]; cbn [snd] in *; [|rewrite app_nil_r; exact Hd].
  apply NoDup_app. split; [exact Hd|]. split; [|apply NoDup_singleton].
  intros k Hk Hin. apply list_elem_of_In in Hk, Hin.
  destruct Hin as [<-|[]].
  apply assigned_key in Hk. congruence.
Qed.

Lemma insertAssignees_unique (taskId : Z) (stamp : jsstring)
    (users : list (jsstring * option Z)) (d : Db) :
  assignees_unique d ->
  assignees_unique (fold_left (insertAssignee taskId stamp) users d).
Proof.
  revert d; induction users as [|u users IH]; intros d Hd; simpl; [exact Hd|].
  apply IH, insertAssignee_unique, Hd.
Qed.

Lemma filter_keys_NoDup (p : AssigneeRow -> bool) (rows : list AssigneeRow) :
  NoDup (concat (List.map assigneeKey rows)) ->
  NoDup (concat (List.map assigneeKey (List.filter p rows))).
Proof.
  intros Hnd. refine (sublist_NoDup _ _ Hnd _).
  clear Hnd. induction rows as [|a rows IH]; simpl; [constructor|].
  destruct (p a); simpl.
  - apply sublist_app; [reflexivity|exact IH].
  - apply sublist_inserts_l. exact IH.
Qed.

(** X3: no user is assigned twice to a task: the (task, user) pairs of the
    assignee rows stay distinct through [addAssignees] and
    [removeAssignees], whatever they are asked. *)
Theorem assignees_unique_kept (d : Db) :
  assignees_unique d ->
  (forall taskId users stamp,
     assignees_unique (snd (addAssignees taskId users stamp d))) /\
  (forall taskId userIds, assignees_unique (removeAssignees taskId userIds d)).
Proof.
  intros Hd. split.
  - intros taskId users stamp. unfold addAssignees.
    destruct users as [|u users]; [exact Hd|].
    destruct (getTaskById taskId d); [|exact Hd].
    cbn [snd]. apply insertAssignees_unique, Hd.
  - intros taskId [|x userIds]; [exact Hd|].
    unfold removeAssignees, assignees_unique.
    cbn [task_assignees set_task_assignees].
    apply filter_keys_NoDup, Hd.
Qed.

Lemma insertAssignee_assigned (taskId : Z) (stamp : jsstring) (d : Db)
    (u : jsstring * option Z) (t x : Z) :
  assigned t x d = true ->
  assigned t x (insertAssignee taskId stamp d u) = true.
Proof.
  unfold assigned, insertAssignee. intros Hd.
  destruct (existsb _ (task_assignees d)) eqn:Hex at 1; [exact Hd|].
  cbn [task_assignees set_task_assignees].
  rewrite existsb_app, Hd. reflexivity.
Qed.

Lemma insertAssignee_assigns (taskId : Z) (stamp nm : jsstring) (d : Db) (x : Z) :
  assigned taskId x (insertAssignee taskId stamp d (nm, Some x)) = true.
Proof.
  unfold assigned, insertAssignee. cbn [snd fst].
  destruct (existsb _ (task_assignees d)) eqn:Hex; [exact Hex|].
  cbn [task_assignees set_task_assignees].
  rewrite existsb_app. simpl. unfold sameAssignee at 2.
  cbn [task_id a_user_id]. rewrite !Z.eqb_refl. simpl. apply orb_true_r.
Qed.

Lemma insertAssignees_assigned (taskId : Z) (stamp : jsstring)
    (users : list (jsstring * option Z)) (d : Db) (t x : Z) :
  assigned t x d = true ->
  assigned t x (fold_left (insertAssignee taskId stamp) users d) = true.
Proof.
  revert d; induction users as [|u users IH]; intros d Hd; simpl; [exact Hd|].
  apply IH, insertAssignee_assigned, Hd.
Qed.

Lemma insertAssignees_assign (taskId : Z) (stamp : jsstring)
    (users : list (jsstring * option Z)) (d : Db) (nm : jsstring) (x : Z) :
  In (nm, Some x) users ->
  assigned taskId x (fold_left (insertAssignee taskId stamp) users d) = true.
Proof.
  revert d; induction users as [|u users IH]; intros d; simpl; [tauto|].
  intros [->|Hin]; [|apply IH, Hin].
  apply insertAssignees_assigned, insertAssignee_assigns.
Qed.

Lemma insertAssignees_again (taskId : Z) (stamp : jsstring)
    (users : list (jsstring * option Z)) (d : Db) :
  (forall nm o, In (nm, o) users ->
     exists x, o = Some x /\ assigned taskId x d = true) ->
  fold_left (insertAssignee taskId stamp) users d
  = set_task_assignees (task_assignees d)
      (seq_task_assignees d + Z.of_nat (length users)) d.
Proof.
  revert d. induction users as [|[nm o] users IH]; intros d Hall.
  - cbn [fold_left length]. rewrite Z.add_0_r. destruct d; reflexivity.
  - cbn [fold_left].
    destruct (Hall nm o) as (x & -> & Hx); [left; reflexivity|].
    assert (Hone : insertAssignee taskId stamp d (nm, Some x)
                   = set_task_assignees (task_assignees d)
                       (seq_task_assignees d + 1) d).
    { unfold insertAssignee. cbv zeta. cbn [snd]. unfold assigned in Hx.
      rewrite Hx. reflexivity. }
    rewrite Hone, IH.
    + unfold set_task_assignees.
      cbn [tasks task_assignees dashboards feed_items seq_tasks
           seq_task_assignees seq_dashboards seq_feed_items length].
      f_equal. lia.
    + intros nm' o' Hin. destruct (Hall nm' o') as (y & -> & Hy);
        [right; exact Hin|].
      exists y. split; [reflexivity | exact Hy].
Qed.

Lemma addAssignees_stored (taskId : Z) (users : list (jsstring * option Z))
    (stamp : jsstring) (d : Db) :
  getTaskById taskId d <> None ->
  addAssignees taskId users stamp d
  = (Returned tt, fold_left (insertAssignee taskId stamp) users d).
Proof.
  intros Hsome. unfold addAssignees.
  destruct users; [reflexivity|].
  destruct (getTaskById taskId d); [reflexivity|congruence].
Qed.

(** X4: after [addAssignees] for a stored task, every listed user is
    assigned to it.  Asking again for the same users stores no row: the
    statement is INSERT OR IGNORE, the tables are as before and each
    ignored insert only uses up one id of the counter of
    [task_assignees].  For a task that is not stored the call throws and
    writes nothing. *)
Theorem addAssignees_idempotent (taskId : Z) (users : list (Z * jsstring))
    (stamp stamp' : jsstring) (d : Db) :
  let rows := List.map (fun m => (snd m, Some (fst m))) users in
  (getTaskById taskId d <> None ->
     let d' := snd (addAssignees taskId rows stamp d) in
     let again := addAssignees taskId rows stamp' d' in
     fst (addAssignees taskId rows stamp d) = Returned tt /\
     (forall u nm, In (u, nm) users -> assigned taskId u d' = true) /\
     tasks d' = tasks d /\
     fst again = Returned tt /\
     task_assignees (snd again) = task_assignees d' /\
     tasks (snd again) = tasks d' /\
     dashboards (snd again) = dashboards d' /\
     feed_items (snd again) = feed_items d' /\
     seq_task_assignees (snd again)
     = seq_task_assignees d' + Z.of_nat (length users)) /\
  (getTaskById taskId d = None -> users <> [] ->
     exists e, addAssignees taskId rows stamp d = (Threw e, d)).
Proof.
  cbv zeta. split.
  - intros Hsome. rewrite (addAssignees_stored _ _ _ _ Hsome). cbn [fst snd].
    assert (Hall : forall u nm, In (u, nm) users ->
              assigned taskId u
                (fold_left (insertAssignee taskId stamp)
                   (List.map (fun m => (snd m, Some (fst m))) users) d) = true).
    { intros u nm Hin. apply (insertAssignees_assign _ _ _ _ nm).
      apply in_map_iff. exists (u, nm). auto. }
    split; [reflexivity|]. split; [exact Hall|].
    split; [apply insertAssignees_tasks|].
    rewrite addAssignees_stored
      by (unfold getTaskById in *; rewrite insertAssignees_tasks; exact Hsome).
    cbn [fst snd]. rewrite insertAssignees_again.
    + rewrite length_map. repeat split.
    + intros nm o Hin. apply in_map_iff in Hin as [[u nm'] [Heq Hin]].
      injection Heq as <- <-. exists u. split; [reflexivity|].
      apply (Hall u nm'), Hin.
  - intros Hnone Hne. unfold addAssignees. rewrite Hnone.
    destruct users as [|u users]; [congruence|]. simpl. eexists. reflexivity.
Qed.

Lemma existsb_filter_keep {A} (p q : A -> bool) (l : list A) :
  (forall a, In a l -> p a = true -> q a = true) ->
  existsb p (List.filter q l) = existsb p l.
Proof.
  induction l as [|a l IH]; intros Hpq; simpl; [reflexivity|].
  rewrite <- IH by (intros; apply Hpq; simpl; auto).
  destruct (q a) eqn:Hq; simpl; [reflexivity|].
  destruct (p a) eqn:Hp; [|reflexivity].
  rewrite (Hpq a) in Hq by (simpl; auto). discriminate.
Qed.

Lemma existsb_filter_drop {A} (p q : A -> bool) (l : list A) :
  (forall a, In a l -> p a = true -> q a = false) ->
  existsb p (List.filter q l) = false.
Proof.
  induction l as [|a l IH]; intros Hpq; simpl; [reflexivity|].
  destruct (q a) eqn:Hq; simpl.
  - destruct (p a) eqn:Hp.
    + rewrite (Hpq a) in Hq by (simpl; auto). discriminate.
    + apply IH. intros; apply Hpq; simpl; auto.
  - apply IH. intros; apply Hpq; simpl; auto.
Qed.

Lemma existsb_eqb_In (x : Z) (l : list Z) :
  existsb (Z.eqb x) l = true <-> In x l.
Proof.
  rewrite existsb_exists. split.
  - intros (y & Hin & Heq). apply Z.eqb_eq in Heq. congruence.
  - intros Hin. exists x. split; [exact Hin|apply Z.eqb_refl].
Qed.

Lemma removeAssignees_drops (taskId : Z) (userIds : list Z) (d : Db) (u : Z) :
  In u userIds -> assigned taskId u (removeAssignees taskId userIds d) = false.
Proof.
  destruct userIds as [|x userIds]; [intros []|]. intros Hin.
  unfold removeAssignees, assigned. cbn [task_assignees set_task_assignees].
  apply existsb_filter_drop. intros a _ Ha.
  unfold sameAssignee in Ha. apply andb_true_iff in Ha as [Ht Hu].
  rewrite Ht. destruct (a_user_id a) as [y|]; [|discriminate].
  apply Z.eqb_eq in Hu. subst y.
  apply existsb_eqb_In in Hin. rewrite Hin. reflexivity.
Qed.

(** X5: [removeAssignees] removes exactly what it is asked: none of the
    listed users is assigned to the task afterwards, every other
    assignment (another task, another user) is as before, and the tasks
    table is not touched. *)
Theorem removeAssignees_exact (taskId : Z) (userIds : list Z) (d : Db) :
  let d' := removeAssignees taskId userIds d in
  (forall u, In u userIds -> assigned taskId u d' = false) /\
  (forall t u, t <> taskId \/ ~ In u userIds ->
     assigned t u d' = assigned t u d) /\
  tasks d' = tasks d.
Proof.
  cbv zeta. split; [intros u; apply removeAssignees_drops|].
  destruct userIds as [|x userIds].
  - simpl. split; reflexivity.
  - unfold removeAssignees, assigned. cbn [task_assignees set_task_assignees tasks].
    split; [|reflexivity].
    intros t u Hother. apply existsb_filter_keep. intros a _ Ha.
    unfold sameAssignee in Ha. apply andb_true_iff in Ha as [Ht Hu].
    destruct (a_user_id a) as [y|]; [|discriminate].
    apply Z.eqb_eq in Ht, Hu. subst y.
    destruct Hother as [Hne|Hnot].
    + assert (E : (task_id a =? taskId) = false) by (apply Z.eqb_neq; lia).
      rewrite E. reflexivity.
    + destruct (existsb (Z.eqb u) (x :: userIds)) eqn:Hex.
      * apply existsb_eqb_In in Hex. tauto.
      * rewrite andb_false_r. reflexivity.
Qed.

(** ** The life of a dashboard *)

Lemma NoDup_map_eq {A B} (f : A -> B) (l : list A) (x y : A) :
  NoDup (List.map f l) -> In x l -> In y l -> f x = f y -> x = y.
Proof.
  induction l as [|a l IH]; simpl; [tauto|].
  intros Hnd Hx Hy Hf. apply NoDup_cons in Hnd as [Hnot Hnd].
  rewrite list_elem_of_In in Hnot.
  destruct Hx as [->|Hx], Hy as [->|Hy]; auto.
  - exfalso. apply Hnot. rewrite Hf. apply in_map, Hy.
  - exfalso. apply Hnot. rewrite <- Hf. apply in_map, Hx.
Qed.

Lemma NoDup_map_filter {A B} (f : A -> B) (p : A -> bool) (l : list A) :
  NoDup (List.map f l) -> NoDup (List.map f (List.filter p l)).
Proof.
  intros Hnd. refine (sublist_NoDup _ _ Hnd _). clear Hnd.
  induction l as [|a l IH]; simpl; [constructor|].
  destruct (p a); simpl; [apply sublist_skip|apply sublist_cons]; exact IH.
Qed.

(** *** The unique location of a dashboard *)

Lemma location_taken (nm ch tp : jsstring) (rows : list DashboardRow) :
  List.find
    (fun r => jseqb (d_name r) nm && jseqb (channel r) ch && jseqb (topic r) tp)
    rows = None ->
  ~ In (nm, ch, tp) (List.map dashboardKey rows).
Proof.
  induction rows as [|r rows IH]; simpl; [tauto|].
  destruct (jseqb (d_name r) nm && jseqb (channel r) ch && jseqb (topic r) tp)
    eqn:E; [discriminate|].
  intros Hnone [Heq|Hin]; [|exact (IH Hnone Hin)].
  unfold dashboardKey in Heq. injection Heq as <- <- <-.
  rewrite !jseqb_same in E. discriminate.
Qed.

(** X6: the name of a dashboard stays unique within its channel and topic:
    [createDashboard] refuses a location that is taken and writes nothing
    then, and neither it nor [deleteDashboard] nor
    [setDashboardBootstrapped] ever leaves two rows with the same name,
    channel and topic. *)
Theorem dashboards_located_kept (d : Db) :
  dashboards_located d ->
  (forall p stamp, dashboards_located (snd (createDashboard p stamp d))) /\
  (forall p stamp,
     getDashboardByNameAndLocation (p_name p) (p_channel p) (p_topic p) d <> None ->
     exists e, createDashboard p stamp d = (Threw e, d)) /\
  (forall id, dashboards_located (deleteDashboard id d)) /\
  (forall id, dashboards_located (setDashboardBootstrapped id d)).
Proof.
  unfold dashboards_located. intros Hd.
  split; [|split; [|split]].
  - intros p stamp. unfold createDashboard.
    destruct (getDashboardByNameAndLocation _ _ _ d) eqn:Hfind; [exact Hd|].
    cbn [snd dashboards set_dashboards]. rewrite List.map_app.
    apply NoDup_app. split; [exact Hd|]. split; [|apply NoDup_singleton].
    intros k Hk Hin. apply list_elem_of_In in Hk, Hin.
    destruct Hin as [<-|[]].
    exact (location_taken _ _ _ _ Hfind Hk).
  - intros p stamp Hsome. unfold createDashboard.
    destruct (getDashboardByNameAndLocation _ _ _ d); [|congruence].
    eexists. reflexivity.
  - intros id. unfold deleteDashboard. cbn [dashboards set_dashboards].
    apply NoDup_map_filter, Hd.
  - intros id. unfold setDashboardBootstrapped. cbn [dashboards set_dashboards].
    rewrite List.map_map.
    erewrite List.map_ext; [exact Hd|].
    intros r. destruct (d_id r =? id); reflexivity.
Qed.

(** *** Timers and intervals *)

Lemma armTimer_consistent (row : DashboardRow) (w : World) :
  timers w !! d_id row = None ->
  timers_consistent w ->
  timers_consistent (snd (Dashboards.armTimer row w)).
Proof.
  intros Hfree (Hmap & Hh & Hid & Hlt).
  unfold Dashboards.armTimer, modify, timers_consistent.
  cbn [snd timers intervals next_handle set_timers].
  split; [|split; [|split]].
  - intros id h. split.
    + intros Hlook. destruct (decide (id = d_id row)) as [->|Hne].
      * rewrite lookup_insert_eq in Hlook. injection Hlook as <-.
        eexists. split; [apply in_or_app; right; left; reflexivity|].
        split; reflexivity.
      * rewrite lookup_insert_ne in Hlook by congruence.
        apply Hmap in Hlook as (i & Hin & Hi).
        exists i. split; [apply in_or_app; left; exact Hin|exact Hi].
    + intros (i & Hin & <- & <-). apply in_app_or in Hin as [Hin|[<-|[]]].
      * assert (Hold : timers w !! tickedId i = Some (handle i)).
        { apply Hmap. exists i. auto. }
        destruct (decide (tickedId i = d_id row)) as [Heq|Hne].
        -- rewrite Heq in Hold. congruence.
        -- rewrite lookup_insert_ne by congruence. exact Hold.
      * unfold tickedId. cbn [i_row handle]. apply lookup_insert_eq.
  - rewrite List.map_app. apply NoDup_app. split; [exact Hh|].
    split; [|apply NoDup_singleton].
    intros h Hin1 Hin2. apply list_elem_of_In in Hin1, Hin2.
    destruct Hin2 as [<-|[]]. cbn [handle] in Hin1.
    apply in_map_iff in Hin1 as (i & Heq & Hin).
    rewrite List.Forall_forall in Hlt. specialize (Hlt i Hin). lia.
  - rewrite List.map_app. apply NoDup_app. split; [exact Hid|].
    split; [|apply NoDup_singleton].
    intros id Hin1 Hin2. apply list_elem_of_In in Hin1, Hin2.
    destruct Hin2 as [<-|[]]. unfold tickedId at 1 in Hin1. cbn [i_row] in Hin1.
    apply in_map_iff in Hin1 as (i & Heq & Hin).
    assert (Hold : timers w !! tickedId i = Some (handle i)).
    { apply Hmap. exists i. auto. }
    rewrite Heq in Hold. congruence.
  - apply Forall_app. split.
    + rewrite List.Forall_forall in *. intros i Hin.
      specialize (Hlt i Hin). lia.
    + constructor; [cbn [handle]; lia|constructor].
Qed.

Lemma clearTimer_consistent (id timer : Z) (w : World) :
  timers w !! id = Some timer ->
  timers_consistent w ->
  timers_consistent (snd (Dashboards.clearTimer id timer w)).
Proof.
  intros Hheld (Hmap & Hh & Hid & Hlt).
  unfold Dashboards.clearTimer, modify, timers_consistent.
  cbn [snd timers intervals next_handle set_timers].
  destruct (proj1 (Hmap id timer) Hheld) as (j & Hj & Hjh & Hjid).
  split; [|split; [|split]].
  - intros id' h. split.
    + intros Hlook. destruct (decide (id' = id)) as [->|Hne].
      * rewrite lookup_delete_eq in Hlook. discriminate.
      * rewrite lookup_delete_ne in Hlook by congruence.
        apply Hmap in Hlook as (i & Hin & Hih & Hiid).
        exists i. split; [|auto].
        apply filter_In. split; [exact Hin|].
        apply negb_true_iff, Z.eqb_neq. intros Heq.
        assert (i = j).
        { apply (NoDup_map_eq handle (intervals w)); auto. congruence. }
        subst i. congruence.
    + intros (i & Hin & <- & <-). apply filter_In in Hin as [Hin Hkeep].
      apply negb_true_iff, Z.eqb_neq in Hkeep.
      assert (Hold : timers w !! tickedId i = Some (handle i)).
      { apply Hmap. exists i. auto. }
      destruct (decide (tickedId i = id)) as [Heq|Hne].
      * rewrite Heq in Hold. congruence.
      * rewrite lookup_delete_ne by congruence. exact Hold.
  - apply NoDup_map_filter, Hh.
  - apply NoDup_map_filter, Hid.
  - rewrite List.Forall_forall in *. intros i Hin. apply Hlt.
    apply filter_In in Hin. tauto.
Qed.

Lemma stopAndCleanup_run (row : DashboardRow) (w : World) :
  Dashboards.stopAndCleanup row w
  = (Returned tt,
     set_db (deleteDashboard (d_id row) (db w))
       (match timers w !! d_id row with
        | Some timer => snd (Dashboards.clearTimer (d_id row) timer w)
        | None => w
        end)).
Proof.
  unfold Dashboards.stopAndCleanup, bind, get, dbWrite.
  destruct (timers w !! d_id row); reflexivity.
Qed.

Lemma stopAndCleanup_consistent (row : DashboardRow) (w : World) :
  timers_consistent w ->
  timers_consistent (snd (Dashboards.stopAndCleanup row w)).
Proof.
  intros Hw. rewrite stopAndCleanup_run. cbn [snd].
  destruct (timers w !! d_id row) as [timer|] eqn:Hheld; [|exact Hw].
  apply (clearTimer_consistent _ _ _ Hheld) in Hw. exact Hw.
Qed.

(** X7: the [timers] map and the live intervals never drift apart: if they
    agree, they still agree after [startTimer] and after [stopAndCleanup],
    and then no row is ticked by more than one interval. *)
Theorem timers_consistent_kept (registry : Registry) (ctx : ServiceContext)
    (row : DashboardRow) (immediate : bool) (w : World) :
  timers_consistent w ->
  timers_consistent (snd (Dashboards.startTimer registry row ctx immediate w)) /\
  timers_consistent (snd (Dashboards.stopAndCleanup row w)) /\
  (forall id, (countIntervals id (intervals w) <= 1)%nat).
Proof.
  intros Hw. split; [|split].
  - unfold Dashboards.startTimer, bind, get.
    destruct (timers w !! d_id row) as [h|] eqn:Hheld; [exact Hw|].
    destruct immediate; [|apply armTimer_consistent; assumption].
    unfold Dashboards.startTick.
    destruct (registryGet registry (d_name row)).
    + unfold spawn, modify. apply armTimer_consistent; assumption.
    + rewrite stopAndCleanup_run, Hheld.
      apply armTimer_consistent; [exact Hheld|exact Hw].
  - apply stopAndCleanup_consistent, Hw.
  - intros id. destruct Hw as (_ & _ & Hid & _).
    unfold countIntervals. revert Hid.
    induction (intervals w) as [|i l IH]; simpl; [lia|].
    intros Hnd. apply NoDup_cons in Hnd as [Hnot Hnd].
    specialize (IH Hnd). fold (tickedId i).
    destruct (tickedId i =? id) eqn:E; [|exact IH].
    apply Z.eqb_eq in E. simpl.
    assert (Hnone : List.filter (fun i0 => d_id (i_row i0) =? id) l = []).
    { clear IH Hnd. induction l as [|k l IHl]; simpl; [reflexivity|].
      fold (tickedId k). destruct (tickedId k =? id) eqn:Ek.
      - exfalso. apply Hnot. apply Z.eqb_eq in Ek.
        apply list_elem_of_In. left. congruence.
      - apply IHl. intros Hin. apply Hnot.
        apply list_elem_of_In. right. apply list_elem_of_In, Hin. }
    rewrite Hnone. simpl. lia.
Qed.

(** *** Stopping *)

Lemma hasDashboard_In (r : DashboardRow) (d : Db) :
  In r (dashboards d) -> hasDashboard (d_id r) d = true.
Proof.
  intros Hin. unfold hasDashboard. apply existsb_exists.
  exists r. split; [exact Hin|apply Z.eqb_refl].
Qed.

Lemma existsb_filter {A} (p q : A -> bool) (l : list A) :
  existsb p (List.filter q l) = existsb (fun a => q a && p a) l.
Proof.
  induction l as [|a l IH]; simpl; [reflexivity|].
  destruct (q a); simpl; rewrite IH; reflexivity.
Qed.

Lemma hasDashboard_deleted (id id' : Z) (d : Db) :
  hasDashboard id (deleteDashboard id' d)
  = hasDashboard id d && negb (id =? id').
Proof.
  unfold hasDashboard, deleteDashboard. cbn [dashboards set_dashboards].
  rewrite existsb_filter.
  destruct (id =? id') eqn:E.
  - apply Z.eqb_eq in E. subst id'. rewrite andb_false_r.
    induction (dashboards d) as [|r rows IH]; [reflexivity|].
    simpl. rewrite IH. destruct (d_id r =? id); reflexivity.
  - rewrite andb_true_r. apply Z.eqb_neq in E.
    induction (dashboards d) as [|r rows IH]; [reflexivity|].
    simpl. rewrite IH. destruct (d_id r =? id) eqn:E1;
      [|rewrite andb_false_r; reflexivity].
    apply Z.eqb_eq in E1.
    assert (E2 : (d_id r =? id') = false) by (apply Z.eqb_neq; lia).
    rewrite E2. reflexivity.
Qed.

Lemma feedItemSeen_deleted (id id' : Z) (g : jsstring) (d : Db) :
  feedItemSeen id g (deleteDashboard id' d)
  = feedItemSeen id g d && negb (id =? id').
Proof.
  unfold feedItemSeen, deleteDashboard. cbn [feed_items set_dashboards].
  rewrite existsb_filter.
  destruct (id =? id') eqn:E.
  - apply Z.eqb_eq in E. subst id'. rewrite andb_false_r.
    induction (feed_items d) as [|f items IH]; [reflexivity|].
    simpl. rewrite IH. destruct (dashboard_id f =? id); reflexivity.
  - rewrite andb_true_r. apply Z.eqb_neq in E.
    induction (feed_items d) as [|f items IH]; [reflexivity|].
    simpl. rewrite IH. destruct (dashboard_id f =? id) eqn:E1;
      [|rewrite andb_false_r; reflexivity].
    apply Z.eqb_eq in E1.
    assert (E2 : (dashboard_id f =? id') = false) by (apply Z.eqb_neq; lia).
    rewrite E2. reflexivity.
Qed.

Lemma timers_stopped (row : DashboardRow) (w : World) (id : Z) :
  timers (snd (Dashboards.stopAndCleanup row w)) !! id
  = if id =? d_id row then None else timers w !! id.
Proof.
  rewrite stopAndCleanup_run. cbn [snd timers set_db].
  destruct (id =? d_id row) eqn:E.
  - apply Z.eqb_eq in E. subst id.
    destruct (timers w !! d_id row) as [timer|] eqn:Hheld; [|exact Hheld].
    unfold Dashboards.clearTimer, modify. cbn [snd timers set_timers].
    apply lookup_delete_eq.
  - apply Z.eqb_neq in E.
    destruct (timers w !! d_id row) as [timer|]; [|reflexivity].
    unfold Dashboards.clearTimer, modify. cbn [snd timers set_timers].
    apply lookup_delete_ne. congruence.
Qed.

Lemma db_stopped (row : DashboardRow) (w : World) :
  db (snd (Dashboards.stopAndCleanup row w))
  = deleteDashboard (d_id row) (db w).
Proof.
  rewrite stopAndCleanup_run. cbn [snd db set_db].
  destruct (timers w !! d_id row); reflexivity.
Qed.

Lemma log_stopped (row : DashboardRow) (w : World) :
  log (snd (Dashboards.stopAndCleanup row w)) = log w.
Proof.
  rewrite stopAndCleanup_run. cbn [snd log set_db].
  destruct (timers w !! d_id row); reflexivity.
Qed.

Lemma gone_stopped (row : DashboardRow) (w : World) :
  gone (d_id row) (snd (Dashboards.stopAndCleanup row w)).
Proof.
  unfold gone. rewrite db_stopped, timers_stopped, hasDashboard_deleted.
  rewrite !Z.eqb_refl. split; [apply andb_false_r|]. split; [|reflexivity].
  intros g. rewrite feedItemSeen_deleted, Z.eqb_refl. apply andb_false_r.
Qed.

Lemma gone_stays (id : Z) (row : DashboardRow) (w : World) :
  gone id w -> gone id (snd (Dashboards.stopAndCleanup row w)).
Proof.
  unfold gone. intros (Hrow & Hitems & Htimer).
  rewrite db_stopped, timers_stopped, hasDashboard_deleted, Hrow, Htimer.
  split; [reflexivity|]. split; [|destruct (id =? d_id row); reflexivity].
  intros g. rewrite feedItemSeen_deleted, Hitems. reflexivity.
Qed.

(** X8: [stopAndCleanup] always returns and issues no request; afterwards
    the dashboard is gone (no row, no feed item, no timer), and when the
    timers were consistent no interval ticks it any more; every other
    dashboard keeps its row, its feed items and its timer. *)
Theorem stopAndCleanup_clears (row : DashboardRow) (w : World) :
  let w' := snd (Dashboards.stopAndCleanup row w) in
  fst (Dashboards.stopAndCleanup row w) = Returned tt /\
  log w' = log w /\
  gone (d_id row) w' /\
  (timers_consistent w -> countIntervals (d_id row) (intervals w') = 0%nat) /\
  (forall id, id <> d_id row ->
     timers w' !! id = timers w !! id /\
     hasDashboard id (db w') = hasDashboard id (db w) /\
     forall g, feedItemSeen id g (db w') = feedItemSeen id g (db w)).
Proof.
  cbv zeta. split; [rewrite stopAndCleanup_run; reflexivity|].
  split; [apply log_stopped|]. split; [apply gone_stopped|]. split.
  - intros Hw. pose proof (stopAndCleanup_consistent row w Hw) as (Hmap & _).
    pose proof (gone_stopped row w) as (_ & _ & Hnone).
    unfold countIntervals.
    destruct (List.filter _ _) as [|i rest] eqn:Hf; [reflexivity|].
    exfalso.
    assert (Hin : In i (List.filter (fun i => d_id (i_row i) =? d_id row)
                     (intervals (snd (Dashboards.stopAndCleanup row w))))).
    { rewrite Hf. left. reflexivity. }
    apply filter_In in Hin as [Hin Hid]. apply Z.eqb_eq in Hid.
    assert (Hsome : timers (snd (Dashboards.stopAndCleanup row w)) !! d_id row
                    = Some (handle i)).
    { apply Hmap. exists i. auto. }
    congruence.
  - intros id Hne.
    assert (E : (id =? d_id row) = false) by (apply Z.eqb_neq; exact Hne).
    rewrite timers_stopped, db_stopped, hasDashboard_deleted, E.
    split; [reflexivity|]. split; [apply andb_true_r|].
    intros g. rewrite feedItemSeen_deleted, E. apply andb_true_r.
Qed.


Lemma gone_log (id : Z) (l : list Call) (w : World) :
  gone id w -> gone id (set_log l w).
Proof. intros Hw. exact Hw. Qed.

Lemma stop_loop (rows : list DashboardRow) (w : World) :
  exists w',
    for_each rows stopOne w = (Returned tt, w') /\
    gateway w' = gateway w /\
    tasks (db w') = tasks (db w) /\
    task_assignees (db w') = task_assignees (db w) /\
    (forall id, gone id w -> gone id w') /\
    (forall row, In row rows -> gone (d_id row) w') /\
    (forall r, In r (dashboards (db w')) -> In r (dashboards (db w))) /\
    log w' = log w ++ List.map (fun row => deleteMessage (msg_id row)) rows.
Proof.
  revert w; induction rows as [|row rows IH]; intros w.
  - exists w. simpl. unfold ret. rewrite app_nil_r.
    do 4 (split; [reflexivity|]). split; [auto|].
    split; [intros row []|]. split; [auto|reflexivity].
  - set (w1 := snd (stopOne row w)).
    assert (Hone : stopOne row w = (Returned tt, w1)).
    { unfold w1, stopOne, bind, call_ignore.
      rewrite stopAndCleanup_run. reflexivity. }
    assert (Hw1 : w1 = snd (Dashboards.stopAndCleanup row
                         (set_log (log w ++ [deleteMessage (msg_id row)]) w))).
    { unfold w1, stopOne, bind, call_ignore. reflexivity. }
    destruct (IH w1) as (w' & Hrun & Hgw & Htasks & Hass & Hkeep & Hrows & Hsub & Hlog).
    exists w'. cbn [for_each]. unfold bind at 1. rewrite Hone.
    split; [exact Hrun|].
    split; [rewrite Hgw, Hw1, stopAndCleanup_run; cbn [snd gateway set_db];
            destruct (timers _ !! _); reflexivity|].
    split; [rewrite Htasks, Hw1, db_stopped; reflexivity|].
    split; [rewrite Hass, Hw1, db_stopped; reflexivity|].
    split; [intros id Hid; apply Hkeep; rewrite Hw1; apply gone_stays, Hid|].
    split.
    + intros r [<-|Hin]; [|apply Hrows, Hin].
      apply Hkeep. rewrite Hw1. apply gone_stopped.
    + split.
      * intros r Hin. apply Hsub in Hin. rewrite Hw1, db_stopped in Hin.
        unfold deleteDashboard in Hin. cbn [dashboards set_dashboards] in Hin.
        apply filter_In in Hin. tauto.
      * assert (Hl1 : log w1 = log w ++ [deleteMessage (msg_id row)]).
        { rewrite Hw1, log_stopped. reflexivity. }
        rewrite Hlog, Hl1, <- app_assoc. reflexivity.
Qed.

Lemma handleStop_run (name : option jsstring) (msg : ZulipMessage)
    (ctx : ServiceContext) (w : World) :
  let ch := display_recipient msg in
  let tp := subject msg in
  snd (DashboardCommands.handleStop name msg ctx w)
  = match selected name ch tp (db w) with
    | [] =>
        set_log (log w ++ [MessagesSend ch tp (DashboardCommands.noneFound name)]) w
    | rows =>
        let w1 := snd (for_each rows stopOne w) in
        set_log
          (log w1 ++
           [MessagesSend ch tp
              (stopped (List.map (fun r => lit "`" ++ d_name r ++ lit "`") rows))])
          w1
    end.
Proof.
  cbv zeta.
  assert (Hsel : DashboardCommands.selectRows name (display_recipient msg)
                   (subject msg) w
                 = (Returned (selected name (display_recipient msg)
                                (subject msg) (db w)), w)).
  { unfold DashboardCommands.selectRows, selected.
    destruct name as [[|c nm]|]; reflexivity. }
  unfold DashboardCommands.handleStop. unfold bind at 1. rewrite Hsel.
  destruct (selected name (display_recipient msg) (subject msg) (db w))
    as [|row rows].
  - unfold bind, call, ret. destruct (gateway w (log w) _); reflexivity.
  - destruct (stop_loop (row :: rows) w) as (w1 & Hrun & _).
    change (for_each (row :: rows) _) with (for_each (row :: rows) stopOne).
    unfold bind at 1. rewrite Hrun. cbn [snd].
    unfold bind, call, ret, stopped.
    destruct (gateway w1 (log w1) _); reflexivity.
Qed.

(** X9: [handleStop] stops every dashboard it selects, whatever the
    gateway answers: their rows, feed items and timers are gone, one
    DELETE is requested for each of their messages, in order, before the
    confirmation is posted; without a name, no dashboard is left in the
    topic.  Tasks are not touched. *)
Theorem handleStop_stops (name : option jsstring) (msg : ZulipMessage)
    (ctx : ServiceContext) (w : World) :
  let ch := display_recipient msg in
  let tp := subject msg in
  let rows := selected name ch tp (db w) in
  let w' := snd (DashboardCommands.handleStop name msg ctx w) in
  (forall row, In row rows -> gone (d_id row) w') /\
  (name = None -> getDashboardsByChannelTopic ch tp (db w') = []) /\
  (exists last,
     issued w w' = List.map (fun row => deleteMessage (msg_id row)) rows
                   ++ [MessagesSend ch tp last]) /\
  tasks (db w') = tasks (db w) /\
  task_assignees (db w') = task_assignees (db w).
Proof.
  cbv zeta. rewrite handleStop_run. cbv zeta.
  destruct (selected name (display_recipient msg) (subject msg) (db w))
    as [|row rows] eqn:Hrows.
  - cbn [db set_log].
    split; [intros row []|]. split.
    + intros ->. exact Hrows.
    + split; [|split; reflexivity].
      eexists. unfold issued. cbn [log set_log].
      rewrite drop_app_length. reflexivity.
  - destruct (stop_loop (row :: rows) w)
      as (w1 & Hrun & Hgw & Htasks & Hass & _ & Hgone & Hsub & Hlog).
    rewrite Hrun. cbn [snd db set_log].
    split; [intros r Hin; apply gone_log, Hgone, Hin|]. split.
    + intros ->. unfold getDashboardsByChannelTopic.
      destruct (List.filter _ (dashboards (db w1))) as [|r rest] eqn:Hf;
        [reflexivity|].
      exfalso.
      assert (Hin : In r (List.filter
                (fun r => jseqb (channel r) (display_recipient msg)
                          && jseqb (topic r) (subject msg))
                (dashboards (db w1)))) by (rewrite Hf; left; reflexivity).
      apply filter_In in Hin as [Hin Hloc].
      assert (Hsel' : In r (row :: rows)).
      { rewrite <- Hrows. unfold selected, getDashboardsByChannelTopic.
        apply filter_In. split; [apply Hsub, Hin|exact Hloc]. }
      destruct (Hgone r Hsel') as (Hnone & _).
      rewrite (hasDashboard_In r (db w1) Hin) in Hnone. discriminate.
    + split; [|split; assumption].
      eexists. unfold issued. cbn [log set_log].
      rewrite Hlog, <- app_assoc, drop_app_length. reflexivity.
Qed.


(** *** Ticks *)

Section Ticks.
Context `{Externals}.

(** What a tick does for a known producer, by the outcome of the
    producer and of the edit. *)
Lemma tickKnown_run (def : DashboardDef) (row : DashboardRow)
    (ctx : ServiceContext) (w : World) :
  Dashboards.tickKnown def row ctx w
  = match fetch def (params row) ctx row w with
    | (Returned (content, row'), w1) =>
        let edit := patchMessage (msg_id row') content in
        let w2 := set_log (log w1 ++ [edit]) w1 in
        (Returned row',
         match gateway w1 (log w1) edit with
         | Rejected _ => w2
         | Resolved res =>
             if jseqb (res_result res) (lit "success") then w2
             else snd (Dashboards.stopAndCleanup row' w2)
         end)
    | (Threw _, w1) => (Returned row, w1)
    | (Hangs, w1) => (Hangs, w1)
    end.
Proof.
  unfold Dashboards.tickKnown. unfold bind at 1. unfold try_catch at 1.
  unfold bind at 1.
  destruct (fetch def (params row) ctx row w) as [[[content row']|e|] w1];
    [|reflexivity|reflexivity].
  unfold ret at 1. cbv zeta. unfold try_catch, bind at 1, call.
  destruct (gateway w1 (log w1) (patchMessage (msg_id row') content)) as [e|res];
    [reflexivity|].
  unfold bind.
  destruct (jseqb (res_result res) (lit "success")); [reflexivity|].
  rewrite stopAndCleanup_run. reflexivity.
Qed.

(** X10: a tick never throws.  A producer that is not registered tears the
    instance down.  For a registered producer, the instance is torn down
    exactly when the gateway answers the edit with a result other than
    "success"; when the producer throws or the edit is rejected nothing is
    removed, and the tick leaves the world as the failed step left it.
    The row object keeps what the producer wrote to it, also when the
    edit is rejected: only a producer that throws leaves the row as it
    was given. *)
Theorem tickDashboard_outcomes (registry : Registry) (ctx : ServiceContext)
    (row : DashboardRow) (w : World) :
  (forall e, fst (Dashboards.tickDashboard registry row ctx w) <> Threw e) /\
  (registryGet registry (d_name row) = None ->
     Dashboards.tickDashboard registry row ctx w
     = (Returned row, snd (Dashboards.stopAndCleanup row w))) /\
  (forall def, registryGet registry (d_name row) = Some def ->
     (forall e w1, fetch def (params row) ctx row w = (Threw e, w1) ->
        Dashboards.tickDashboard registry row ctx w = (Returned row, w1)) /\
     (forall content row' w1,
        fetch def (params row) ctx row w = (Returned (content, row'), w1) ->
        let edit := patchMessage (msg_id row') content in
        let w2 := set_log (log w1 ++ [edit]) w1 in
        Dashboards.tickDashboard registry row ctx w
        = (Returned row',
           match gateway w1 (log w1) edit with
           | Rejected _ => w2
           | Resolved res =>
               if jseqb (res_result res) (lit "success") then w2
               else snd (Dashboards.stopAndCleanup row' w2)
           end))).
Proof.
  unfold Dashboards.tickDashboard.
  split; [|split].
  - intros e. destruct (registryGet registry (d_name row)) as [def|].
    + rewrite tickKnown_run.
      destruct (fetch def (params row) ctx row w) as [[[content row']|e'|] w1];
        cbn [fst]; discriminate.
    + unfold bind. rewrite stopAndCleanup_run. simpl. discriminate.
  - intros ->. unfold bind. rewrite stopAndCleanup_run. reflexivity.
  - intros def ->. rewrite tickKnown_run. split.
    + intros e w1 Hfetch. rewrite Hfetch. reflexivity.
    + intros content row' w1 Hfetch. rewrite Hfetch. reflexivity.
Qed.

(** X11: [handleStart] turns a request down with one message and nothing
    else: when the producer is not registered, when its parameters are
    not valid, and when a dashboard of that name already runs in the
    topic, the store, the timers and the queued ticks are as before. *)
Theorem handleStart_rejects (registry : Registry) (ctx : ServiceContext)
    (argRaw : jsstring) (msg : ZulipMessage) (w : World) :
  let name := hd [] (Dashboards.words [] argRaw) in
  let dashParams := join (lit " ") (tl (Dashboards.words [] argRaw)) in
  let ch := display_recipient msg in
  let tp := subject msg in
  (registryGet registry name = None
   \/ (exists def validate c err,
         registryGet registry name = Some def /\
         validateParams def = Some validate /\
         validate dashParams = Some (c :: err))
   \/ (registryGet registry name <> None /\
       getDashboardByNameAndLocation name ch tp (db w) <> None)) ->
  exists notice,
    snd (Dashboards.handleStart registry argRaw msg ctx w)
    = set_log (log w ++ [MessagesSend ch tp notice]) w.
Proof.
  cbv zeta. unfold Dashboards.handleStart.
  assert (Hsend : forall body,
            snd ((_ <- call (MessagesSend (display_recipient msg) (subject msg)
                               body) ;; ret tt) w)
            = set_log (log w ++ [MessagesSend (display_recipient msg)
                                   (subject msg) body]) w).
  { intros body. unfold bind, call, ret.
    destruct (gateway w (log w) _); reflexivity. }
  intros [Hnone|[(def & validate & c & err & Hdef & Hval & Hbad)|[Hsome Htaken]]].
  - rewrite Hnone. eexists. apply Hsend.
  - rewrite Hdef, Hval, Hbad. eexists. apply Hsend.
  - destruct (registryGet registry _) as [def|]; [|congruence].
    destruct (match validateParams def with
              | Some validate => validate _
              | None => None
              end) as [[|c err]|].
    + unfold bind at 1, dbRead.
      destruct (getDashboardByNameAndLocation _ _ _ (db w)); [|congruence].
      eexists. apply Hsend.
    + eexists. apply Hsend.
    + unfold bind at 1, dbRead.
      destruct (getDashboardByNameAndLocation _ _ _ (db w)); [|congruence].
      eexists. apply Hsend.
Qed.

End Ticks.

(** ** Messages, answers and polls *)

(** *** Chunks *)

Lemma trimStart_idem (s : jsstring) : trimStart (trimStart s) = trimStart s.
Proof.
  induction s as [|c s IH]; simpl; [reflexivity|].
  destruct (is_ws c) eqn:Hc; [exact IH|]. simpl. rewrite Hc. reflexivity.
Qed.

Lemma trimEnd_idem (s : jsstring) : ends_clean (trimEnd s).
Proof.
  unfold ends_clean, trimEnd. rewrite rev_involutive, trimStart_idem.
  reflexivity.
Qed.

Lemma trimStart_clean (s : jsstring) :
  trimStart s = [] \/ starts_clean (trimStart s).
Proof.
  induction s as [|c s IH]; simpl; [left; reflexivity|].
  destruct (is_ws c) eqn:Hc; [exact IH|]. right. exact Hc.
Qed.

Lemma trimEnd_starts (s : jsstring) : starts_clean s -> starts_clean (trimEnd s).
Proof.
  destruct s as [|c s]; [intros []|]. simpl. intros Hc.
  destruct (trimEnd_split (c :: s)) as (g & Hg & Hs).
  destruct (trimEnd (c :: s)) as [|x t].
  - simpl in Hs. subst g. unfold all_ws in Hg. simpl in Hg.
    rewrite Hc in Hg. discriminate.
  - simpl in Hs. injection Hs as <- _. exact Hc.
Qed.

Lemma firstn_starts (n : nat) (s : jsstring) :
  (1 <= n)%nat -> starts_clean s -> starts_clean (firstn n s).
Proof.
  destruct n as [|n]; [lia|]. destruct s as [|c s]; [intros _ []|].
  intros _ Hc. exact Hc.
Qed.

Lemma splitLoop_trimmed (fuel : nat) (maxLen : Z) :
  0 < maxLen ->
  forall chunks remaining chunks' remaining',
  remaining = [] \/ starts_clean remaining ->
  splitLoop fuel chunks remaining maxLen = Some (chunks', remaining') ->
  exists new,
    chunks' = chunks ++ new /\
    Forall starts_clean new /\ Forall ends_clean new /\
    (remaining' = [] \/ starts_clean remaining').
Proof.
  intros Hpos. induction fuel as [|fuel IH];
    intros chunks remaining chunks' remaining' Hclean; simpl;
    destruct (jslen remaining >? maxLen) eqn:E; intros Hrun;
    try discriminate.
  - injection Hrun as <- <-. exists []. rewrite app_nil_r. auto.
  - apply Z.gtb_lt in E.
    destruct (IH _ _ _ _ (trimStart_clean _) Hrun)
      as (new & -> & Hs & He & Hr).
    exists (trimEnd (slice remaining 0 (splitIdx remaining maxLen)) :: new).
    rewrite <- app_assoc. split; [reflexivity|].
    split; [|split; [|exact Hr]].
    + constructor; [|exact Hs].
      pose proof (splitIdx_range remaining maxLen Hpos) as Hi.
      rewrite slice_prefix by lia.
      apply trimEnd_starts, firstn_starts; [lia|].
      destruct Hclean as [->|Hc]; [|exact Hc].
      unfold jslen in E. simpl in E. lia.
    + constructor; [apply trimEnd_idem|exact He].
  - injection Hrun as <- <-. exists []. rewrite app_nil_r. auto.
Qed.

(** X12: when a text is too long for one message, no follow-up chunk is
    empty or begins with whitespace, and no chunk before the last one
    ends with whitespace: every cut is trimmed on both sides. *)
Theorem splitMessage_trimmed (content : jsstring) (maxLen : Z) :
  0 < maxLen -> jslen content > maxLen ->
  exists first rest,
    splitMessage content maxLen = Some (first :: rest) /\
    Forall starts_clean rest /\
    Forall ends_clean (removelast (first :: rest)).
Proof.
  intros Hpos Hlen. unfold splitMessage.
  destruct (jslen content <=? maxLen) eqn:E; [apply Z.leb_le in E; lia|].
  destruct (splitLoop_total (S (length content)) [] content maxLen Hpos
              ltac:(lia)) as ([chunks remaining] & Hloop).
  rewrite Hloop. cbn [splitLoop] in Hloop.
  assert (Hgt : (jslen content >? maxLen) = true) by (apply Z.gtb_lt; lia).
  rewrite Hgt in Hloop. cbn [app] in Hloop.
  destruct (splitLoop_trimmed _ _ Hpos _ _ _ _ (trimStart_clean _) Hloop)
    as (new & -> & Hs & He & Hr).
  set (first := trimEnd (slice content 0 (splitIdx content maxLen))) in *.
  cbn [app]. exists first.
  destruct (jslen remaining >? 0) eqn:E0.
  - exists (new ++ [remaining]). split; [reflexivity|]. split.
    + apply Forall_app. split; [exact Hs|]. constructor; [|constructor].
      destruct Hr as [->|Hr]; [discriminate|exact Hr].
    + rewrite app_comm_cons, removelast_last.
      constructor; [apply trimEnd_idem|exact He].
  - exists new. split; [reflexivity|]. split; [exact Hs|].
    assert (Hall : Forall ends_clean (first :: new))
      by (constructor; [apply trimEnd_idem|exact He]).
    revert Hall. generalize (first :: new). intros l Hall.
    induction Hall as [|x l Hx Hall IH]; [constructor|].
    destruct l as [|y l]; [constructor|].
    change (removelast (x :: y :: l)) with (x :: removelast (y :: l)).
    constructor; [exact Hx|exact IH].
Qed.


(** X13: [sendMessage] always comes back when the gateway accepts new
    messages: it posts the chunks of [splitMessage] in order, at least
    one and none longer than the limit, and nothing else; a text within
    the limit, even an empty one, is posted as it is. *)
Theorem sendMessage_posts (channel topic content : jsstring) (w : World) :
  accepts_posts w ->
  exists chunks,
    splitMessage content MAX_MESSAGE_LENGTH = Some chunks /\
    chunks <> [] /\
    Forall (fun c => jslen c <= MAX_MESSAGE_LENGTH) chunks /\
    (jslen content <= MAX_MESSAGE_LENGTH -> chunks = [content]) /\
    sendMessage channel topic content w
    = (Returned tt,
       set_log (log w ++ List.map (MessagesSend channel topic) chunks) w).
Proof.
  intros Hacc. unfold sendMessage.
  destruct (Z_le_gt_dec (jslen content) MAX_MESSAGE_LENGTH) as [Hle|Hgt].
  - exists [content]. unfold splitMessage.
    assert (E : (jslen content <=? MAX_MESSAGE_LENGTH) = true)
      by (apply Z.leb_le; exact Hle).
    rewrite E. split; [reflexivity|]. split; [discriminate|].
    split; [constructor; [exact Hle|constructor]|]. split; [reflexivity|].
    apply sendChunks_accepted, Hacc.
  - destruct (splitMessage_spec content MAX_MESSAGE_LENGTH ltac:(reflexivity) Hgt)
      as (first & rest & gaps & Hsplit & Hfit & _).
    exists (first :: rest). rewrite Hsplit.
    split; [reflexivity|]. split; [discriminate|]. split; [exact Hfit|].
    split; [lia|]. apply sendChunks_accepted, Hacc.
Qed.

(** *** Streaming updates *)

(** X14: on a live composer, [update] requests an edit exactly when the
    text has gained at least 40 words since the last edit; the edit then
    carries the whole text and the count restarts from it, otherwise the
    text is only kept for later.  From the first update on, the spinner
    is stopped for good: its tick does nothing. *)
Theorem update_throttle (content : jsstring) (c : Composer) (w : World) :
  finalized c = false ->
  exists c' w',
    update content (c, w) = (Returned tt, (c', w')) /\
    finalized c' = false /\ textStarted c' = true /\
    spinnerTimer c' = textStarted c && spinnerTimer c /\
    messageId c' = messageId c /\
    spinnerTick (c', w') = (Returned tt, (c', w')) /\
    if countWords content - lastFlushedWordCount c >=? WORD_FLUSH_THRESHOLD
    then
      w' = set_log (log w ++ [patchMessage (messageId c) content]) w /\
      lastFlushedWordCount c' = countWords content /\
      latestContent c' = None
    else
      w' = w /\
      lastFlushedWordCount c' = lastFlushedWordCount c /\
      latestContent c' = Some content.
Proof.
  intros Hlive. unfold update, flush, bind, getC, modifyC, ret, liftW,
    call_ignore. cbn [fst snd]. rewrite Hlive.
  destruct (textStarted c) eqn:Hstarted; cbn [negb fst snd];
    cbn [setLatest startText lastFlushedWordCount finalized];
    rewrite ?Hlive;
    destruct (countWords content - lastFlushedWordCount c
              >=? WORD_FLUSH_THRESHOLD);
    cbn [fst snd setLatest startText setFlushed finalized latestContent
         lastFlushedWordCount messageId];
    rewrite ?Hlive;
    cbn [fst snd setLatest startText setFlushed finalized latestContent
         lastFlushedWordCount messageId];
    eexists; eexists; (split; [reflexivity|]);
    unfold spinnerTick, bind, getC, ret;
    cbn [fst snd finalized textStarted spinnerTimer messageId
         lastFlushedWordCount latestContent];
    rewrite ?Hlive, ?Hstarted; cbn [orb];
    repeat split;
    cbn [setLatest startText setFlushed finalized latestContent textStarted
         spinnerTimer lastFlushedWordCount messageId orb];
    rewrite ?Hlive, ?Hstarted, ?orb_true_r; reflexivity.
Qed.

(** *** The answering engine *)

Lemma consumeQuery_record (messages : list SdkMessage) (acc : jsstring)
    (l : list jsstring) (w : World) :
  consumeQuery messages acc record (l, w)
  = (match firstResult messages with
     | Some (SdkResultSuccess result) => Returned result
     | Some (SdkResultFailure subtype errors) =>
         Threw (ErrorObject
           (lit "Claude query failed (" ++ subtype ++ lit "): " ++ errors))
     | _ =>
         Threw (ErrorObject (lit "Claude query ended without a result message"))
     end,
     (l ++ cumulative acc (deltasOf messages), w)).
Proof.
  revert acc l. induction messages as [|m messages IH]; intros acc l.
  - simpl. unfold throw. rewrite app_nil_r. reflexivity.
  - destruct m as [[|c text]|result|subtype errors|]; cbn [consumeQuery
      firstResult deltasOf cumulative].
    + apply IH.
    + unfold bind, record at 1. cbn [fst snd]. rewrite IH.
      rewrite <- app_assoc. reflexivity.
    + unfold ret. rewrite app_nil_r. reflexivity.
    + unfold throw. rewrite app_nil_r. reflexivity.
    + apply IH.
Qed.

(** X15: [askClaude] issues one query.  Its callback is called once for
    every non-empty text delta that precedes the first result message,
    each time with everything received so far; it returns the text of
    that result message when it is a success, and throws when it is a
    failure or when the stream ends without one. *)
Theorem askClaude_stream (question context : jsstring) (l : list jsstring)
    (w : World) (run : Response) :
  gateway w (log w) (Query question (systemPrompt context)) = Resolved run ->
  askClaude question context record (l, w)
  = (match firstResult (res_sdk run) with
     | Some (SdkResultSuccess result) => Returned result
     | Some (SdkResultFailure subtype errors) =>
         Threw (ErrorObject
           (lit "Claude query failed (" ++ subtype ++ lit "): " ++ errors))
     | _ =>
         Threw (ErrorObject (lit "Claude query ended without a result message"))
     end,
     (l ++ cumulative [] (deltasOf (res_sdk run)),
      set_log (log w ++ [Query question (systemPrompt context)]) w)).
Proof.
  intros Hrun. unfold askClaude, askClaudeVia, bind at 1, liftW, call.
  cbn [snd fst]. rewrite Hrun. apply consumeQuery_record.
Qed.

(** *** Answering a mention *)

Lemma try_catch_contained {S A} (m : M S A) (h : Thrown -> M S A) (s : S) :
  (forall e s' e', fst (h e s') <> Threw e') ->
  forall e', fst (try_catch m h s) <> Threw e'.
Proof.
  intros Hh e'. unfold try_catch.
  destruct (m s) as [[a|e|] s'] eqn:Hm; cbn [fst]; try discriminate.
  apply Hh.
Qed.

Lemma cancel_run (c : Composer) (w : World) :
  cancel (c, w)
  = (Returned tt,
     (terminate c, set_log (log w ++ [deleteMessage (messageId c)]) w)).
Proof. reflexivity. Qed.

Section Answering.
Context `{Externals}.

(** X16: once the placeholder is posted, [answerWithClaude] never throws:
    whatever fails afterwards is caught, and a failure to post the
    apology is swallowed. *)
Theorem answerWithClaude_contained (msg : ZulipMessage) (ctx : ServiceContext)
    (w : World) (placeholder : Response) :
  gateway w (log w) (MessagesSend (display_recipient msg) (subject msg) THINKING)
  = Resolved placeholder ->
  forall e, fst (answerWithClaude msg ctx w) <> Threw e.
Proof.
  intros Hposted e. unfold answerWithClaude, bind at 1.
  unfold startStreamingMessage, bind, now, call, ret. rewrite Hposted.
  unfold scope.
  match goal with
  | |- context [try_catch ?m ?h ?s] =>
      pose proof (try_catch_contained m h s) as Hc;
      destruct (try_catch m h s) as [o s'] eqn:Hrun
  end.
  cbn [fst] in *. apply Hc. clear.
  intros err [c w'] e'. rewrite cancel_run.
  unfold liftW. cbn [snd fst].
  match goal with
  | |- context [try_catch ?m ?h ?s] =>
      pose proof (try_catch_contained m h s) as Hc;
      destruct (try_catch m h s) as [o s'] eqn:Hrun
  end.
  cbn [fst] in *. apply Hc. intros. discriminate.
Qed.

(** X17: a mention without a question costs three requests and never
    reaches the engine: the placeholder is posted, deleted again, and a
    hint is posted in its place. *)
Theorem answerWithClaude_blank (msg : ZulipMessage) (ctx : ServiceContext)
    (w : World) :
  accepts_posts w ->
  trim (htmlToText (m_content msg)) = [] ->
  exists placeholder,
    gateway w (log w)
      (MessagesSend (display_recipient msg) (subject msg) THINKING)
    = Resolved placeholder /\
    answerWithClaude msg ctx w
    = (Returned tt,
       set_log
         (log w ++
          [ MessagesSend (display_recipient msg) (subject msg) THINKING;
            deleteMessage (res_id placeholder);
            MessagesSend (display_recipient msg) (subject msg)
              (lit "It looks like you mentioned me but didn't include a question. How can I help?") ])
         w).
Proof.
  intros Hacc Hblank.
  destruct (Hacc (log w) (display_recipient msg) (subject msg) THINKING)
    as (placeholder & Hposted).
  exists placeholder. split; [exact Hposted|].
  unfold answerWithClaude, bind at 1.
  unfold startStreamingMessage, bind at 1, now. unfold bind at 1.
  unfold call at 1. rewrite Hposted. unfold ret at 1.
  unfold scope, try_catch. rewrite Hblank.
  unfold bind at 1. rewrite cancel_run. unfold liftW. cbn [snd fst].
  unfold sendMessage.
  assert (Hone : splitMessage
            (lit "It looks like you mentioned me but didn't include a question. How can I help?")
            MAX_MESSAGE_LENGTH
          = Some [lit "It looks like you mentioned me but didn't include a question. How can I help?"])
    by reflexivity.
  rewrite Hone, sendChunks_accepted by exact Hacc.
  cbn [snd fst log set_log List.map messageId]. rewrite <- !app_assoc.
  reflexivity.
Qed.


End Answering.

(** *** A successful poll *)

Lemma reactions_started (e : ZulipReactionEvent) (services : list Service)
    (w : World) :
  for_each services
    (fun svc => match onReaction svc with
                | None => ret tt
                | Some _ => spawn (SpawnOnReaction (name svc) e)
                end) w
  = (Returned tt, set_spawned (spawned w ++ started services (EvReaction e)) w).
Proof.
  revert w. induction services as [|svc services IH]; intros w.
  - simpl. unfold ret. rewrite set_spawned_nil. reflexivity.
  - cbn [for_each]. unfold bind. unfold started. cbn [List.map concat].
    destruct (onReaction svc) as [h|].
    + rewrite spawn_run, IH, set_spawned_app. reflexivity.
    + unfold ret at 1. rewrite IH. reflexivity.
Qed.

Lemma batch_started (services : list Service) (events : list Event)
    (cur : Cursor) (w : World) :
  for_each events (onEvent services) (cur, w)
  = (Returned tt,
     ({| queueId := queueId cur;
         lastEventId := lastIdOf events (lastEventId cur) |},
      set_spawned
        (spawned w ++ concat (List.map (started services) events)) w)).
Proof.
  revert cur w. induction events as [|event events IH]; intros cur w.
  - simpl. unfold ret, lastIdOf. simpl. rewrite set_spawned_nil.
    destruct cur; reflexivity.
  - cbn [for_each]. unfold bind at 1.
    assert (Hone : onEvent services event (cur, w)
              = (Returned tt,
                 ({| queueId := queueId cur; lastEventId := event_id event |},
                  set_spawned (spawned w ++ started services event) w))).
    { unfold onEvent, bind, getCursor, putCursor. cbn [fst snd].
      destruct event as [e|e|ty id]; unfold liftW; cbn [fst snd].
      - reflexivity.
      - rewrite reactions_started. reflexivity.
      - unfold ret, started. rewrite set_spawned_nil. reflexivity. }
    rewrite Hone, IH. cbn [queueId lastEventId List.map concat].
    rewrite set_spawned_app. reflexivity.
Qed.

(** X19: a poll that succeeds never throws and never waits: the cursor
    moves to the id of the last event of the batch (it stays for an empty
    batch), the queue is kept, and, in the order of the batch, one
    [handleMessage] is started for each message event and one reaction
    handler for each service that has one. *)
Theorem poll_success (services : list Service) (cur : Cursor) (w : World)
    (response : Response) (events : list Event) :
  let poll := EventsRetrieve (queueId cur) (lastEventId cur) in
  let turn := eventLoopTurn services (cur, w) in
  gateway w (log w) poll = Resolved response ->
  res_events response = Some events ->
  fst turn = Returned tt /\
  fst (snd turn)
  = {| queueId := queueId cur;
       lastEventId := lastIdOf events (lastEventId cur) |} /\
  spawned (snd (snd turn))
  = spawned w ++ concat (List.map (started services) events).
Proof.
  cbv zeta. intros Hpoll Hevents.
  assert (Hturn : eventLoopTurn services (cur, w)
            = (Returned tt,
               ({| queueId := queueId cur;
                   lastEventId := lastIdOf events (lastEventId cur) |},
                set_spawned
                  (spawned w ++ concat (List.map (started services) events))
                  (set_log
                     (log w
                      ++ [EventsRetrieve (queueId cur) (lastEventId cur)])
                     w)))).
  { unfold eventLoopTurn, try_catch, bind at 1, getCursor. cbn [fst snd].
    unfold bind at 1, liftW at 1, call. cbn [fst snd].
    rewrite Hpoll, Hevents. rewrite batch_started. reflexivity. }
  rewrite Hturn. repeat split.
Qed.

(** ** Task commands *)

(** *** Quoting and truncating *)

Lemma splitLines_nonempty (current text : jsstring) :
  Tasks.splitLines current text <> [].
Proof.
  revert current. induction text as [|c text IH]; intros current; simpl;
    [discriminate|].
  destruct (N.eqb c 10); [discriminate|apply IH].
Qed.

Lemma splitLines_quoted (current text : jsstring) :
  join NL (List.map (fun line => lit "> " ++ line)
             (Tasks.splitLines current text))
  = lit "> " ++ current ++ flat_map quoteUnit text.
Proof.
  revert current. induction text as [|c text IH]; intros current.
  - simpl. rewrite app_nil_r. reflexivity.
  - cbn [Tasks.splitLines flat_map]. unfold quoteUnit at 1.
    destruct (N.eqb c 10) eqn:Hc.
    + apply N.eqb_eq in Hc. subst c. cbn [List.map].
      specialize (IH []).
      pose proof (splitLines_nonempty [] text) as Hne.
      destruct (Tasks.splitLines [] text) as [|l ls]; [congruence|].
      cbn [List.map join] in *. rewrite IH. unfold NL.
      rewrite <- !app_assoc. reflexivity.
    + rewrite IH. rewrite <- !app_assoc. reflexivity.
Qed.

Lemma splitLines_joined (current text : jsstring) :
  join NL (Tasks.splitLines current text) = current ++ text.
Proof.
  revert current. induction text as [|c text IH]; intros current.
  - simpl. rewrite app_nil_r. reflexivity.
  - cbn [Tasks.splitLines]. destruct (N.eqb c 10) eqn:Hc.
    + apply N.eqb_eq in Hc. subst c. specialize (IH []).
      pose proof (splitLines_nonempty [] text) as Hne.
      destruct (Tasks.splitLines [] text) as [|l ls]; [congruence|].
      cbn [join] in *. rewrite IH. reflexivity.
    + rewrite IH, <- app_assoc. reflexivity.
Qed.

(** X20: [quote] puts "> " in front of the text and after each of its
    newlines, and changes nothing else; the lines it works on, joined
    again, are the text. *)
Theorem quote_lines (text : jsstring) :
  Tasks.quote text = lit "> " ++ flat_map quoteUnit text /\
  join NL (Tasks.splitLines [] text) = text.
Proof.
  split; [apply (splitLines_quoted [] text)|apply (splitLines_joined [] text)].
Qed.

Lemma In_trimStart (c : N) (s : jsstring) : In c (trimStart s) -> In c s.
Proof.
  destruct (trimStart_split s) as (g & _ & Hs). intros Hin.
  rewrite Hs. apply in_or_app. right. exact Hin.
Qed.

Lemma In_trimEnd (c : N) (s : jsstring) : In c (trimEnd s) -> In c s.
Proof.
  destruct (trimEnd_split s) as (g & _ & Hs). intros Hin.
  rewrite Hs. apply in_or_app. left. exact Hin.
Qed.

(** X21: a truncated text fits the length it is given (at least 1), in one
    line: [truncate] never answers more than [maxLen] code units, and
    never a newline. *)
Theorem truncate_fits (text : jsstring) (maxLen : Z) :
  1 <= maxLen ->
  jslen (Tasks.truncate text maxLen) <= maxLen /\
  ~ In 10%N (Tasks.truncate text maxLen).
Proof.
  intros Hmax. unfold Tasks.truncate.
  assert (Hline : ~ In 10%N (trim (Tasks.newlinesToSpaces text))).
  { intros Hin. apply In_trimEnd, In_trimStart in Hin.
    unfold Tasks.newlinesToSpaces in Hin.
    apply in_map_iff in Hin as (c & Hc & _).
    destruct (N.eqb c 10) eqn:E; [discriminate|].
    apply N.eqb_neq in E. congruence. }
  destruct (jslen (trim (Tasks.newlinesToSpaces text)) <=? maxLen) eqn:E.
  - apply Z.leb_le in E. split; [exact E|exact Hline].
  - apply Z.leb_gt in E. rewrite slice_prefix by lia. split.
    + unfold jslen. rewrite length_app, length_firstn. simpl. lia.
    + intros Hin. apply in_app_or in Hin as [Hin|[Heq|[]]]; [|discriminate].
      apply Hline.
      rewrite <- (firstn_skipn (Z.to_nat (maxLen - 1))
                    (trim (Tasks.newlinesToSpaces text))).
      apply in_or_app. left. exact Hin.
Qed.

(** *** The cache of task channels *)

Lemma ensures_bind {A B} (Q : B -> World -> Prop) (m : M World A)
    (k : A -> M World B) :
  (forall a, ensures Q (k a)) -> ensures Q (bind m k).
Proof.
  intros Hk w b w'. unfold bind.
  destruct (m w) as [[a|e|] w1]; try discriminate.
  apply Hk.
Qed.

Section TaskChannels.
Context `{Externals}.

Lemma ensures_cached (k v : jsstring) :
  ensures (fun a w => tasksChannelCache w !! k = Some a)
    (Tasks.cacheSet k v ;; ret v).
Proof.
  intros w a w'. unfold bind, Tasks.cacheSet, modify, ret.
  intros Hrun. injection Hrun as <- <-. cbn [tasksChannelCache set_cache].
  apply lookup_insert_eq.
Qed.

(** X22: a task channel is resolved once per source channel: when
    [resolveTasksChannel] returns a name, the cache holds it, and asking
    again answers the same name without any request or other change. *)
Theorem resolveTasksChannel_cached (ctx : ServiceContext) (source nm : jsstring)
    (w w' : World) :
  Tasks.resolveTasksChannel ctx source w = (Returned nm, w') ->
  nm <> [] ->
  tasksChannelCache w' !! source = Some nm /\
  Tasks.resolveTasksChannel ctx source w' = (Returned nm, w').
Proof.
  intros Hrun Hne.
  assert (Hcached : tasksChannelCache w' !! source = Some nm).
  { unfold Tasks.resolveTasksChannel in Hrun. unfold bind at 1, get in Hrun.
    destruct (tasksChannelCache w !! source) as [[|c cached]|] eqn:Hc.
    2: { unfold ret in Hrun. injection Hrun as <- <-. exact Hc. }
    all: match type of Hrun with
         | ?rest _ = _ =>
             assert (Hens : ensures
                       (fun a w => tasksChannelCache w !! source = Some a) rest)
         end;
      [ repeat first
          [ apply ensures_cached
          | apply ensures_bind; intros
          | match goal with
            | |- ensures _ (match ?x with _ => _ end) => destruct x
            end ]
      | exact (Hens _ _ _ Hrun) ]. }
  split; [exact Hcached|].
  unfold Tasks.resolveTasksChannel. unfold bind at 1, get. rewrite Hcached.
  destruct nm as [|c nm]; [congruence|]. reflexivity.
Qed.

End TaskChannels.

(** *** Assigning by command *)

Section AssignCommand.
Context `{Externals} `{Patterns}.

Lemma send_world (to subj body : jsstring) (w : World) :
  snd ((_ <- Tasks.send to subj body ;; ret tt) w)
  = set_log (log w ++ [MessagesSend to subj body]) w.
Proof.
  unfold bind, Tasks.send, call, ret.
  destruct (gateway w (log w) _); reflexivity.
Qed.

(** X23: an [assign] or [unassign] command that cannot be carried out
    costs one message and changes nothing: when it mentions nobody but the
    bot, when it quotes no message, and when the quoted message is not the
    card of a task. *)
Theorem handleAssign_rejects (msg : ZulipMessage) (ctx : ServiceContext)
    (removing : bool) (w : World) :
  TaskCommands.parseMentions (m_content msg) (botUserId ctx) = []
  \/ TaskCommands.extractQuotedMessageId (m_content msg) = None
  \/ TaskCommands.extractQuotedMessageId (m_content msg) = Some 0
  \/ (exists q, TaskCommands.extractQuotedMessageId (m_content msg) = Some q
                /\ getTaskByTaskMsgId q (db w) = None) ->
  exists notice,
    snd (TaskCommands.handleAssign msg ctx removing w)
    = set_log
        (log w ++ [MessagesSend (display_recipient msg) (subject msg) notice]) w.
Proof.
  unfold TaskCommands.handleAssign.
  intros [Hnone|Hquote].
  - rewrite Hnone. eexists. apply send_world.
  - destruct (TaskCommands.parseMentions _ _) as [|m mentions];
      [eexists; apply send_world|].
    destruct Hquote as [->|[->|(q & -> & Hq)]];
      try (eexists; apply send_world).
    destruct q as [|q|q]; [eexists; apply send_world| |];
      unfold bind at 1, dbRead; rewrite Hq; eexists; apply send_world.
Qed.

Lemma found_by_card (q : Z) (d : Db) (task : TaskRow) :
  getTaskByTaskMsgId q d = Some task ->
  task_msg_id task = Some q /\ getTaskById (t_id task) d <> None.
Proof.
  unfold getTaskByTaskMsgId, getTaskById. intros Hfind.
  apply find_some in Hfind as [Hin Hq]. split.
  - destruct (task_msg_id task) as [m|]; [|discriminate].
    apply Z.eqb_eq in Hq. congruence.
  - intros Hnone.
    pose proof (find_none _ _ Hnone task Hin) as Hno. simpl in Hno.
    rewrite Z.eqb_refl in Hno. discriminate.
Qed.

(** X24: an [assign] or [unassign] command that quotes the card of a task
    does what it says, and shows it: afterwards every mentioned user is
    assigned to the task (or none of them is), the bot itself is never
    among them, the card is edited to show the assignees as stored, and a
    confirmation is posted; the tasks table is not touched. *)
Theorem handleAssign_updates (msg : ZulipMessage) (ctx : ServiceContext)
    (removing : bool) (w : World) (q : Z) (task : TaskRow) :
  let mentions := TaskCommands.parseMentions (m_content msg) (botUserId ctx) in
  let w' := snd (TaskCommands.handleAssign msg ctx removing w) in
  accepts_posts w ->
  mentions <> [] ->
  TaskCommands.extractQuotedMessageId (m_content msg) = Some q ->
  q <> 0 ->
  getTaskByTaskMsgId q (db w) = Some task ->
  fst (TaskCommands.handleAssign msg ctx removing w) = Returned tt /\
  (forall u nm, In (u, nm) mentions ->
     u <> botUserId ctx /\
     assigned (t_id task) u (db w') = negb removing) /\
  tasks (db w') = tasks (db w) /\
  exists confirmation,
    issued w w'
    = [ patchMessage q
          (Tasks.renderTaskCard task (getAssignees (t_id task) (db w'))
             (config ctx));
        MessagesSend (display_recipient msg) (subject msg) confirmation ].
Proof.
  cbv zeta. intros Hacc Hsome Hquote Hq Hfound.
  destruct (found_by_card _ _ _ Hfound) as [Hcard Hstored].
  assert (Hbot : forall u nm,
            In (u, nm) (TaskCommands.parseMentions (m_content msg) (botUserId ctx)) ->
            u <> botUserId ctx).
  { intros u nm Hin. unfold TaskCommands.parseMentions in Hin.
    apply filter_In in Hin as [_ Hne]. cbn [fst] in Hne.
    apply negb_true_iff, Z.eqb_neq in Hne. exact Hne. }
  set (d' := if removing
             then removeAssignees (t_id task)
                    (List.map fst (TaskCommands.parseMentions (m_content msg)
                                     (botUserId ctx))) (db w)
             else snd (addAssignees (t_id task)
                    (List.map (fun m => (snd m, Some (fst m)))
                       (TaskCommands.parseMentions (m_content msg)
                          (botUserId ctx)))
                    (datetime_now (clock w)) (db w))).
  assert (Hrun : exists confirmation,
            TaskCommands.handleAssign msg ctx removing w
            = (Returned tt,
               set_log
                 (log w ++
                  [ patchMessage q
                      (Tasks.renderTaskCard task (getAssignees (t_id task) d')
                         (config ctx));
                    MessagesSend (display_recipient msg) (subject msg)
                      confirmation ])
                 (set_db d' w))).
  { unfold TaskCommands.handleAssign. rewrite Hquote.
    destruct (TaskCommands.parseMentions (m_content msg) (botUserId ctx))
      as [|m mentions] eqn:Hm; [congruence|].
    assert (Hbody :
              exists confirmation,
                (found <- dbRead (getTaskByTaskMsgId q) ;;
                 match found with
                 | None =>
                     _ <- Tasks.send (display_recipient msg) (subject msg)
                            (lit "The quoted message is not a tracked task.") ;;
                     ret tt
                 | Some task =>
                     (if removing then
                        dbWrite (removeAssignees (t_id task)
                                   (List.map fst (m :: mentions)))
                      else
                        stamp <- Tasks.stampNow ;;
                        dbRun (addAssignees (t_id task)
                                 (List.map (fun m => (snd m, Some (fst m)))
                                    (m :: mentions))
                                 stamp)) ;;
                     updatedAssignees <- dbRead (getAssignees (t_id task)) ;;
                     Tasks.syncTaskMessage task updatedAssignees (config ctx) ;;
                     _ <- Tasks.send (display_recipient msg) (subject msg)
                            (join (lit ", ") (List.map snd (m :: mentions))
                             ++ lit " "
                             ++ (if removing then lit "unassigned"
                                 else lit "assigned")
                             ++ lit " "
                             ++ (if removing then lit "from" else lit "to")
                             ++ lit " this task.") ;;
                     ret tt
                 end) w
                = (Returned tt,
                   set_log
                     (log w ++
                      [ patchMessage q
                          (Tasks.renderTaskCard task
                             (getAssignees (t_id task) d') (config ctx));
                        MessagesSend (display_recipient msg) (subject msg)
                          confirmation ])
                     (set_db d' w))).
    { unfold bind at 1, dbRead at 1. rewrite Hfound.
      assert (Hpatch : forall rows,
                Tasks.syncTaskMessage task rows (config ctx)
                = call_ignore (patchMessage q
                    (Tasks.renderTaskCard task rows (config ctx)))).
      { intros rows. unfold Tasks.syncTaskMessage. rewrite Hcard.
        destruct q; [congruence|reflexivity|reflexivity]. }
      destruct removing.
      - unfold bind at 1, dbWrite. unfold bind at 1, dbRead.
        unfold bind at 1. rewrite Hpatch.
        unfold bind, call_ignore, Tasks.send, call, ret.
        cbn [log gateway set_log set_db db].
        match goal with
        | |- context [gateway w ?l (MessagesSend ?a ?b ?c)] =>
            destruct (Hacc l a b c) as (r & ->)
        end.
        eexists. rewrite <- app_assoc. reflexivity.
      - unfold bind at 1. unfold bind at 1. unfold Tasks.stampNow, dbRun.
        rewrite (addAssignees_stored _ _ _ _ Hstored). cbn [fst snd].
        unfold bind at 1, dbRead.
        unfold bind at 1. rewrite Hpatch.
        unfold bind, call_ignore, Tasks.send, call, ret.
        cbn [log gateway set_log set_db db].
        match goal with
        | |- context [gateway w ?l (MessagesSend ?a ?b ?c)] =>
            destruct (Hacc l a b c) as (r & ->)
        end.
        eexists. rewrite <- app_assoc. unfold d'.
        rewrite (addAssignees_stored _ _ _ _ Hstored). reflexivity. }
    destruct q as [|q|q]; [congruence| |]; exact Hbody. }

  destruct Hrun as (confirmation & Hrun). rewrite Hrun. cbn [fst snd db set_log set_db].
  split; [reflexivity|]. split; [|split].
  - intros u nm Hin. split; [exact (Hbot u nm Hin)|].
    unfold d'. destruct removing; cbn [negb].
    + apply removeAssignees_drops. apply in_map_iff. exists (u, nm). auto.
    + rewrite (addAssignees_stored _ _ _ _ Hstored). cbn [snd].
      apply (insertAssignees_assign _ _ _ _ nm).
      apply in_map_iff. exists (u, nm). auto.
  - unfold d'. destruct removing.
    + destruct (List.map fst _); reflexivity.
    + rewrite (addAssignees_stored _ _ _ _ Hstored). cbn [snd].
      apply insertAssignees_tasks.
  - exists confirmation. unfold issued. cbn [log set_log set_db].
    rewrite drop_app_length. reflexivity.
Qed.

End AssignCommand.

(** *** What a promotion stores *)

Section Promotion.
Context `{Externals}.




End Promotion.

(** ** Failures *)

(** *** What ends the event loop *)

Lemma turn_outcome (services : list Service) (cur : Cursor) (w : World) :
  let poll := EventsRetrieve (queueId cur) (lastEventId cur) in
  let register := QueuesRegister [lit "message"; lit "reaction"] in
  fst (eventLoopTurn services (cur, w))
  = match gateway w (log w) poll with
    | Rejected e =>
        if includes (errorMsgOf e) (lit "BAD_EVENT_QUEUE_ID") then
          match gateway w (log w ++ [poll]) register with
          | Rejected e' => Threw e'
          | Resolved _ => Returned tt
          end
        else Returned tt
    | Resolved _ => Returned tt
    end.
Proof.
  cbv zeta.
  destruct (gateway w (log w) (EventsRetrieve (queueId cur) (lastEventId cur)))
    as [e|r] eqn:Hpoll.
  - destruct (includes (errorMsgOf e) (lit "BAD_EVENT_QUEUE_ID")) eqn:Hbad.
    + rewrite (turn_reregister services cur w e Hpoll Hbad).
      destruct (gateway w (log w ++ _) _); reflexivity.
    + rewrite (turn_backoff services cur w e Hpoll Hbad). reflexivity.
  - unfold eventLoopTurn, try_catch, bind at 1, getCursor.
    cbn [fst snd]. unfold bind at 1, liftW at 1, call. cbn [fst snd].
    rewrite Hpoll.
    destruct (res_events r) as [events|].
    + destruct (batch_effect services events cur
                  (set_log (log w ++ [EventsRetrieve (queueId cur) (lastEventId cur)]) w))
        as (cur' & l & -> & _).
      reflexivity.
    + reflexivity.
Qed.

(** X26: a turn of the event loop never hangs, and it throws in one case
    only: the poll failed with BAD_EVENT_QUEUE_ID and the registration of
    a new queue was rejected too; the error of the registration then
    leaves the loop.  Any other failure is absorbed by the turn. *)
Theorem turn_failure (services : list Service) (cur : Cursor) (w : World) :
  let poll := EventsRetrieve (queueId cur) (lastEventId cur) in
  let register := QueuesRegister [lit "message"; lit "reaction"] in
  fst (eventLoopTurn services (cur, w)) <> Hangs /\
  forall e',
    fst (eventLoopTurn services (cur, w)) = Threw e' <->
    exists e,
      gateway w (log w) poll = Rejected e /\
      includes (errorMsgOf e) (lit "BAD_EVENT_QUEUE_ID") = true /\
      gateway w (log w ++ [poll]) register = Rejected e'.
Proof.
  cbv zeta. rewrite turn_outcome. cbv zeta.
  destruct (gateway w (log w) (EventsRetrieve (queueId cur) (lastEventId cur)))
    as [e|r].
  - destruct (includes (errorMsgOf e) (lit "BAD_EVENT_QUEUE_ID")) eqn:Hbad.
    + destruct (gateway w (log w ++ _) _) as [e0|r0].
      * split; [discriminate|]. intros e'. split.
        -- intros Heq. injection Heq as <-. exists e. auto.
        -- intros (e1 & He1 & _ & Hrej). congruence.
      * split; [discriminate|]. intros e'. split; [discriminate|].
        intros (e1 & _ & _ & Hrej). congruence.
    + split; [discriminate|]. intros e'. split; [discriminate|].
      intros (e1 & He1 & Hinc & _). congruence.
  - split; [discriminate|]. intros e'. split; [discriminate|].
    intros (e1 & He1 & _). congruence.
Qed.

(** *** Loading the services *)

Section ServiceLoading.
Variable toUpperCase : jsstring -> jsstring.
Context `{Externals}.

Lemma initService_safe (ctx : ServiceContext) (service : Service) (w : World)
    (e : Thrown) :
  fst (initService ctx service w) <> Threw e.
Proof.
  unfold initService, try_catch.
  destruct (match init service with
            | Some start => start ctx
            | None => ret tt
            end w) as [[a|e'|] w']; cbn [fst]; discriminate.
Qed.

Lemma initService_run (ctx : ServiceContext) (service : Service) (w : World) :
  init_ends ctx service ->
  initService ctx service w = (Returned tt, attempted ctx w service).
Proof.
  intros Hends. specialize (Hends w). unfold initService, try_catch, attempted.
  destruct (init service) as [start|]; [|reflexivity].
  destruct (start ctx w) as [[[]|e|] w']; cbn [fst snd] in *;
    [reflexivity | reflexivity | congruence].
Qed.

Lemma initServices_run (ctx : ServiceContext) (services : list Service)
    (w : World) :
  (forall service, In service services -> init_ends ctx service) ->
  for_each services (initService ctx) w
  = (Returned tt, fold_left (attempted ctx) services w).
Proof.
  revert w. induction services as [|service services IH]; intros w Hends;
    [reflexivity|].
  cbn [for_each fold_left]. unfold bind.
  rewrite initService_run by (apply Hends; left; reflexivity).
  apply IH. intros s Hin. apply Hends. right. exact Hin.
Qed.

Lemma initServices_safe (ctx : ServiceContext) (services : list Service)
    (w : World) (e : Thrown) :
  fst (for_each services (initService ctx) w) <> Threw e.
Proof.
  revert w. induction services as [|service services IH]; intros w;
    [discriminate|].
  cbn [for_each]. unfold bind.
  pose proof (initService_safe ctx service w) as Hsafe.
  destruct (initService ctx service w) as [[[]|e0|] w1]; cbn [fst] in *.
  - apply IH.
  - destruct (Hsafe e0). reflexivity.
  - discriminate.
Qed.

(** X27: [loadServices], given the listing of the directory, never throws.
    The services it activates are, in the order of the listing, the named
    default exports of the files it imports (a [.ts] or [.js] file other
    than the loader and the types) that are switched on: by their
    [SERVICE_<NAME>] variable when it is set (anything but [false] and
    [0]), by [defaultEnabled] otherwise.  When no [init] runs for ever,
    it returns them all, after the [init] of each has been attempted
    once, in that order, each from the world the one before left: an
    [init] that throws neither removes its service nor keeps the later
    ones from being initialised. *)
Theorem loadServices_contained (files : list jsstring)
    (modules : jsstring -> Imported) (env : gmap jsstring jsstring)
    (ctx : ServiceContext) (w : World) :
  let imported (file : jsstring) :=
    (endsWith file (lit ".ts") || endsWith file (lit ".js"))
    && negb (existsb (jseqb file) SKIP_FILES) in
  let exported (file : jsstring) :=
    match imported file, modules file with
    | true, ImportOk (Some service) =>
        match name service with
        | [] => []
        | _ :: _ => [service]
        end
    | _, _ => []
    end in
  let switched_on (service : Service) :=
    match env !! (lit "SERVICE_"
                  ++ List.map (fun c => if N.eqb c 45 then 95%N else c)
                       (toUpperCase (name service))) with
    | Some value =>
        negb (jseqb (toLowerCase value) (lit "false"))
        && negb (jseqb value (lit "0"))
    | None => defaultEnabled service
    end in
  let active := List.filter switched_on (flat_map exported files) in
  (forall e, fst (loadServices toUpperCase files modules env ctx w) <> Threw e) /\
  ((forall service, In service active -> init_ends ctx service) ->
   loadServices toUpperCase files modules env ctx w
   = (Returned active, fold_left (attempted ctx) active w)).
Proof.
  intros imported exported switched_on active.
  assert (Hactive : pending toUpperCase files modules env = active).
  { subst active. induction files as [|file files IH]; [reflexivity|].
    cbn [pending flat_map]. rewrite List.filter_app, <- IH.
    unfold exported at 1, imported.
    destruct (endsWith file (lit ".ts")); cbn [negb andb orb].
    - destruct (existsb (jseqb file) SKIP_FILES); cbn [negb]; [reflexivity|].
      destruct (modules file) as [err|[service|]]; [reflexivity| |reflexivity].
      destruct (name service) eqn:Hname; [reflexivity|].
      cbn [List.filter]. unfold switched_on at 1, enabled, envKey.
      rewrite Hname.
      destruct (match env !! _ with Some _ => _ | None => _ end); reflexivity.
    - destruct (endsWith file (lit ".js")); cbn [negb andb]; [|reflexivity].
      destruct (existsb (jseqb file) SKIP_FILES); cbn [negb]; [reflexivity|].
      destruct (modules file) as [err|[service|]]; [reflexivity| |reflexivity].
      destruct (name service) eqn:Hname; [reflexivity|].
      cbn [List.filter]. unfold switched_on at 1, enabled, envKey.
      rewrite Hname.
      destruct (match env !! _ with Some _ => _ | None => _ end); reflexivity. }
  unfold loadServices. cbv zeta. rewrite Hactive. split.
  - intros e. unfold bind.
    pose proof (initServices_safe ctx active w e) as Hsafe.
    destruct (for_each active (initService ctx) w) as [[[]|e0|] w1];
      cbn [fst] in *;
      [discriminate | intros He; apply Hsafe; congruence | discriminate].
  - intros Hends. unfold bind. rewrite (initServices_run ctx active w Hends).
    reflexivity.
Qed.

End ServiceLoading.

(** *** A feed that is down, and a gateway that refuses announcements *)

Section FeedFailures.
Context `{Externals}.


(** X29: items are marked as seen before they are announced.  When the
    gateway refuses the announcements of a tick that has new items, the
    tick throws after one attempt, and every item of the feed is marked
    all the same: no later tick announces any of them. *)
Theorem announcements_lost (url : jsstring) (ctx : ServiceContext)
    (row : DashboardRow) (w : World) (res : Response) (feedTitle : jsstring)
    (parsed : list FeedItem) (e : Thrown) (fresh : FeedItem) :
  gateway w (log w) (HttpFetch url) = Resolved res ->
  res_ok res = true ->
  parseFeed (res_text res) = inr (feedTitle, parsed) ->
  hasDashboard (d_id row) (db w) = true ->
  bootstrapped row <> 0 ->
  refuses_posts w e ->
  In fresh parsed ->
  feedItemSeen (d_id row) (guid fresh) (db w) = false ->
  let w' := snd (Rss.fetch url ctx row w) in
  fst (Rss.fetch url ctx row w) = Threw e /\
  count is_post (issued w w') = 1 /\
  (forall item, In item parsed ->
     feedItemSeen (d_id row) (guid item) (db w') = true) /\
  announce (fun g => feedItemSeen (d_id row) g (db w')) parsed = [].
Proof.
  intros Hreply Hok Hparse Hhas Hboot Hrefuse Hfresh Hunseen.
  exact (tick_refused url ctx row w res feedTitle parsed e fresh Hreply Hok
           Hparse Hhas Hboot Hrefuse Hfresh Hunseen).
Qed.

Lemma find_app_none {A : Type} (f : A -> bool) (l l' : list A) :
  List.find f l = None -> List.find f (l ++ l') = List.find f l'.
Proof.
  induction l as [|x l IH]; [reflexivity|]. cbn [List.find app].
  destruct (f x); [discriminate|exact IH].
Qed.

Lemma handleStart_threw (registry : Registry) (argRaw : jsstring)
    (msg : ZulipMessage) (ctx : ServiceContext) (w : World)
    (def : DashboardDef) (posted : Response) (e : Thrown) (w2 : World) :
  let name := hd [] (Dashboards.words [] argRaw) in
  let dashParams := join (lit " ") (tl (Dashboards.words [] argRaw)) in
  let ch := display_recipient msg in
  let tp := subject msg in
  let placeholder :=
    MessagesSend ch tp (lit "Starting dashboard `" ++ name ++ lit "`" ++ [8230%N]) in
  let period :=
    match def_intervalMs def with
    | Some i => i
    | None => Dashboards.DEFAULT_INTERVAL_MS
    end in
  let id := seq_dashboards (db w) + 1 in
  let stored :=
    {| d_id := id; d_name := name; channel := ch; topic := tp;
       msg_id := res_id posted; interval_ms := period; params := dashParams;
       bootstrapped := 0; d_created_at := datetime_now (clock w) |} in
  let w1 :=
    set_db (set_dashboards (dashboards (db w) ++ [stored]) (feed_items (db w))
              id (db w))
      (set_log (log w ++ [placeholder]) w) in
  let row :=
    {| d_id := id; d_name := name; channel := ch; topic := tp;
       msg_id := res_id posted; interval_ms := period; params := dashParams;
       bootstrapped := 0; d_created_at := toISOString (clock w) |} in
  registryGet registry name = Some def ->
  match validateParams def with
  | Some validate => validate dashParams
  | None => None
  end = None ->
  getDashboardByNameAndLocation name ch tp (db w) = None ->
  gateway w (log w) placeholder = Resolved posted ->
  fetch def dashParams ctx row w1 = (Threw e, w2) ->
  Dashboards.handleStart registry argRaw msg ctx w = (Threw e, w2).
Proof.
  cbv zeta. intros Hreg Hvalid Hfree Hposted Hfetch.
  unfold Dashboards.handleStart. rewrite Hreg, Hvalid.
  unfold bind at 1, dbRead at 1. rewrite Hfree.
  unfold bind at 1. unfold call at 1. rewrite Hposted.
  unfold bind at 1, Dashboards.stampNow.
  unfold bind at 1, dbRun. cbn [db clock set_log].
  unfold createDashboard at 1. cbn [p_name p_channel p_topic].
  rewrite Hfree. cbn [fst].
  unfold bind at 1. cbn [clock set_db set_log].
  unfold bind at 1.
  unfold createDashboard. cbn [p_name p_channel p_topic].
  rewrite Hfree. cbn [snd p_name p_channel p_topic msgId intervalMs p_params].
  rewrite Hfetch. reflexivity.
Qed.

(** X30: [dashboard start rss <url>] stores the dashboard before it reads
    the feed for the first time.  When that first request fails, or the
    feed does not parse, the error leaves [handleStart] after the
    placeholder and the request for the feed, with no edit of the
    placeholder; the world it leaves holds the new row, not bootstrapped,
    under the name and the place, and no timer for it.  The same command
    given again in that world is answered that the dashboard is already
    running, and changes nothing. *)
Theorem handleStart_fetch_failure (registry : Registry) (argRaw : jsstring)
    (msg : ZulipMessage) (ctx : ServiceContext) (w : World)
    (posted : Response) (e : Thrown) :
  let name := hd [] (Dashboards.words [] argRaw) in
  let url := join (lit " ") (tl (Dashboards.words [] argRaw)) in
  let ch := display_recipient msg in
  let tp := subject msg in
  let placeholder :=
    MessagesSend ch tp (lit "Starting dashboard `" ++ name ++ lit "`" ++ [8230%N]) in
  let id := seq_dashboards (db w) + 1 in
  let stored :=
    {| d_id := id; d_name := name; channel := ch; topic := tp;
       msg_id := res_id posted; interval_ms := 300000; params := url;
       bootstrapped := 0; d_created_at := datetime_now (clock w) |} in
  let run := Dashboards.handleStart registry argRaw msg ctx w in
  let w2 := snd run in
  let again := Dashboards.handleStart registry argRaw msg ctx w2 in
  registryGet registry name = Some Rss.rssDef ->
  url <> [] -> isUrl url = true ->
  getDashboardByNameAndLocation name ch tp (db w) = None ->
  gateway w (log w) placeholder = Resolved posted ->
  gateway w (log w ++ [placeholder]) (HttpFetch url) = Rejected e \/
  (exists res,
     gateway w (log w ++ [placeholder]) (HttpFetch url) = Resolved res /\
     res_ok res = true /\ parseFeed (res_text res) = inl e) ->
  fst run = Threw e /\
  issued w w2 = [placeholder; HttpFetch url] /\
  dashboards (db w2) = dashboards (db w) ++ [stored] /\
  feed_items (db w2) = feed_items (db w) /\
  getDashboardByNameAndLocation name ch tp (db w2) = Some stored /\
  timers w2 = timers w /\ intervals w2 = intervals w /\
  issued w2 (snd again)
  = [MessagesSend ch tp
       (lit "Dashboard `" ++ name ++ lit "` is already running here.")] /\
  db (snd again) = db w2 /\
  timers (snd again) = timers w /\ intervals (snd again) = intervals w.
Proof.
  intros name url ch tp placeholder id stored run w2 again
    Hreg Hurl Hisurl Hfree Hposted Hfeed.
  assert (Hvalid : Rss.validate url = None).
  { unfold Rss.validate. destruct url; [congruence|]. rewrite Hisurl.
    reflexivity. }
  set (w1 := set_db (set_dashboards (dashboards (db w) ++ [stored])
                       (feed_items (db w)) id (db w))
               (set_log (log w ++ [placeholder]) w)).
  set (row := {| d_id := id; d_name := name; channel := ch; topic := tp;
                 msg_id := res_id posted; interval_ms := 300000;
                 params := url; bootstrapped := 0;
                 d_created_at := toISOString (clock w) |}).
  assert (Hfetch : Rss.fetch url ctx row w1
            = (Threw e, set_log (log w1 ++ [HttpFetch url]) w1)).
  { unfold Rss.fetch, bind at 1, call.
    change (gateway w1) with (gateway w).
    change (log w1) with (log w ++ [placeholder]).
    destruct Hfeed as [Hrej|(res & Hres & Hok & Hparse)].
    - rewrite Hrej. reflexivity.
    - rewrite Hres. cbn [fst snd]. rewrite Hok. cbn [negb]. rewrite Hparse.
      reflexivity. }
  assert (Hrun : run = (Threw e, set_log (log w1 ++ [HttpFetch url]) w1)).
  { subst run.
    exact (handleStart_threw registry argRaw msg ctx w Rss.rssDef posted e _
             Hreg Hvalid Hfree Hposted Hfetch). }
  assert (Hfound : getDashboardByNameAndLocation name ch tp (db w2)
                   = Some stored).
  { subst w2. rewrite Hrun. cbn [snd db set_log]. subst w1. cbn [db set_db].
    unfold getDashboardByNameAndLocation in *.
    cbn [dashboards set_dashboards].
    rewrite (find_app_none _ _ _ Hfree). cbn [List.find]. subst stored.
    cbn [d_name channel topic]. rewrite !jseqb_same. reflexivity. }
  assert (Hagain : again
            = (match gateway w2 (log w2)
                       (MessagesSend ch tp
                          (lit "Dashboard `" ++ name
                           ++ lit "` is already running here.")) with
               | Rejected err => Threw err
               | Resolved _ => Returned tt
               end,
               set_log
                 (log w2
                  ++ [MessagesSend ch tp
                        (lit "Dashboard `" ++ name
                         ++ lit "` is already running here.")]) w2)).
  { subst again. unfold Dashboards.handleStart.
    fold name url ch tp. rewrite Hreg.
    cbn [validateParams Rss.rssDef]. rewrite Hvalid.
    unfold bind at 1, dbRead at 1. rewrite Hfound.
    unfold bind at 1, call.
    destruct (gateway w2 (log w2) _); reflexivity. }
  rewrite Hagain. cbn [snd]. revert Hfound. subst w2. rewrite Hrun.
  cbn [fst snd]. intros Hfound.
  repeat split; try exact Hfound.
  - apply issued_app. cbn [log set_log]. subst w1. cbn [log set_log set_db].
    rewrite <- app_assoc. reflexivity.
  - apply issued_app. reflexivity.
Qed.

End FeedFailures.

(** ** The further properties at work on the installation *)

Section OnTheInstallation.
#[local] Existing Instance plainExternals.
#[local] Existing Instance plainPatterns.

Lemma accepts_posts_world1 : accepts_posts world1.
Proof. intros h to subj body. eexists. reflexivity. Qed.

Lemma assignees_unique_kept_witness :
  assignees_unique db1 /\
  assignees_unique
    (snd (addAssignees 1 [(lit "Grace", Some 7); (lit "Grace", Some 7)] [] db1)).
Proof.
  assert (Hd : assignees_unique db1) by constructor.
  split; [exact Hd|].
  apply (proj1 (assignees_unique_kept db1 Hd)).
Defined.

Lemma dashboards_located_kept_witness :
  dashboards_located db1 /\
  dashboards_located
    (snd (createDashboard
            {| p_name := lit "help"; p_channel := lit "general";
               p_topic := lit "bot"; msgId := 9; intervalMs := 1000;
               p_params := [] |} [] db1)).
Proof.
  assert (Hd : dashboards_located db1)
    by (apply NoDup_ListNoDup; repeat constructor; cbn; intuition discriminate).
  split; [exact Hd|].
  apply (proj1 (dashboards_located_kept db1 Hd)).
Defined.

Lemma timers_consistent_kept_witness :
  timers_consistent world1 /\
  timers_consistent
    (snd (Dashboards.startTimer registry0 helpRow ctx0 true world1)).
Proof.
  assert (Hw : timers_consistent world1).
  { split; [|split; [constructor|split; constructor]].
    intros id h. split; [discriminate|]. intros (i & [] & _). }
  split; [exact Hw|].
  apply (proj1 (timers_consistent_kept registry0 ctx0 helpRow true world1 Hw)).
Defined.

Lemma handleStart_rejects_witness :
  registryGet registry0 (hd [] (Dashboards.words [] (lit "weather now"))) = None /\
  exists notice,
    snd (Dashboards.handleStart registry0 (lit "weather now") commandMsg ctx0
           world1)
    = set_log [MessagesSend (lit "general") (lit "build") notice] world1.
Proof.
  split; [reflexivity|].
  apply (handleStart_rejects registry0 ctx0 (lit "weather now") commandMsg world1).
  left. reflexivity.
Defined.

Lemma handleStart_fetch_failure_witness :
  registryGet registry0 (lit "rss") = Some Rss.rssDef /\
  gateway feedOffline
    [MessagesSend (lit "general") (lit "build")
       (lit "Starting dashboard `rss`" ++ [8230%N])]
    (HttpFetch (lit "https://example.com/feed.xml"))
  = Rejected (ErrorObject (lit "ECONNREFUSED")) /\
  fst (Dashboards.handleStart registry0 (lit "rss https://example.com/feed.xml")
         commandMsg ctx0 feedOffline)
  = Threw (ErrorObject (lit "ECONNREFUSED")) /\
  issued feedOffline
    (snd (Dashboards.handleStart registry0
            (lit "rss https://example.com/feed.xml") commandMsg ctx0
            feedOffline))
  = [MessagesSend (lit "general") (lit "build")
       (lit "Starting dashboard `rss`" ++ [8230%N]);
     HttpFetch (lit "https://example.com/feed.xml")] /\
  getDashboardByNameAndLocation (lit "rss") (lit "general") (lit "build")
    (db (snd (Dashboards.handleStart registry0
                (lit "rss https://example.com/feed.xml") commandMsg ctx0
                feedOffline)))
  = Some {| d_id := 4; d_name := lit "rss"; channel := lit "general";
            topic := lit "build"; msg_id := 700; interval_ms := 300000;
            params := lit "https://example.com/feed.xml"; bootstrapped := 0;
            d_created_at := lit "1000" |} /\
  issued
    (snd (Dashboards.handleStart registry0
            (lit "rss https://example.com/feed.xml") commandMsg ctx0
            feedOffline))
    (snd (Dashboards.handleStart registry0
            (lit "rss https://example.com/feed.xml") commandMsg ctx0
            (snd (Dashboards.handleStart registry0
                    (lit "rss https://example.com/feed.xml") commandMsg ctx0
                    feedOffline))))
  = [MessagesSend (lit "general") (lit "build")
       (lit "Dashboard `rss` is already running here.")].
Proof.
  split; [reflexivity|]. split; [reflexivity|].
  destruct (handleStart_fetch_failure registry0
              (lit "rss https://example.com/feed.xml") commandMsg ctx0
              feedOffline richResponse (ErrorObject (lit "ECONNREFUSED"))
              ltac:(reflexivity) ltac:(discriminate) ltac:(reflexivity)
              ltac:(reflexivity) ltac:(reflexivity)
              ltac:(left; reflexivity))
    as (Hthrew & Hissued & _ & _ & Hfound & _ & _ & Hagain & _).
  split; [exact Hthrew|]. split; [exact Hissued|].
  split; [exact Hfound|exact Hagain].
Defined.

Lemma splitMessage_trimmed_witness :
  0 < 4 /\ jslen (lit "aaa  bbb") > 4 /\
  exists first rest,
    splitMessage (lit "aaa  bbb") 4 = Some (first :: rest) /\
    Forall starts_clean rest /\
    Forall ends_clean (removelast (first :: rest)).
Proof.
  split; [lia|]. split; [reflexivity|].
  apply (splitMessage_trimmed (lit "aaa  bbb") 4); [lia|reflexivity].
Defined.

Lemma sendMessage_posts_witness :
  accepts_posts world1 /\
  exists chunks,
    splitMessage (lit "hello") MAX_MESSAGE_LENGTH = Some chunks /\
    chunks <> [] /\
    Forall (fun c => jslen c <= MAX_MESSAGE_LENGTH) chunks /\
    (jslen (lit "hello") <= MAX_MESSAGE_LENGTH -> chunks = [lit "hello"]) /\
    sendMessage (lit "general") (lit "build") (lit "hello") world1
    = (Returned tt,
       set_log (log world1
                ++ List.map (MessagesSend (lit "general") (lit "build")) chunks)
         world1).
Proof.
  split; [exact accepts_posts_world1|].
  apply (sendMessage_posts (lit "general") (lit "build") (lit "hello") world1).
  exact accepts_posts_world1.
Defined.

Lemma update_throttle_witness :
  finalized composer0 = false /\
  exists c' w',
    update (lit "a b") (composer0, world1) = (Returned tt, (c', w')) /\
    w' = world1 /\ latestContent c' = Some (lit "a b").
Proof.
  split; [reflexivity|].
  destruct (update_throttle (lit "a b") composer0 world1 eq_refl)
    as (c' & w' & Hrun & _ & _ & _ & _ & _ & Hkept).
  exists c', w'. split; [exact Hrun|].
  destruct Hkept as (Hw & _ & Hlatest). split; [exact Hw|exact Hlatest].
Defined.

Lemma askClaude_stream_witness :
  gateway world1 (log world1) (Query (lit "hi") (systemPrompt [])) =
  Resolved richResponse /\
  askClaude (lit "hi") [] record ([], world1)
  = (Returned (lit "Hello"),
     ([lit "Hello"], set_log [Query (lit "hi") (systemPrompt [])] world1)).
Proof.
  split; [reflexivity|].
  apply (askClaude_stream (lit "hi") [] [] world1 richResponse). reflexivity.
Defined.

Lemma answerWithClaude_contained_witness :
  gateway world1 (log world1)
    (MessagesSend (display_recipient commandMsg) (subject commandMsg) THINKING)
  = Resolved richResponse /\
  (fst (answerWithClaude commandMsg ctx0 world1)
   = Threw (ErrorObject (lit "boom")) -> False).
Proof.
  split; [reflexivity|].
  apply (answerWithClaude_contained commandMsg ctx0 world1 richResponse).
  reflexivity.
Defined.

Lemma answerWithClaude_blank_witness :
  accepts_posts world1 /\
  trim (htmlToText (m_content blankMsg)) = [] /\
  exists placeholder,
    gateway world1 (log world1)
      (MessagesSend (display_recipient blankMsg) (subject blankMsg) THINKING)
    = Resolved placeholder /\
    answerWithClaude blankMsg ctx0 world1
    = (Returned tt,
       set_log
         (log world1 ++
          [ MessagesSend (display_recipient blankMsg) (subject blankMsg) THINKING;
            deleteMessage (res_id placeholder);
            MessagesSend (display_recipient blankMsg) (subject blankMsg)
              (lit "It looks like you mentioned me but didn't include a question. How can I help?") ])
         world1).
Proof.
  split; [exact accepts_posts_world1|]. split; [reflexivity|].
  apply (answerWithClaude_blank blankMsg ctx0 world1);
    [exact accepts_posts_world1|reflexivity].
Defined.


Lemma poll_success_witness :
  gateway busy (log busy) (EventsRetrieve (lit "old") 41)
  = Resolved batchResponse /\
  fst (eventLoopTurn [claimer] (cursor0, busy)) = Returned tt /\
  fst (snd (eventLoopTurn [claimer] (cursor0, busy)))
  = {| queueId := lit "old"; lastEventId := 0 |} /\
  spawned (snd (snd (eventLoopTurn [claimer] (cursor0, busy))))
  = [SpawnHandleMessage mentionEvent].
Proof.
  split; [reflexivity|].
  exact (poll_success [claimer] cursor0 busy batchResponse batch eq_refl
           eq_refl).
Defined.

Lemma truncate_fits_witness :
  1 <= 5 /\
  jslen (Tasks.truncate (lit "fix the build") 5) <= 5 /\
  ~ In 10%N (Tasks.truncate (lit "fix the build") 5).
Proof.
  split; [lia|]. apply (truncate_fits (lit "fix the build") 5). lia.
Defined.

Lemma resolveTasksChannel_cached_witness :
  Tasks.resolveTasksChannel ctx0 (lit "general") world1
  = (Returned (lit "general"), afterResolve) /\
  tasksChannelCache afterResolve !! lit "general" = Some (lit "general") /\
  Tasks.resolveTasksChannel ctx0 (lit "general") afterResolve
  = (Returned (lit "general"), afterResolve).
Proof.
  assert (Hrun : Tasks.resolveTasksChannel ctx0 (lit "general") world1
                 = (Returned (lit "general"), afterResolve))
    by (vm_compute; reflexivity).
  split; [exact Hrun|].
  apply (resolveTasksChannel_cached ctx0 (lit "general") (lit "general")
           world1 afterResolve Hrun).
  discriminate.
Defined.

Lemma handleAssign_rejects_witness :
  TaskCommands.parseMentions (m_content commandMsg) (botUserId ctx0) = [] /\
  exists notice,
    snd (TaskCommands.handleAssign commandMsg ctx0 false world1)
    = set_log
        (log world1 ++
         [MessagesSend (display_recipient commandMsg) (subject commandMsg) notice])
        world1.
Proof.
  split; [reflexivity|].
  apply (handleAssign_rejects commandMsg ctx0 false world1).
  left. reflexivity.
Defined.

Lemma handleAssign_updates_witness :
  accepts_posts world1 /\
  getTaskByTaskMsgId 500 (db world1) = Some task0 /\
  assigned 1 7 (db world1) = false /\
  assigned 1 7 (db (snd (TaskCommands.handleAssign assignMsg ctx0 false world1)))
  = true.
Proof.
  split; [exact accepts_posts_world1|]. split; [reflexivity|].
  split; [reflexivity|].
  edestruct (handleAssign_updates assignMsg ctx0 false world1 500 task0)
    as (_ & Hall & _);
    [ exact accepts_posts_world1 | vm_compute; discriminate | reflexivity
    | discriminate | reflexivity | ].
  apply (Hall 7 (lit "Grace")). left. reflexivity.
Defined.



Lemma announcements_lost_witness :
  refuses_posts muted (ErrorObject (lit "rate limited")) /\
  feedItemSeen 3 (lit "g2") (db muted) = false /\
  fst (Rss.fetch (lit "https://example.com/feed.xml") ctx0 (feedRow 1) muted)
  = Threw (ErrorObject (lit "rate limited")) /\
  feedItemSeen 3 (lit "g2")
    (db (snd (Rss.fetch (lit "https://example.com/feed.xml") ctx0 (feedRow 1)
                muted))) = true.
Proof.
  assert (Hmute : refuses_posts muted (ErrorObject (lit "rate limited")))
    by (intros h to subj body; reflexivity).
  split; [exact Hmute|]. split; [reflexivity|].
  destruct (announcements_lost (lit "https://example.com/feed.xml") ctx0
              (feedRow 1) muted richResponse (lit "Feed") [item1; item2; item3]
              (ErrorObject (lit "rate limited")) item2
              ltac:(reflexivity) ltac:(reflexivity) ltac:(reflexivity)
              ltac:(reflexivity) ltac:(discriminate) Hmute
              ltac:(right; left; reflexivity) ltac:(reflexivity))
    as (Hthrow & _ & Hmarked & _).
  split; [exact Hthrow|]. apply (Hmarked item2). right. left. reflexivity.
Defined.

End OnTheInstallation.
